(** * I2C master multi-burst transaction engine (LaunchPad.c)

    A shallow embedding of the polled I2C master engine of
    [lab2_part3/LaunchPad.c]: the queue loader [I2C_fill_tx_fifo], the two
    engines [I2C_mstr_send_internal] and [I2C_mstr_read_internal], and the ten
    public wrappers.  The controller is a memory-mapped peripheral: the code
    observes it only through volatile register reads, changes it only through
    register writes, and lets time pass through [usec_delay].  The embedding
    keeps exactly that interface: a computation runs against a device state,
    and yields its result, the device state it leaves, and the list of bus
    accesses and delays it performed, in program order. *)

From Stdlib Require Import ZArith List Lia Bool.
From Stdlib Require Import Ascii.
From stdpp Require Import base list.
Import ListNotations.
Local Open Scope Z_scope.

(** ** Registers, events, burst types, return codes *)

(** The registers of [I2C1->MASTER] that the engine touches. *)
Inductive reg : Set :=
  | MSR | MFIFOSR | MFIFOCTL | MSA | MCTR | MTXDATA | MRXDATA.

(** One observable step: a volatile read with the value the controller gave,
    a volatile write with the value stored, a call [usec_delay(us)]. *)
Inductive event : Set :=
  | EvRead (r : reg) (v : Z)
  | EvWrite (r : reg) (v : Z)
  | EvDelay (us : Z).

(** [i2c_burst_type_t] (LaunchPad.c:162-168). *)
Inductive i2c_burst_type_t : Set :=
  | I2C_NORMAL | I2C_START | I2C_CONTINUE | I2C_END.

(** Return codes and the poll budget (LaunchPad.h:250-255, the file
    [unnamed/part_003]). *)
Definition I2C_SUCCESS : Z := 0.
Definition I2C_ERR_ARB_LOST : Z := 1.
Definition I2C_ERR_NACK : Z := 2.
Definition I2C_FIFO_LOAD_ERROR : Z := 3.
Definition I2C_ERR_TIMEOUT : Z := 4.
Definition I2C_TIMEOUT_COUNT : Z := 200000.

(** Arithmetic of [uint32_t] and the cast to [uint8_t]. *)
Definition u32 (x : Z) : Z := x mod 2 ^ 32.
Definition u8 (x : Z) : Z := x mod 2 ^ 8.

(** ** The vendor's register layout

    The bit masks and field offsets come from the device header of the
    microcontroller vendor, which is not part of the repository.  They are
    taken as parameters; the names are the ones the source uses. *)
Class hw_i2c : Set := {
  I2C_MSR_IDLE_MASK : Z;
  I2C_MSR_IDLE_CLEARED : Z;
  I2C_MSR_BUSY_MASK : Z;
  I2C_MSR_BUSY_SET : Z;
  I2C_MSR_ARBLST_MASK : Z;
  I2C_MSR_ARBLST_SET : Z;
  I2C_MSR_ERR_MASK : Z;
  I2C_MSR_ERR_SET : Z;
  I2C_MFIFOCTL_TXFLUSH_FLUSH : Z;
  I2C_MFIFOCTL_TXFLUSH_MASK : Z;
  I2C_MFIFOCTL_RXFLUSH_FLUSH : Z;
  I2C_MFIFOCTL_RXFLUSH_MASK : Z;
  I2C_MFIFOSR_TXFIFOCNT_MASK : Z;
  I2C_MFIFOSR_TXFIFOCNT_MAXIMUM : Z;
  I2C_MFIFOSR_RXFIFOCNT_MASK : Z;
  I2C_MFIFOSR_RXFIFOCNT_MINIMUM : Z;
  I2C_MFIFOSR_RXFIFOCNT_OFS : Z;
  I2C_MSA_SADDR_OFS : Z;
  I2C_MSA_DIR_TRANSMIT : Z;
  I2C_MSA_DIR_RECEIVE : Z;
  I2C_MCTR_START_ENABLE : Z;
  I2C_MCTR_STOP_ENABLE : Z;
  I2C_MCTR_ACK_DISABLE : Z;
  I2C_MCTR_ACK_ENABLE : Z;
  I2C_MCTR_BURSTRUN_ENABLE : Z;
  I2C_MCTR_MBLEN_OFS : Z;
  I2C_MCTR_MBLEN_MASK : Z;
  I2C_MRXDATA_VALUE_MASK : Z
}.

(** ** The controller as the code sees it

    A device is any state machine that answers register reads, accepts
    register writes and lets time pass.  Nothing is assumed about it: each
    theorem names the behaviour it needs. *)
Class device : Type := {
  dev : Type;
  dev_read : reg -> dev -> Z * dev;
  dev_write : reg -> Z -> dev -> dev;
  dev_delay : Z -> dev -> dev
}.

(** ** Computations over the device *)
Section Engine.
Context {L : hw_i2c} {D : device}.

(** A computation starts in a device state.  It gives its result, the
    device state it leaves and the events it performed, in order; or [None]
    when one of its loops used up the rounds the model allows it, so that the
    call has not returned.  That allowance, [fuel], belongs to the model
    only: a C loop runs for as long as its condition holds. *)
Definition M (A : Type) : Type := dev -> option (A * dev * list event).

Definition ret {A : Type} (a : A) : M A := fun d => Some (a, d, []).

Definition bind {A B : Type} (m : M A) (k : A -> M B) : M B :=
  fun d =>
    match m d with
    | None => None
    | Some (a, d1, e1) =>
        match k a d1 with
        | None => None
        | Some (b, d2, e2) => Some (b, d2, e1 ++ e2)
        end
    end.

#[global] Instance M_ret : MRet M := @ret.
#[global] Instance M_bind : MBind M := fun A B k m => bind m k.

Definition out_of_fuel {A : Type} : M A := fun _ => None.

Definition rd (r : reg) : M Z :=
  fun d => let (v, d') := dev_read r d in Some (v, d', [EvRead r v]).

Definition wr (r : reg) (v : Z) : M unit :=
  fun d => Some (tt, dev_write r v d, [EvWrite r v]).

Definition usec_delay (us : Z) : M unit :=
  fun d => Some (tt, dev_delay us d, [EvDelay us]).

(** ** Polling loops *)

(** The time-bounded wait (LaunchPad.c:1872-1880, 1943-1951, 2182-2190):
<<
    while ((I2C1->MASTER.MSR & mask) == pat) {
      if (--timeout == 0) return I2C_ERR_TIMEOUT;
      usec_delay(10);
    }
>>
    [Some e] means the enclosing function returns [e]; [None] means the loop
    was left through its condition.  [fuel] bounds the polls of the model. *)
Fixpoint wait_msr_timeout (fuel : nat) (mask pat timeout : Z) : M (option Z) :=
  match fuel with
  | O => out_of_fuel
  | S fuel' =>
      msr ← rd MSR;
      if Z.land msr mask =? pat then
        let timeout := u32 (timeout - 1) in
        if timeout =? 0 then ret (Some I2C_ERR_TIMEOUT)
        else usec_delay 10 ;; wait_msr_timeout fuel' mask pat timeout
      else ret None
  end.

(** The unbounded wait [while (cond(reg));] with an empty body
    (LaunchPad.c:1887, 2197, 2243, 2256). *)
Fixpoint poll_while (fuel : nat) (r : reg) (cond : Z -> bool) : M unit :=
  match fuel with
  | O => out_of_fuel
  | S fuel' =>
      v ← rd r;
      if cond v then poll_while fuel' r cond else ret tt
  end.

(** ** The transmit queue loader (LaunchPad.c:1809-1826)
<<
    for (uint8_t i = 0; i < count; i++) { ...; MTXDATA = buffer[i]; }
>>
    [count] is a [uint16_t] and the index [i] a [uint8_t]: [i++] takes 255
    to 0, and the test [i < count] compares the two values as integers.  So
    for a count above 255 the test never fails and the loop does not end.
    [fuel] bounds the rounds of the model.  [buffer[i]] past the end of the
    caller's array is undefined in C; the model reads 0 there. *)
Fixpoint fill_loop (fuel : nat) (buffer : list Z) (count i ret_status : Z)
    : M Z :=
  match fuel with
  | O => out_of_fuel
  | S fuel' =>
      if i <? count then
        sr ← rd MFIFOSR;
        let ret_status :=
          if Z.land sr I2C_MFIFOSR_TXFIFOCNT_MASK =? 0 then 0
          else ret_status in
        wr MTXDATA (default 0 (buffer !! Z.to_nat i)) ;;
        fill_loop fuel' buffer count (u8 (i + 1)) ret_status
      else ret ret_status
  end.

Definition I2C_fill_tx_fifo (fuel : nat) (buffer : list Z) (count : Z)
    : M Z :=
  fill_loop fuel buffer count 0 1.

(** ** Blocks shared by both engines *)

Definition is_normal (t : i2c_burst_type_t) : bool :=
  match t with I2C_NORMAL => true | _ => false end.

(** [if (i2c_type == I2C_NORMAL) { while (idle cleared) ... }]
    (LaunchPad.c:1869-1881, 2179-2191). *)
Definition wait_idle (fuel : nat) (i2c_type : i2c_burst_type_t) : M (option Z) :=
  if is_normal i2c_type then
    wait_msr_timeout fuel I2C_MSR_IDLE_MASK I2C_MSR_IDLE_CLEARED
      I2C_TIMEOUT_COUNT
  else ret None.

(** The [switch (i2c_type)] (LaunchPad.c:1908-1933, 2209-2234).  The
    [default:] arm is unreachable for a value of the enumeration. *)
Definition i2c_transaction_mode (t : i2c_burst_type_t) : Z :=
  match t with
  | I2C_NORMAL => Z.lor I2C_MCTR_START_ENABLE I2C_MCTR_STOP_ENABLE
  | I2C_START => I2C_MCTR_START_ENABLE
  | I2C_CONTINUE => I2C_MCTR_START_ENABLE
  | I2C_END => Z.lor I2C_MCTR_START_ENABLE I2C_MCTR_STOP_ENABLE
  end.

(** The word stored in [MCTR]; [ack] is [I2C_MCTR_ACK_DISABLE] on send and
    [I2C_MCTR_ACK_ENABLE] on receive (LaunchPad.c:1937-1939, 2238-2240). *)
Definition mctr_word (ack length : Z) (t : i2c_burst_type_t) : Z :=
  Z.lor (Z.lor (Z.lor ack (i2c_transaction_mode t)) I2C_MCTR_BURSTRUN_ENABLE)
    (Z.land (Z.shiftl length I2C_MCTR_MBLEN_OFS) I2C_MCTR_MBLEN_MASK).

(** The status classification (LaunchPad.c:1956-1963, 2246-2253); the two
    tests are two reads of the volatile register. *)
Definition check_status (ret_status : Z) : M Z :=
  msr ← rd MSR;
  if Z.land msr I2C_MSR_ARBLST_MASK =? I2C_MSR_ARBLST_SET then
    ret I2C_ERR_ARB_LOST
  else
    msr ← rd MSR;
    if Z.land msr I2C_MSR_ERR_MASK =? I2C_MSR_ERR_SET then ret I2C_ERR_NACK
    else ret ret_status.

(** ** The send engine (LaunchPad.c:1861-1969) *)

(** Flush of the transmit queue (LaunchPad.c:1884-1891). *)
Definition tx_not_flushed (sr : Z) : bool :=
  negb (Z.land sr I2C_MFIFOSR_TXFIFOCNT_MASK =? I2C_MFIFOSR_TXFIFOCNT_MAXIMUM).

Definition tx_fifo_flush (fuel : nat) : M unit :=
  ctl ← rd MFIFOCTL;
  wr MFIFOCTL (Z.lor ctl I2C_MFIFOCTL_TXFLUSH_FLUSH) ;;
  poll_while fuel MFIFOSR tx_not_flushed ;;
  ctl ← rd MFIFOCTL;
  wr MFIFOCTL (Z.land ctl (Z.lnot I2C_MFIFOCTL_TXFLUSH_MASK)).

(** Address and control registers (LaunchPad.c:1905-1939). *)
Definition send_program (slave length : Z) (t : i2c_burst_type_t) : M unit :=
  wr MSA (Z.lor (Z.shiftl slave I2C_MSA_SADDR_OFS) I2C_MSA_DIR_TRANSMIT) ;;
  wr MCTR (mctr_word I2C_MCTR_ACK_DISABLE length t).

(** The wait for the end of the burst (LaunchPad.c:1941-1951): [timeout] is
    reloaded and the same counted loop runs on the busy flag. *)
Definition send_wait_done (fuel : nat) : M (option Z) :=
  wait_msr_timeout fuel I2C_MSR_BUSY_MASK I2C_MSR_BUSY_SET I2C_TIMEOUT_COUNT.

Definition I2C_mstr_send_internal (fuel : nat) (slave : Z) (data : list Z)
    (length : Z) (i2c_type : i2c_burst_type_t) : M Z :=
  let ret_status := I2C_SUCCESS in
  early ← wait_idle fuel i2c_type;
  match early with
  | Some e => ret e
  | None =>
      tx_fifo_flush fuel ;;
      ret_status ←
        (if ret_status =? I2C_SUCCESS then
           filled ← I2C_fill_tx_fifo fuel data length;
           ret (if filled =? 0 then I2C_FIFO_LOAD_ERROR else ret_status)
         else ret ret_status);
      if ret_status =? I2C_SUCCESS then
        send_program slave length i2c_type ;;
        early ← send_wait_done fuel;
        match early with
        | Some e => ret e
        | None =>
            if ret_status =? I2C_SUCCESS then check_status ret_status
            else ret ret_status
        end
      else ret ret_status
  end.

(** ** The receive engine (LaunchPad.c:2171-2274) *)

(** Flush of the receive queue (LaunchPad.c:2194-2201). *)
Definition rx_not_flushed (sr : Z) : bool :=
  negb (Z.land sr I2C_MFIFOSR_RXFIFOCNT_MASK =? I2C_MFIFOSR_RXFIFOCNT_MINIMUM).

Definition rx_fifo_flush (fuel : nat) : M unit :=
  ctl ← rd MFIFOCTL;
  wr MFIFOCTL (Z.lor ctl I2C_MFIFOCTL_RXFLUSH_FLUSH) ;;
  poll_while fuel MFIFOSR rx_not_flushed ;;
  ctl ← rd MFIFOCTL;
  wr MFIFOCTL (Z.land ctl (Z.lnot I2C_MFIFOCTL_RXFLUSH_MASK)).

Definition read_program (slave length : Z) (t : i2c_burst_type_t) : M unit :=
  wr MSA (Z.lor (Z.shiftl slave I2C_MSA_SADDR_OFS) I2C_MSA_DIR_RECEIVE) ;;
  wr MCTR (mctr_word I2C_MCTR_ACK_ENABLE length t).

(** [while ((MSR & BUSY_MASK) == BUSY_SET);] (LaunchPad.c:2243). *)
Definition msr_busy (msr : Z) : bool :=
  Z.land msr I2C_MSR_BUSY_MASK =? I2C_MSR_BUSY_SET.

Definition read_wait_done (fuel : nat) : M unit := poll_while fuel MSR msr_busy.

(** The occupancy count of the receive queue, and the wait on it
    (LaunchPad.c:2256-2257). *)
Definition rx_count (sr : Z) : Z :=
  Z.shiftr (Z.land sr I2C_MFIFOSR_RXFIFOCNT_MASK) I2C_MFIFOSR_RXFIFOCNT_OFS.

Definition rx_short (length sr : Z) : bool := rx_count sr <? length.

Definition rx_wait (fuel : nat) (length : Z) : M unit :=
  poll_while fuel MFIFOSR (rx_short length).

(** The drain loop (LaunchPad.c:2262-2267); [n] counts the iterations left.
    [idx] and [length] are both [uint8_t], so the index does not wrap.  A store
    past the end of the caller's array is undefined in C; the model drops it. *)
Fixpoint rx_drain (n : nat) (idx : Z) (buffer : list Z) : M (list Z) :=
  match n with
  | O => ret buffer
  | S n' =>
      x ← rd MRXDATA;
      let buffer :=
        <[Z.to_nat idx := u8 (Z.land x I2C_MRXDATA_VALUE_MASK)]> buffer in
      usec_delay 30 ;;
      rx_drain n' (idx + 1) buffer
  end.

(** What follows the status check (LaunchPad.c:2255-2268). *)
Definition read_finish (fuel : nat) (buffer : list Z) (length ret_status : Z)
    : M (Z * list Z) :=
  rx_wait fuel length ;;
  if ret_status =? I2C_SUCCESS then
    buffer ← rx_drain (Z.to_nat length) 0 buffer;
    ret (ret_status, buffer)
  else ret (ret_status, buffer).

(** The call returns its status; the second component is the caller's array
    as the call leaves it. *)
Definition I2C_mstr_read_internal (fuel : nat) (slave : Z) (buffer : list Z)
    (length : Z) (i2c_type : i2c_burst_type_t) : M (Z * list Z) :=
  let ret_status := I2C_SUCCESS in
  early ← wait_idle fuel i2c_type;
  match early with
  | Some e => ret (e, buffer)
  | None =>
      rx_fifo_flush fuel ;;
      if ret_status =? I2C_SUCCESS then
        read_program slave length i2c_type ;;
        read_wait_done fuel ;;
        ret_status ← check_status ret_status;
        read_finish fuel buffer length ret_status
      else ret (ret_status, buffer)
  end.

(** ** The public entry points (LaunchPad.c:1997-2136, 2297-2414) *)

Definition I2C_mstr_send1 (fuel : nat) (slave data : Z) : M Z :=
  I2C_mstr_send_internal fuel slave [data] 1 I2C_NORMAL.

Definition I2C_mstr_send (fuel : nat) (slave : Z) (data : list Z) (length : Z)
    : M Z :=
  I2C_mstr_send_internal fuel slave data length I2C_NORMAL.

Definition I2C_mstr_send_start (fuel : nat) (slave : Z) (data : list Z)
    (length : Z) : M Z :=
  I2C_mstr_send_internal fuel slave data length I2C_START.

Definition I2C_mstr_send_continue (fuel : nat) (slave : Z) (data : list Z)
    (length : Z) : M Z :=
  I2C_mstr_send_internal fuel slave data length I2C_CONTINUE.

Definition I2C_mstr_send_end (fuel : nat) (slave : Z) (data : list Z)
    (length : Z) : M Z :=
  I2C_mstr_send_internal fuel slave data length I2C_END.

Definition I2C_mstr_read1 (fuel : nat) (slave : Z) (buffer : list Z)
    : M (Z * list Z) :=
  I2C_mstr_read_internal fuel slave buffer 1 I2C_NORMAL.

Definition I2C_mstr_read (fuel : nat) (slave : Z) (buffer : list Z)
    (length : Z) : M (Z * list Z) :=
  I2C_mstr_read_internal fuel slave buffer length I2C_NORMAL.

Definition I2C_mstr_read_start (fuel : nat) (slave : Z) (buffer : list Z)
    (length : Z) : M (Z * list Z) :=
  I2C_mstr_read_internal fuel slave buffer length I2C_START.

Definition I2C_mstr_read_continue (fuel : nat) (slave : Z) (buffer : list Z)
    (length : Z) : M (Z * list Z) :=
  I2C_mstr_read_internal fuel slave buffer length I2C_CONTINUE.

Definition I2C_mstr_read_end (fuel : nat) (slave : Z) (buffer : list Z)
    (length : Z) : M (Z * list Z) :=
  I2C_mstr_read_internal fuel slave buffer length I2C_END.

End Engine.

(** ** Program points

    The theorems speak of a call that has reached a given point of the
    function body.  Each definition below is the body of the engine up to
    that point: [Some e] when the call has already returned [e], [None] when
    control stands at the point. *)
Section Points.
Context {L : hw_i2c} {D : device}.

(** Through the flush of the transmit queue (LaunchPad.c:1864-1891). *)
Definition send_to_fill (fuel : nat) (t : i2c_burst_type_t) : M (option Z) :=
  early ← wait_idle fuel t;
  match early with
  | Some e => ret (Some e)
  | None => tx_fifo_flush fuel ;; ret None
  end.

(** Through the store that triggers the burst (LaunchPad.c:1864-1939). *)
Definition send_to_trigger (fuel : nat) (slave : Z) (data : list Z)
    (length : Z) (t : i2c_burst_type_t) : M (option Z) :=
  early ← send_to_fill fuel t;
  match early with
  | Some e => ret (Some e)
  | None =>
      filled ← I2C_fill_tx_fifo fuel data length;
      if filled =? 0 then ret (Some I2C_FIFO_LOAD_ERROR)
      else send_program slave length t ;; ret None
  end.

(** Through the wait for the end of the burst (LaunchPad.c:1864-1951). *)
Definition send_to_done (fuel : nat) (slave : Z) (data : list Z)
    (length : Z) (t : i2c_burst_type_t) : M (option Z) :=
  early ← send_to_trigger fuel slave data length t;
  match early with
  | Some e => ret (Some e)
  | None => send_wait_done fuel
  end.

(** Through the store that triggers the burst (LaunchPad.c:2174-2240). *)
Definition read_to_trigger (fuel : nat) (slave length : Z)
    (t : i2c_burst_type_t) : M (option Z) :=
  early ← wait_idle fuel t;
  match early with
  | Some e => ret (Some e)
  | None => rx_fifo_flush fuel ;; read_program slave length t ;; ret None
  end.

(** Through the wait for the end of the burst (LaunchPad.c:2174-2243). *)
Definition read_to_done (fuel : nat) (slave length : Z)
    (t : i2c_burst_type_t) : M (option Z) :=
  early ← read_to_trigger fuel slave length t;
  match early with
  | Some e => ret (Some e)
  | None => read_wait_done fuel ;; ret None
  end.

(** Through the status check (LaunchPad.c:2174-2253): [inr st] when control
    stands before the occupancy wait with [ret_status = st]. *)
Definition read_to_status (fuel : nat) (slave length : Z)
    (t : i2c_burst_type_t) : M (Z + Z) :=
  early ← read_to_done fuel slave length t;
  match early with
  | Some e => ret (inl e)
  | None => st ← check_status I2C_SUCCESS; ret (inr st)
  end.

End Points.

(** ** Shapes of traces *)

(** [n] polls of the status register, a 10 microsecond delay between two
    consecutive polls and none after the last. *)
Fixpoint poll_trace (vs : list Z) : list event :=
  match vs with
  | [] => []
  | [v] => [EvRead MSR v]
  | v :: vs' => EvRead MSR v :: EvDelay 10 :: poll_trace vs'
  end.

(** The accesses of the queue loader: for the byte at index [i], one read of
    the queue status, then the store of [buffer[i]]. *)
Fixpoint fill_trace (buffer : list Z) (i : Z) (srs : list Z) : list event :=
  match srs with
  | [] => []
  | sr :: srs' =>
      EvRead MFIFOSR sr :: EvWrite MTXDATA (default 0 (buffer !! Z.to_nat i))
        :: fill_trace buffer (i + 1) srs'
  end.

(** The accesses of the drain loop: each read of the data register is
    followed by a 30 microsecond delay. *)
Fixpoint drain_trace (xs : list Z) : list event :=
  match xs with
  | [] => []
  | x :: xs' => EvRead MRXDATA x :: EvDelay 30 :: drain_trace xs'
  end.

(** The caller's array after the bytes [xs] were stored from index [idx]. *)
Fixpoint store_bytes {L : hw_i2c} (idx : Z) (xs : list Z) (buffer : list Z)
    : list Z :=
  match xs with
  | [] => buffer
  | x :: xs' =>
      store_bytes (idx + 1) xs'
        (<[Z.to_nat idx := u8 (Z.land x I2C_MRXDATA_VALUE_MASK)]> buffer)
  end.

Definition is_read (r : reg) (e : event) : bool :=
  match e with
  | EvRead r' _ =>
      match r, r' with
      | MSR, MSR | MFIFOSR, MFIFOSR | MFIFOCTL, MFIFOCTL | MSA, MSA
      | MCTR, MCTR | MTXDATA, MTXDATA | MRXDATA, MRXDATA => true
      | _, _ => false
      end
  | _ => false
  end.

Definition is_write (r : reg) (e : event) : bool :=
  match e with
  | EvWrite r' _ =>
      match r, r' with
      | MSR, MSR | MFIFOSR, MFIFOSR | MFIFOCTL, MFIFOCTL | MSA, MSA
      | MCTR, MCTR | MTXDATA, MTXDATA | MRXDATA, MRXDATA => true
      | _, _ => false
      end
  | _ => false
  end.

(** ** Vocabulary of the statements *)
Section Vocabulary.
Context {L : hw_i2c} {D : device}.

(** Prefix the events [e1] to the outcome of what ran after them. *)
Definition after {A : Type} (e1 : list event)
    (o : option (A * dev * list event)) : option (A * dev * list event) :=
  match o with
  | None => None
  | Some (a, d, e) => Some (a, d, e1 ++ e)
  end.

(** Every event of every run of [m] satisfies [P]. *)
Definition emits {A : Type} (P : event -> Prop) (m : M A) : Prop :=
  forall d a d' e, m d = Some (a, d', e) -> Forall P e.

(** A set of device states that no access and no delay leaves. *)
Definition closed (I : dev -> Prop) : Prop :=
  (forall r d, I d -> I (dev_read r d).2) /\
  (forall r v d, I d -> I (dev_write r v d)) /\
  (forall us d, I d -> I (dev_delay us d)).

(** Every run of [m] that starts in [I] ends in [I]. *)
Definition keeps {A : Type} (I : dev -> Prop) (m : M A) : Prop :=
  forall d a d' e, I d -> m d = Some (a, d', e) -> I d'.

(** The queue status word reports a full transmit queue
    (the test of LaunchPad.c:1815). *)
Definition tx_full (sr : Z) : bool :=
  Z.land sr I2C_MFIFOSR_TXFIFOCNT_MASK =? 0.

(** The events of the idle wait and of the counted wait of the send engine:
    polls of [MSR] and 10 microsecond delays. *)
Definition ev_poll (e : event) : Prop :=
  match e with
  | EvRead MSR _ => True
  | EvDelay us => us = 10
  | _ => False
  end.

(** The events of the send engine before the queue is loaded. *)
Definition ev_send_setup (e : event) : Prop :=
  match e with
  | EvRead MSR _ | EvRead MFIFOCTL _ | EvRead MFIFOSR _
  | EvWrite MFIFOCTL _ => True
  | EvDelay us => us = 10
  | _ => False
  end.

(** The events of the queue loader. *)
Definition ev_fill (e : event) : Prop :=
  match e with
  | EvRead MFIFOSR _ | EvWrite MTXDATA _ => True
  | _ => False
  end.


(** The events of a receive call up to the occupancy wait. *)
Definition ev_read_pre (slave length : Z) (t : i2c_burst_type_t) (e : event)
    : Prop :=
  match e with
  | EvRead MSR _ | EvRead MFIFOCTL _ | EvRead MFIFOSR _
  | EvWrite MFIFOCTL _ => True
  | EvDelay us => us = 10
  | EvWrite MSA v =>
      v = Z.lor (Z.shiftl slave I2C_MSA_SADDR_OFS) I2C_MSA_DIR_RECEIVE
  | EvWrite MCTR v => v = mctr_word I2C_MCTR_ACK_ENABLE length t
  | _ => False
  end.




(** The status register always matches [pat] under [mask] in the states
    of [I]. *)
Definition msr_stuck (I : dev -> Prop) (mask pat : Z) : Prop :=
  forall d, I d -> Z.land (dev_read MSR d).1 mask = pat.

(** The transmit queue as the loader reads it, in the states of [I]:
    [free d] entries are free in state [d]; the status word reports "full"
    exactly when none is; reading the status changes nothing; a store to the
    data register takes one free entry when there is one. *)
Record tx_queue (I : dev -> Prop) (free : dev -> nat) : Prop := {
  txq_closed : closed I;
  txq_full :
    forall d, I d -> tx_full (dev_read MFIFOSR d).1 = true <-> free d = O;
  txq_status : forall d, I d -> free (dev_read MFIFOSR d).2 = free d;
  txq_store : forall v d, I d -> free (dev_write MTXDATA v d) = pred (free d)
}.

End Vocabulary.

(** ** A concrete layout and a concrete controller

    The general theorems below hold for every layout and every device.  Their
    instances and the counterexamples are run on the bit layout of the
    MSPM0G350x I2C controller and on a small simulated controller. *)

(** The fields as the MSPM0G350x reference manual places them: [MSR] has BUSY
    at bit 0, ERR at bit 1, ARBLST at bit 4 and IDLE at bit 5; [MCTR] has
    BURSTRUN, START, STOP and ACK at bits 0 to 3 and the burst length from
    bit 16; [MFIFOSR] has the receive count in bits 0 to 3 and the count of
    free transmit entries in bits 8 to 11; [MFIFOCTL] has the flush bits at
    positions 7 and 15. *)
Definition mspm0g350x : hw_i2c := {|
  I2C_MSR_IDLE_MASK := 0x20;
  I2C_MSR_IDLE_CLEARED := 0;
  I2C_MSR_BUSY_MASK := 0x1;
  I2C_MSR_BUSY_SET := 0x1;
  I2C_MSR_ARBLST_MASK := 0x10;
  I2C_MSR_ARBLST_SET := 0x10;
  I2C_MSR_ERR_MASK := 0x2;
  I2C_MSR_ERR_SET := 0x2;
  I2C_MFIFOCTL_TXFLUSH_FLUSH := 0x80;
  I2C_MFIFOCTL_TXFLUSH_MASK := 0x80;
  I2C_MFIFOCTL_RXFLUSH_FLUSH := 0x8000;
  I2C_MFIFOCTL_RXFLUSH_MASK := 0x8000;
  I2C_MFIFOSR_TXFIFOCNT_MASK := 0xF00;
  I2C_MFIFOSR_TXFIFOCNT_MAXIMUM := 0x800;
  I2C_MFIFOSR_RXFIFOCNT_MASK := 0xF;
  I2C_MFIFOSR_RXFIFOCNT_MINIMUM := 0;
  I2C_MFIFOSR_RXFIFOCNT_OFS := 0;
  I2C_MSA_SADDR_OFS := 1;
  I2C_MSA_DIR_TRANSMIT := 0;
  I2C_MSA_DIR_RECEIVE := 1;
  I2C_MCTR_START_ENABLE := 0x2;
  I2C_MCTR_STOP_ENABLE := 0x4;
  I2C_MCTR_ACK_DISABLE := 0;
  I2C_MCTR_ACK_ENABLE := 0x8;
  I2C_MCTR_BURSTRUN_ENABLE := 0x1;
  I2C_MCTR_MBLEN_OFS := 16;
  I2C_MCTR_MBLEN_MASK := 0x0FFF0000;
  I2C_MRXDATA_VALUE_MASK := 0xFF
|}.

(** A simulated controller in that layout.  Its status register holds one
    fixed word; the transmit queue has eight entries and is emptied only by
    a flush; a receive burst moves the first bytes the slave offers into the
    receive queue. *)
Record sim : Set := {
  sim_msr : Z;
  sim_tx_free : Z;
  sim_rx : list Z;
  sim_wire : list Z
}.

Definition sim_read (r : reg) (s : sim) : Z * sim :=
  match r with
  | MSR => (sim_msr s, s)
  | MFIFOSR =>
      (Z.lor (Z.shiftl (sim_tx_free s) 8) (Z.of_nat (length (sim_rx s))), s)
  | MRXDATA =>
      (hd 0 (sim_rx s),
       {| sim_msr := sim_msr s; sim_tx_free := sim_tx_free s;
          sim_rx := tl (sim_rx s); sim_wire := sim_wire s |})
  | _ => (0, s)
  end.

Definition sim_write (r : reg) (v : Z) (s : sim) : sim :=
  match r with
  | MFIFOCTL =>
      {| sim_msr := sim_msr s;
         sim_tx_free := if Z.testbit v 7 then 8 else sim_tx_free s;
         sim_rx := if Z.testbit v 15 then [] else sim_rx s;
         sim_wire := sim_wire s |}
  | MTXDATA =>
      {| sim_msr := sim_msr s;
         sim_tx_free := Z.max 0 (sim_tx_free s - 1);
         sim_rx := sim_rx s; sim_wire := sim_wire s |}
  | MCTR =>
      {| sim_msr := sim_msr s; sim_tx_free := sim_tx_free s;
         sim_rx :=
           if Z.testbit v 3
           then firstn (Z.to_nat (Z.shiftr v 16)) (sim_wire s)
           else sim_rx s;
         sim_wire := sim_wire s |}
  | _ => s
  end.

Definition sim_device : device := {|
  dev := sim;
  dev_read := sim_read;
  dev_write := sim_write;
  dev_delay := fun _ s => s
|}.

(** The simulated controller at rest, reporting status word [msr], with the
    slave ready to send [wire]. *)
Definition sim_init (msr : Z) (wire : list Z) : sim :=
  {| sim_msr := msr; sim_tx_free := 8; sim_rx := []; sim_wire := wire |}.

(** The states of the simulated controller in which nothing is or will be
    received and the count of free transmit entries is in range. *)
Definition sim_quiet (s : sim) : Prop :=
  0 <= sim_tx_free s <= 8 /\ sim_rx s = [] /\ sim_wire s = [].

(** ** Further vocabulary: what a trace carries *)

(** The bytes stored in the transmit data register, in order. *)
Fixpoint tx_bytes (evs : list event) : list Z :=
  match evs with
  | [] => []
  | EvWrite MTXDATA v :: evs' => v :: tx_bytes evs'
  | _ :: evs' => tx_bytes evs'
  end.

(** The words read from the receive data register, in order. *)
Fixpoint rx_words (evs : list event) : list Z :=
  match evs with
  | [] => []
  | EvRead MRXDATA v :: evs' => v :: rx_words evs'
  | _ :: evs' => rx_words evs'
  end.


(** * The LCD1602 module (lcd1602.c)

    The module drives the display through the engine: every byte it sends
    goes out by [I2C_mstr_send1]. *)

(** Constants of LCD1602.h (the file [unnamed/part_004]). *)
Definition LCD_IIC_ADDRESS : Z := 0x27.
Definition BASE_TEN : Z := 10.
Definition IIC_TIME_DELAY_1MS : Z := 1.
Definition IIC_TIME_DELAY_2MS : Z := 2.
Definition NIBBLE_SHIFT : Z := 4.
Definition UPPER_NIBBLE_MASK : Z := 0xF0.
Definition LOWER_NIBBLE_MASK : Z := 0x0F.
Definition READ_ENABLE : Z := Z.shiftl 1 1.
Definition WRITE_ENABLE : Z := 0x0.
Definition LATCH_ENABLE : Z := 0x4.
Definition LCD_INSTR_REG : Z := 0x0.
Definition LCD_DATA_REG : Z := 0x1.
Definition LCD_BACKLIGHT_BIT_MASK : Z := Z.shiftl 1 3.
Definition LCD_CLEAR_DISPLAY_CMD : Z := 0x01.
Definition LCD_ENTRY_MODE_SET_CMD : Z := 0x04.
Definition LCD_DISPLAY_CNTRL_CMD : Z := 0x08.
Definition LCD_FUNCTION_SET_CMD : Z := 0x20.
Definition LCD_SET_DDRAM_ADDR_CMD : Z := 0x80.
Definition LCD_8BIT_MODE : Z := 0x10.
Definition LCD_4BIT_MODE : Z := 0x00.
Definition LCD_2_LINE_DISPLAY : Z := 0x08.
Definition LCD_5x8_DOTS : Z := 0x00.
Definition LCD_DISPLAY_ON : Z := 0x04.
Definition LCD_CURSOR_OFF : Z := 0x00.
Definition LCD_BLINK_OFF : Z := 0x00.
Definition LCD_ADDR_INC_ENABLE : Z := 0x02.
Definition LCD_SHIFT_DISABLE : Z := 0x00.
Definition LCD1602_E_SETUP_DELAY : Z := 50.
Definition LCD1602_HOLD_DELAY : Z := 50.
Definition LCD1602_E_PULSE_WIDTH : Z := 50.

(** The code of a character constant, and the cast to [int8_t]. *)
Definition chr (c : Ascii.ascii) : Z := Z.of_N (Ascii.N_of_ascii c).
Arguments chr c%_char.
Definition s8 (x : Z) : Z := (x + 2 ^ 7) mod 2 ^ 8 - 2 ^ 7.

(** ** Conversions to ASCII *)

(** [hex_to_ascii] (lcd1602.c:386-401). *)
Definition hex_to_ascii (hex_value : Z) : Z :=
  let lower_nibble := u8 (Z.land hex_value LOWER_NIBBLE_MASK) in
  if lower_nibble <=? 9
  then s8 (chr "0" + lower_nibble)
  else s8 (chr "A" + (lower_nibble - BASE_TEN)).

(** The loop shared, but for its bound and the type of its counter, by
    [byte_to_ascii], [doublebyte_to_ascii] and [quadbyte_to_ascii]
    (lcd1602.c:453-468, 496-511, 539-554):
<<
    for (digit_idx = 0; digit_idx < width; digit_idx++)
      if ((v != 0) || (digit_idx == 0)) {
        string[last-digit_idx] = '0' + (v % BASE_TEN);
        v /= BASE_TEN;
      } else
        string[last-digit_idx] = ' ';
>>
    [n] is the number of rounds left.  A store outside the array is undefined
    in C; here it leaves the array as it is, and the theorems ask for an
    array long enough. *)
Fixpoint to_ascii_loop (last : nat) (n : nat) (digit_idx : nat) (v : Z)
    (string : list Z) : list Z :=
  match n with
  | O => string
  | S n' =>
      if negb (v =? 0) || Nat.eqb digit_idx 0 then
        to_ascii_loop last n' (S digit_idx) (v / BASE_TEN)
          (<[(last - digit_idx)%nat := chr "0" + v mod BASE_TEN]> string)
      else
        to_ascii_loop last n' (S digit_idx) v
          (<[(last - digit_idx)%nat := chr " "]> string)
  end.

(** [byte_to_ascii] (lcd1602.c:450-470). *)
Definition byte_to_ascii (byte : Z) (string : list Z) : list Z :=
  to_ascii_loop 2 3 0 byte string.

(** [doublebyte_to_ascii] (lcd1602.c:493-513). *)
Definition doublebyte_to_ascii (doublebyte : Z) (string : list Z) : list Z :=
  to_ascii_loop 4 5 0 doublebyte string.

(** [quadbyte_to_ascii] (lcd1602.c:536-556). *)
Definition quadbyte_to_ascii (quadbyte : Z) (string : list Z) : list Z :=
  to_ascii_loop 9 10 0 quadbyte string.

(** What the conversions are compared with: the decimal digits of [v] in a
    field of [w] characters, right-justified and padded with spaces, the
    units digit always written; and the number such a field spells. *)
Definition decimal_char (v : Z) (k : nat) : Z :=
  if Nat.eqb k 0 || (10 ^ Z.of_nat k <=? v)
  then chr "0" + (v / 10 ^ Z.of_nat k) mod 10
  else chr " ".

Definition decimal_field (w : nat) (v : Z) : list Z :=
  map (decimal_char v) (rev (seq 0 w)).

Definition decimal_value (field : list Z) : Z :=
  fold_left (fun acc c => 10 * acc + (if c =? chr " " then 0 else c - chr "0"))
    field 0.

(** ** The module's state and its computations *)

(** One observable step of the module: a step of the engine (a register
    access or a call [usec_delay]), or a call [msec_delay(ms)]. *)
Inductive lcd_event : Set :=
  | LcdBus (e : event)
  | LcdMsec (ms : Z).

(** The steps of the engine among the steps of the module. *)
Fixpoint bus_events (evs : list lcd_event) : list event :=
  match evs with
  | [] => []
  | LcdBus e :: evs' => e :: bus_events evs'
  | LcdMsec _ :: evs' => bus_events evs'
  end.

(** The calls [msec_delay], in order. *)
Fixpoint msec_delays (evs : list lcd_event) : list Z :=
  match evs with
  | [] => []
  | LcdBus _ :: evs' => msec_delays evs'
  | LcdMsec ms :: evs' => ms :: msec_delays evs'
  end.

(** The polls of the controller's status register. *)
Definition msr_polls (evs : list event) : nat :=
  List.length (filter (fun e => is_read MSR e) evs).

Section Lcd.
Context {L : hw_i2c} {D : device}.

(** The static variable [g_lcd_backlight_mode] (lcd1602.c:57) and the
    controller. *)
Record lcd_state : Type := {
  g_lcd_backlight_mode : Z;
  lcd_bus : dev
}.

Definition LM (A : Type) : Type :=
  lcd_state -> option (A * lcd_state * list lcd_event).

Definition lcd_ret {A : Type} (a : A) : LM A := fun s => Some (a, s, []).

Definition lcd_bind {A B : Type} (m : LM A) (k : A -> LM B) : LM B :=
  fun s =>
    match m s with
    | None => None
    | Some (a, s1, e1) =>
        match k a s1 with
        | None => None
        | Some (b, s2, e2) => Some (b, s2, e1 ++ e2)
        end
    end.

#[global] Instance LM_ret : MRet LM := @lcd_ret.
#[global] Instance LM_bind : MBind LM := fun A B k m => lcd_bind m k.

(** A call into the engine. *)
Definition on_bus {A : Type} (m : M A) : LM A :=
  fun s =>
    match m (lcd_bus s) with
    | None => None
    | Some (a, d, e) =>
        Some (a, {| g_lcd_backlight_mode := g_lcd_backlight_mode s;
                    lcd_bus := d |}, map LcdBus e)
    end.

(** [msec_delay(ms)] (clock.c): the controller sees the time pass. *)
Definition msec_delay (ms : Z) : LM unit :=
  fun s =>
    Some (tt, {| g_lcd_backlight_mode := g_lcd_backlight_mode s;
                 lcd_bus := dev_delay (1000 * ms) (lcd_bus s) |},
          [LcdMsec ms]).

Definition get_backlight_mode : LM Z :=
  fun s => Some (g_lcd_backlight_mode s, s, []).

Definition set_backlight_mode (g : Z) : LM unit :=
  fun s =>
    Some (tt, {| g_lcd_backlight_mode := g; lcd_bus := lcd_bus s |}, []).

(** [lcd1602_write] (lcd1602.c:167-208).  The two nibbles are [uint8_t];
    [status] collects the codes of the seven sends with [|=]. *)
Definition lcd1602_write (fuel : nat) (iic_addr data reg_select : Z) : LM Z :=
  let status := 0 in
  let upper_nibble := u8 (Z.land data UPPER_NIBBLE_MASK) in
  let lower_nibble :=
    u8 (Z.shiftl (Z.land data LOWER_NIBBLE_MASK) NIBBLE_SHIFT) in
  g ← get_backlight_mode;
  let upper_nibble :=
    u8 (Z.lor upper_nibble (Z.lor (Z.lor g WRITE_ENABLE) reg_select)) in
  g ← get_backlight_mode;
  let lower_nibble :=
    u8 (Z.lor lower_nibble (Z.lor (Z.lor g WRITE_ENABLE) reg_select)) in
  r ← on_bus (I2C_mstr_send1 fuel iic_addr upper_nibble);
  let status := Z.lor status r in
  on_bus (usec_delay LCD1602_E_SETUP_DELAY) ;;
  r ← on_bus (I2C_mstr_send1 fuel iic_addr
                (u8 (Z.lor upper_nibble LATCH_ENABLE)));
  let status := Z.lor status r in
  on_bus (usec_delay LCD1602_E_PULSE_WIDTH) ;;
  r ← on_bus (I2C_mstr_send1 fuel iic_addr upper_nibble);
  let status := Z.lor status r in
  on_bus (usec_delay LCD1602_HOLD_DELAY) ;;
  r ← on_bus (I2C_mstr_send1 fuel iic_addr lower_nibble);
  let status := Z.lor status r in
  on_bus (usec_delay LCD1602_E_SETUP_DELAY) ;;
  r ← on_bus (I2C_mstr_send1 fuel iic_addr
                (u8 (Z.lor lower_nibble LATCH_ENABLE)));
  let status := Z.lor status r in
  on_bus (usec_delay LCD1602_E_PULSE_WIDTH) ;;
  r ← on_bus (I2C_mstr_send1 fuel iic_addr lower_nibble);
  let status := Z.lor status r in
  on_bus (usec_delay LCD1602_HOLD_DELAY) ;;
  g ← get_backlight_mode;
  r ← on_bus (I2C_mstr_send1 fuel iic_addr (u8 (Z.lor g READ_ENABLE)));
  let status := Z.lor status r in
  msec_delay IIC_TIME_DELAY_2MS ;;
  mret status.

(** [lcd_set_backlight_off] (lcd1602.c:228-235).  [~LCD_BACKLIGHT_BIT_MASK]
    is a 32-bit word; the result is stored in a [uint8_t]. *)
Definition lcd_set_backlight_off (fuel : nat) : LM unit :=
  g ← get_backlight_mode;
  set_backlight_mode
    (u8 (Z.land g (u32 (Z.lnot LCD_BACKLIGHT_BIT_MASK)))) ;;
  g ← get_backlight_mode;
  on_bus (I2C_mstr_send1 fuel LCD_IIC_ADDRESS g) ;;
  msec_delay IIC_TIME_DELAY_1MS.

(** [lcd_set_backlight_on] (lcd1602.c:253-260). *)
Definition lcd_set_backlight_on (fuel : nat) : LM unit :=
  g ← get_backlight_mode;
  set_backlight_mode (u8 (Z.lor g LCD_BACKLIGHT_BIT_MASK)) ;;
  g ← get_backlight_mode;
  on_bus (I2C_mstr_send1 fuel LCD_IIC_ADDRESS g) ;;
  msec_delay IIC_TIME_DELAY_1MS.

(** [lcd_set_ddram_addr] (lcd1602.c:281-287). *)
Definition lcd_set_ddram_addr (fuel : nat) (address : Z) : LM unit :=
  let command := u8 (Z.lor address LCD_SET_DDRAM_ADDR_CMD) in
  lcd1602_write fuel LCD_IIC_ADDRESS command LCD_INSTR_REG ;;
  mret tt.

(** [lcd_write_char] (lcd1602.c:308-313). *)
Definition lcd_write_char (fuel : nat) (character : Z) : LM unit :=
  lcd1602_write fuel LCD_IIC_ADDRESS character LCD_DATA_REG ;;
  mret tt.

(** [lcd_write_string] (lcd1602.c:335-343).  The array is given by its
    characters; a NUL follows its last one. *)
Fixpoint lcd_write_string (fuel : nat) (string : list Z) : LM unit :=
  match string with
  | [] => mret tt
  | c :: string' =>
      if c =? 0 then mret tt
      else lcd_write_char fuel c ;; lcd_write_string fuel string'
  end.

(** [lcd_clear] (lcd1602.c:360-365). *)
Definition lcd_clear (fuel : nat) : LM unit :=
  lcd1602_write fuel LCD_IIC_ADDRESS LCD_CLEAR_DISPLAY_CMD LCD_INSTR_REG ;;
  mret tt.

(** [hex_to_lcd] (lcd1602.c:422-427): the [int8_t] result is passed as a
    [uint8_t]. *)
Definition hex_to_lcd (fuel : nat) (hex_value : Z) : LM unit :=
  lcd_write_char fuel (u8 (hex_to_ascii hex_value)).

(** [lcd_write_byte], [lcd_write_doublebyte], [lcd_write_quadbyte]
    (lcd1602.c:576-648).  The local array holds the spaces of its
    initialiser. *)
Definition lcd_write_byte (fuel : nat) (byte : Z) : LM unit :=
  let string_buffer := repeat (chr " ") 3 in
  let string_buffer := byte_to_ascii byte string_buffer in
  lcd_write_string fuel string_buffer.

Definition lcd_write_doublebyte (fuel : nat) (doublebyte : Z) : LM unit :=
  let string_buffer := repeat (chr " ") 5 in
  let string_buffer := doublebyte_to_ascii doublebyte string_buffer in
  lcd_write_string fuel string_buffer.

Definition lcd_write_quadbyte (fuel : nat) (quadbyte : Z) : LM unit :=
  let string_buffer := repeat (chr " ") 10 in
  let string_buffer := quadbyte_to_ascii quadbyte string_buffer in
  lcd_write_string fuel string_buffer.

(** [lcd1602_init] (lcd1602.c:86-126): the table of commands, the loop
    over its first four entries, the loop over the others. *)
Definition lcd_init_code : list Z :=
  [ Z.lor LCD_FUNCTION_SET_CMD LCD_8BIT_MODE;
    Z.lor LCD_FUNCTION_SET_CMD LCD_8BIT_MODE;
    Z.lor LCD_FUNCTION_SET_CMD LCD_8BIT_MODE;
    Z.lor LCD_FUNCTION_SET_CMD LCD_4BIT_MODE;
    Z.lor (Z.lor (Z.lor LCD_FUNCTION_SET_CMD LCD_4BIT_MODE)
             LCD_2_LINE_DISPLAY) LCD_5x8_DOTS;
    Z.lor (Z.lor (Z.lor LCD_DISPLAY_CNTRL_CMD LCD_DISPLAY_ON)
             LCD_CURSOR_OFF) LCD_BLINK_OFF;
    Z.lor (Z.lor LCD_ENTRY_MODE_SET_CMD LCD_ADDR_INC_ENABLE)
      LCD_SHIFT_DISABLE;
    LCD_CLEAR_DISPLAY_CMD ].

Fixpoint init_nibble_loop (fuel : nat) (codes : list Z) (status : Z) : LM Z :=
  match codes with
  | [] => mret status
  | code :: codes' =>
      r ← on_bus (I2C_mstr_send1 fuel LCD_IIC_ADDRESS
                    (u8 (Z.lor (Z.lor (Z.lor code LATCH_ENABLE) WRITE_ENABLE)
                           LCD_INSTR_REG)));
      let status := Z.lor status r in
      msec_delay IIC_TIME_DELAY_2MS ;;
      r ← on_bus (I2C_mstr_send1 fuel LCD_IIC_ADDRESS
                    (u8 (Z.lor (Z.lor code WRITE_ENABLE) LCD_INSTR_REG)));
      let status := Z.lor status r in
      msec_delay IIC_TIME_DELAY_2MS ;;
      init_nibble_loop fuel codes' status
  end.

Fixpoint init_write_loop (fuel : nat) (codes : list Z) (status : Z) : LM Z :=
  match codes with
  | [] => mret status
  | code :: codes' =>
      r ← lcd1602_write fuel LCD_IIC_ADDRESS code LCD_INSTR_REG;
      let status := Z.lor status r in
      msec_delay IIC_TIME_DELAY_2MS ;;
      init_write_loop fuel codes' status
  end.

Definition lcd1602_init (fuel : nat) : LM Z :=
  let status := 0 in
  status ← init_nibble_loop fuel (take 4 lcd_init_code) status;
  status ← init_write_loop fuel (drop 4 lcd_init_code) status;
  lcd_set_backlight_on fuel ;;
  mret status.

End Lcd.

(** The sixteen hexadecimal digits, and the seven bytes by which
    [lcd1602_write] passes [data] to the display when the backlight mode is
    [g]: each nibble with the latch bit low, high, low; then the release. *)
Definition hex_digit_chars : list Z :=
  map chr ["0"; "1"; "2"; "3"; "4"; "5"; "6"; "7"; "8"; "9";
           "A"; "B"; "C"; "D"; "E"; "F"]%char.

Definition lcd_write_bytes (g data reg_select : Z) : list Z :=
  let up := Z.lor (Z.land data UPPER_NIBBLE_MASK) (Z.lor g reg_select) in
  let lo :=
    Z.lor (Z.shiftl (Z.land data LOWER_NIBBLE_MASK) NIBBLE_SHIFT)
      (Z.lor g reg_select) in
  [up; Z.lor up LATCH_ENABLE; up; lo; Z.lor lo LATCH_ENABLE; lo;
   Z.lor g READ_ENABLE].

(** The byte the display latches from a nibble pair: the high halves of the
    two bytes sent with the latch bit high. *)
Definition lcd_latched (bytes : list Z) : Z :=
  Z.lor (Z.land (nth 1 bytes 0) UPPER_NIBBLE_MASK)
    (Z.shiftr (nth 4 bytes 0) NIBBLE_SHIFT).

Section LcdVocabulary.
Context {L : hw_i2c} {D : device}.

(** The events [e1] happened before the run [o]. *)
Definition lcd_after {A : Type} (e1 : list lcd_event)
    (o : option (A * lcd_state * list lcd_event))
    : option (A * lcd_state * list lcd_event) :=
  match o with
  | None => None
  | Some (a, s, e) => Some (a, s, e1 ++ e)
  end.

(** Every run of [m] that starts with the backlight mode in [P] ends with
    it in [P]. *)
Definition keeps_mode {A : Type} (P : Z -> Prop) (m : LM A) : Prop :=
  forall s a s' e,
    P (g_lcd_backlight_mode s) -> m s = Some (a, s', e) ->
    P (g_lcd_backlight_mode s').

(** The two values the backlight mode takes. *)
Definition backlight_mode_ok (g : Z) : Prop :=
  g = 0 \/ g = LCD_BACKLIGHT_BIT_MASK.

(** On a controller in [I], the computation [m] returns a result in [R]
    after [n] countdowns of [I2C_TIMEOUT_COUNT] polls of the status register,
    having stored no byte in the transmit data register; it leaves the
    controller in [I]. *)
Definition times_out {A : Type} (I : dev -> Prop) (n : nat) (R : A -> Prop)
    (m : LM A) : Prop :=
  forall s, I (lcd_bus s) ->
    exists a s' evs,
      m s = Some (a, s', evs) /\ R a /\ I (lcd_bus s') /\
      Z.of_nat (msr_polls (bus_events evs))
        = Z.of_nat n * I2C_TIMEOUT_COUNT /\
      tx_bytes (bus_events evs) = [].

End LcdVocabulary.

(** The module over the simulated controller: backlight mode [g], the
    controller at rest with status word [msr]. *)
Definition sim_lcd (g msr : Z) : @lcd_state sim_device :=
  @Build_lcd_state sim_device g (sim_init msr []).

(** * The board's pins (LaunchPad.c)

    The LEDs, the seven-segment displays, the switches and the keypad hang
    on the two GPIO ports.  The code drives a pin through the data output
    register [DOUT31_0] of its port and reads one through the data input
    register [DIN31_0]. *)

Definition ACTIVE_LOW : Z := 0.
Definition ACTIVE_HIGH : Z := 1.
Definition GPIO_PORTA : Z := 0.
Definition GPIO_PORTB : Z := 1.
Definition MAX_NUM_LEDS : nat := 8.
Definition MAX_NUM_DIPSW : Z := 4.
Definition MAX_NUM_KP_ROWS : nat := 4.
Definition MAX_NUM_KP_COLS : nat := 4.
Definition LED_BAR_ENABLE_IDX : nat := 4.
Definition NO_KEY_PRESSED : Z := 0x10.
Definition MAX_NUM_KEYPAD_KEYS : nat := 0x10.

(** [gpio_struct] (LaunchPad.c:78-84).  The field [pin_cm], an index of the
    vendor's pin multiplexer that only the init functions use, is left
    out. *)
Record gpio_struct : Set := {
  port_id : Z;
  bit_mask : Z;
  polarity : Z
}.

(** The configuration tables (LaunchPad.c:97-153; the masks are those of
    LaunchPad.h, the file [unnamed/part_003]). *)
Definition lp_led_config_data : list gpio_struct :=
  [ {| port_id := GPIO_PORTA; bit_mask := Z.shiftl 1 0;
       polarity := ACTIVE_LOW |};
    {| port_id := GPIO_PORTB; bit_mask := Z.shiftl 1 26;
       polarity := ACTIVE_HIGH |};
    {| port_id := GPIO_PORTB; bit_mask := Z.shiftl 1 27;
       polarity := ACTIVE_HIGH |};
    {| port_id := GPIO_PORTB; bit_mask := Z.shiftl 1 22;
       polarity := ACTIVE_HIGH |} ].

Definition led_config_data : list gpio_struct :=
  [ {| port_id := GPIO_PORTA; bit_mask := Z.shiftl 1 28;
       polarity := ACTIVE_LOW |};
    {| port_id := GPIO_PORTA; bit_mask := Z.shiftl 1 31;
       polarity := ACTIVE_LOW |};
    {| port_id := GPIO_PORTB; bit_mask := Z.shiftl 1 20;
       polarity := ACTIVE_LOW |};
    {| port_id := GPIO_PORTB; bit_mask := Z.shiftl 1 13;
       polarity := ACTIVE_LOW |};
    {| port_id := GPIO_PORTA; bit_mask := Z.shiftl 1 12;
       polarity := ACTIVE_LOW |};
    {| port_id := GPIO_PORTA; bit_mask := Z.shiftl 1 13;
       polarity := ACTIVE_LOW |};
    {| port_id := GPIO_PORTA; bit_mask := Z.shiftl 1 16;
       polarity := ACTIVE_LOW |};
    {| port_id := GPIO_PORTA; bit_mask := Z.shiftl 1 17;
       polarity := ACTIVE_LOW |} ].

Definition enable_controls : list gpio_struct :=
  [ {| port_id := GPIO_PORTA; bit_mask := Z.shiftl 1 24;
       polarity := ACTIVE_HIGH |};
    {| port_id := GPIO_PORTA; bit_mask := Z.shiftl 1 25;
       polarity := ACTIVE_HIGH |};
    {| port_id := GPIO_PORTA; bit_mask := Z.shiftl 1 26;
       polarity := ACTIVE_HIGH |};
    {| port_id := GPIO_PORTA; bit_mask := Z.shiftl 1 27;
       polarity := ACTIVE_HIGH |};
    {| port_id := GPIO_PORTA; bit_mask := Z.shiftl 1 18;
       polarity := ACTIVE_HIGH |} ].

Definition lp_switch_config_data : list gpio_struct :=
  [ {| port_id := GPIO_PORTA; bit_mask := Z.shiftl 1 18;
       polarity := ACTIVE_HIGH |};
    {| port_id := GPIO_PORTB; bit_mask := Z.shiftl 1 21;
       polarity := ACTIVE_LOW |} ].

Definition dip_switch_config_data : list gpio_struct :=
  [ {| port_id := GPIO_PORTB; bit_mask := Z.shiftl 1 19;
       polarity := ACTIVE_LOW |};
    {| port_id := GPIO_PORTA; bit_mask := Z.shiftl 1 22;
       polarity := ACTIVE_LOW |};
    {| port_id := GPIO_PORTB; bit_mask := Z.shiftl 1 18;
       polarity := ACTIVE_LOW |};
    {| port_id := GPIO_PORTA; bit_mask := Z.shiftl 1 15;
       polarity := ACTIVE_LOW |} ].

Definition kp_col_config_data : list gpio_struct :=
  [ {| port_id := GPIO_PORTB; bit_mask := Z.shiftl 1 12;
       polarity := ACTIVE_HIGH |};
    {| port_id := GPIO_PORTB; bit_mask := Z.shiftl 1 17;
       polarity := ACTIVE_HIGH |};
    {| port_id := GPIO_PORTB; bit_mask := Z.shiftl 1 15;
       polarity := ACTIVE_HIGH |};
    {| port_id := GPIO_PORTB; bit_mask := Z.shiftl 1 16;
       polarity := ACTIVE_HIGH |} ].

Definition kp_row_config_data : list gpio_struct :=
  [ {| port_id := GPIO_PORTB; bit_mask := Z.shiftl 1 23;
       polarity := ACTIVE_HIGH |};
    {| port_id := GPIO_PORTA; bit_mask := Z.shiftl 1 8;
       polarity := ACTIVE_HIGH |};
    {| port_id := GPIO_PORTB; bit_mask := Z.shiftl 1 4;
       polarity := ACTIVE_HIGH |};
    {| port_id := GPIO_PORTB; bit_mask := Z.shiftl 1 1;
       polarity := ACTIVE_HIGH |} ].

(** [keycodes] (LaunchPad.c:174-190): for each key the levels to drive on
    the four columns, in the low nibble, and the levels then expected on the
    four rows, in the high nibble.  The array is not [const]; nothing in the
    file stores into it. *)
Definition keycodes : list Z :=
  [ 0x7D; 0xEE; 0xED; 0xEB; 0xDE; 0xDD; 0xDB; 0xBE;
    0xBD; 0xBB; 0xE7; 0xD7; 0xB7; 0x77; 0x7E; 0x7B ].

(** The two register blocks, and the output registers the code reads back
    and updates: [DOUT31_0] keeps the word last stored in it. *)
Inductive gpio_port : Set := GPIOA | GPIOB.

#[global] Instance gpio_port_eq_dec : EqDecision gpio_port.
Proof. solve_decision. Defined.

Record gpio_regs : Set := {
  GPIOA_DOUT31_0 : Z;
  GPIOB_DOUT31_0 : Z
}.

Definition DOUT31_0 (p : gpio_port) (s : gpio_regs) : Z :=
  match p with
  | GPIOA => GPIOA_DOUT31_0 s
  | GPIOB => GPIOB_DOUT31_0 s
  end.

Definition set_DOUT31_0 (p : gpio_port) (v : Z) (s : gpio_regs) : gpio_regs :=
  match p with
  | GPIOA => {| GPIOA_DOUT31_0 := v; GPIOB_DOUT31_0 := GPIOB_DOUT31_0 s |}
  | GPIOB => {| GPIOA_DOUT31_0 := GPIOA_DOUT31_0 s; GPIOB_DOUT31_0 := v |}
  end.

(** [GPIOx->DOUT31_0 |= mask] and [GPIOx->DOUT31_0 &= ~mask]. *)
Definition DOUT31_0_or (p : gpio_port) (mask : Z) (s : gpio_regs) : gpio_regs :=
  set_DOUT31_0 p (u32 (Z.lor (DOUT31_0 p s) mask)) s.

Definition DOUT31_0_and_not (p : gpio_port) (mask : Z) (s : gpio_regs)
    : gpio_regs :=
  set_DOUT31_0 p (u32 (Z.land (DOUT31_0 p s) (u32 (Z.lnot mask)))) s.

(** What the input registers show.  The pins are inputs of the board: the
    word read may depend on what the outputs drive (the keypad's rows follow
    its columns), on nothing else that the code does.  Each theorem names
    what it needs of the board. *)
Class gpio_inputs : Type := {
  DIN31_0 : gpio_port -> gpio_regs -> Z
}.

(** ** The LEDs *)

(** [lp_leds_on], [lp_leds_off] (LaunchPad.c:344-414).  An index outside
    the table is undefined in C; here it changes nothing. *)
Definition lp_leds_on (index : nat) (s : gpio_regs) : gpio_regs :=
  match lp_led_config_data !! index with
  | Some c =>
      if port_id c =? GPIO_PORTA then
        if polarity c =? ACTIVE_HIGH
        then DOUT31_0_or GPIOA (bit_mask c) s
        else DOUT31_0_and_not GPIOA (bit_mask c) s
      else
        if polarity c =? ACTIVE_HIGH
        then DOUT31_0_or GPIOB (bit_mask c) s
        else DOUT31_0_and_not GPIOB (bit_mask c) s
  | None => s
  end.

Definition lp_leds_off (index : nat) (s : gpio_regs) : gpio_regs :=
  match lp_led_config_data !! index with
  | Some c =>
      if port_id c =? GPIO_PORTA then
        if polarity c =? ACTIVE_HIGH
        then DOUT31_0_and_not GPIOA (bit_mask c) s
        else DOUT31_0_or GPIOA (bit_mask c) s
      else
        if polarity c =? ACTIVE_HIGH
        then DOUT31_0_and_not GPIOB (bit_mask c) s
        else DOUT31_0_or GPIOB (bit_mask c) s
  | None => s
  end.

(** [leds_enable], [leds_disable] (LaunchPad.c:539-563). *)
Definition leds_enable (s : gpio_regs) : gpio_regs :=
  match enable_controls !! LED_BAR_ENABLE_IDX with
  | Some c => DOUT31_0_or GPIOA (bit_mask c) s
  | None => s
  end.

Definition leds_disable (s : gpio_regs) : gpio_regs :=
  match enable_controls !! LED_BAR_ENABLE_IDX with
  | Some c => DOUT31_0_and_not GPIOA (bit_mask c) s
  | None => s
  end.

(** [led_off], [led_on] (LaunchPad.c:711-785): one LED of the bar. *)
Definition led_on (led_idx : nat) (s : gpio_regs) : gpio_regs :=
  match led_config_data !! led_idx with
  | Some c =>
      if port_id c =? GPIO_PORTA then
        if polarity c =? ACTIVE_HIGH
        then DOUT31_0_or GPIOA (bit_mask c) s
        else DOUT31_0_and_not GPIOA (bit_mask c) s
      else
        if polarity c =? ACTIVE_HIGH
        then DOUT31_0_or GPIOB (bit_mask c) s
        else DOUT31_0_and_not GPIOB (bit_mask c) s
  | None => s
  end.

Definition led_off (led_idx : nat) (s : gpio_regs) : gpio_regs :=
  match led_config_data !! led_idx with
  | Some c =>
      if port_id c =? GPIO_PORTA then
        if polarity c =? ACTIVE_HIGH
        then DOUT31_0_and_not GPIOA (bit_mask c) s
        else DOUT31_0_or GPIOA (bit_mask c) s
      else
        if polarity c =? ACTIVE_HIGH
        then DOUT31_0_and_not GPIOB (bit_mask c) s
        else DOUT31_0_or GPIOB (bit_mask c) s
  | None => s
  end.

(** [leds_off] (LaunchPad.c:583-611): the body of [led_off] for each of
    the [n] LEDs from [led_idx] on. *)
Fixpoint leds_off_loop (n led_idx : nat) (s : gpio_regs) : gpio_regs :=
  match n with
  | O => s
  | S n' => leds_off_loop n' (S led_idx) (led_off led_idx s)
  end.

Definition leds_off (s : gpio_regs) : gpio_regs :=
  leds_off_loop MAX_NUM_LEDS 0 s.

(** [leds_on] (LaunchPad.c:631-689).  In the branch of a set bit and a pin
    of port B the inner test is again on the port, not on the polarity
    (LaunchPad.c:650): there the pin is always driven low. *)
Definition leds_on_body (value : Z) (led_idx : nat) (s : gpio_regs)
    : gpio_regs :=
  match led_config_data !! led_idx with
  | Some c =>
      if Z.land value (Z.shiftl 1 (Z.of_nat led_idx))
           =? Z.shiftl 1 (Z.of_nat led_idx) then
        if port_id c =? GPIO_PORTA then
          if polarity c =? ACTIVE_HIGH
          then DOUT31_0_or GPIOA (bit_mask c) s
          else DOUT31_0_and_not GPIOA (bit_mask c) s
        else
          if port_id c =? GPIO_PORTA
          then DOUT31_0_or GPIOB (bit_mask c) s
          else DOUT31_0_and_not GPIOB (bit_mask c) s
      else
        if port_id c =? GPIO_PORTA then
          if polarity c =? ACTIVE_HIGH
          then DOUT31_0_and_not GPIOA (bit_mask c) s
          else DOUT31_0_or GPIOA (bit_mask c) s
        else
          if polarity c =? ACTIVE_HIGH
          then DOUT31_0_and_not GPIOB (bit_mask c) s
          else DOUT31_0_or GPIOB (bit_mask c) s
  | None => s
  end.

Fixpoint leds_on_loop (n led_idx : nat) (value : Z) (s : gpio_regs)
    : gpio_regs :=
  match n with
  | O => s
  | S n' => leds_on_loop n' (S led_idx) value (leds_on_body value led_idx s)
  end.

Definition leds_on (value : Z) (s : gpio_regs) : gpio_regs :=
  leds_on_loop MAX_NUM_LEDS 0 value s.

(** ** The seven-segment displays (LaunchPad.c:924-1037) *)

Definition seg7_dig_enable (seg7_idx : nat) (s : gpio_regs) : gpio_regs :=
  match enable_controls !! seg7_idx with
  | Some c =>
      if port_id c =? GPIO_PORTA
      then DOUT31_0_or GPIOA (bit_mask c) s
      else DOUT31_0_or GPIOB (bit_mask c) s
  | None => s
  end.

Fixpoint seg7_off_loop (n seg7_idx : nat) (s : gpio_regs) : gpio_regs :=
  match n with
  | O => s
  | S n' =>
      seg7_off_loop n' (S seg7_idx)
        match enable_controls !! seg7_idx with
        | Some c =>
            if port_id c =? GPIO_PORTA
            then DOUT31_0_and_not GPIOA (bit_mask c) s
            else DOUT31_0_and_not GPIOB (bit_mask c) s
        | None => s
        end
  end.

Definition seg7_off (s : gpio_regs) : gpio_regs := seg7_off_loop 4 0 s.

Definition seg7_on (value : Z) (seg7_idx : nat) (s : gpio_regs) : gpio_regs :=
  let s := leds_on value s in
  let s := seg7_off s in
  seg7_dig_enable seg7_idx s.

Definition seg7_hex (hex_idx seg7_dig : nat) (s : gpio_regs) : gpio_regs :=
  let hex_digits :=
    [ 0x3F; 0x06; 0x5B; 0x4F; 0x66; 0x6D; 0x7D; 0x07;
      0x7F; 0x6F; 0x77; 0x7C; 0x39; 0x5E; 0x79; 0x71 ] in
  match hex_digits !! hex_idx with
  | Some value => seg7_on value seg7_dig s
  | None => s
  end.

(** ** The switches and the keypad *)
Section Inputs.
Context {G : gpio_inputs}.

(** The test [(GPIOx->DIN31_0 & mask) == mask] of a table entry, as the
    0 or 1 the code stores in a [uint8_t]. *)
Definition din_bit (c : gpio_struct) (s : gpio_regs) : Z :=
  if port_id c =? GPIO_PORTA
  then Z.b2z (Z.land (DIN31_0 GPIOA s) (bit_mask c) =? bit_mask c)
  else Z.b2z (Z.land (DIN31_0 GPIOB s) (bit_mask c) =? bit_mask c).

(** [is_lpsw_down], [is_lpsw_up] (LaunchPad.c:1116-1184). *)
Definition is_lpsw_down (sw_idx : nat) (s : gpio_regs) : bool :=
  match lp_switch_config_data !! sw_idx with
  | Some c =>
      let sw_value := din_bit c s in
      if sw_value =? 0x01 then true else false
  | None => false
  end.

Definition is_lpsw_up (sw_idx : nat) (s : gpio_regs) : bool :=
  match lp_switch_config_data !! sw_idx with
  | Some c =>
      let sw_value := din_bit c s in
      if negb (sw_value =? 0x1) then true else false
  | None => false
  end.

(** [dipsw_read] (LaunchPad.c:1262-1285). *)
Fixpoint dipsw_read_loop (n sw_idx : nat) (dip_value : Z) (s : gpio_regs)
    : Z :=
  match n with
  | O => dip_value
  | S n' =>
      match dip_switch_config_data !! sw_idx with
      | Some c =>
          let switch_value := din_bit c s in
          dipsw_read_loop n' (S sw_idx)
            (u8 (Z.lor dip_value
                   (Z.shiftl switch_value
                      (MAX_NUM_DIPSW - 1 - Z.of_nat sw_idx)))) s
      | None => dip_value
      end
  end.

Definition dipsw_read (s : gpio_regs) : Z :=
  dipsw_read_loop (Z.to_nat MAX_NUM_DIPSW) 0 0 s.

(** [is_pb_down], [is_pb_up] (LaunchPad.c:1303-1371). *)
Definition is_pb_down (pb_idx : nat) (s : gpio_regs) : bool :=
  match dip_switch_config_data !! pb_idx with
  | Some c =>
      let pb_value := din_bit c s in
      if negb (pb_value =? polarity c) then true else false
  | None => false
  end.

Definition is_pb_up (pb_idx : nat) (s : gpio_regs) : bool :=
  match dip_switch_config_data !! pb_idx with
  | Some c =>
      let pb_value := din_bit c s in
      if pb_value =? polarity c then true else false
  | None => false
  end.

(** [read_keyrow_data] (LaunchPad.c:1540-1562). *)
Fixpoint read_keyrow_loop (n row_num : nat) (data : Z) (s : gpio_regs) : Z :=
  match n with
  | O => data
  | S n' =>
      match kp_row_config_data !! row_num with
      | Some c =>
          let bit := din_bit c s in
          read_keyrow_loop n' (S row_num)
            (u8 (Z.lor data (Z.shiftl bit (Z.of_nat row_num)))) s
      | None => data
      end
  end.

Definition read_keyrow_data (s : gpio_regs) : Z :=
  read_keyrow_loop MAX_NUM_KP_ROWS 0 0x00 s.

(** [write_keycol_data] (LaunchPad.c:1585-1612). *)
Fixpoint write_keycol_loop (n col_num : nat) (data mask : Z) (s : gpio_regs)
    : gpio_regs :=
  match n with
  | O => s
  | S n' =>
      let bit := u8 (Z.shiftr (Z.land data mask) (Z.of_nat col_num)) in
      let mask := u8 (Z.shiftl mask 1) in
      match kp_col_config_data !! col_num with
      | Some c =>
          let s :=
            if port_id c =? GPIO_PORTA then
              let s := DOUT31_0_and_not GPIOA (bit_mask c) s in
              if negb (bit =? 0) then DOUT31_0_or GPIOA (bit_mask c) s else s
            else
              let s := DOUT31_0_and_not GPIOB (bit_mask c) s in
              if negb (bit =? 0) then DOUT31_0_or GPIOB (bit_mask c) s else s
          in
          write_keycol_loop n' (S col_num) data mask s
      | None => s
      end
  end.

Definition write_keycol_data (data : Z) (s : gpio_regs) : gpio_regs :=
  write_keycol_loop MAX_NUM_KP_COLS 0 data 0x01 s.

(** [keypad_scan] (LaunchPad.c:1634-1658).  Each round either finds the
    key or moves to the next one: with [n] keys left to try the loop makes at
    most [n] rounds. *)
Fixpoint keypad_scan_loop (n : nat) (key : nat) (s : gpio_regs)
    : Z * gpio_regs :=
  match n with
  | O => (Z.of_nat key, s)
  | S n' =>
      match keycodes !! key with
      | Some code =>
          let s := write_keycol_data code s in
          let data := read_keyrow_data s in
          if data =? Z.shiftr (Z.land code 0xF0) 4
          then (Z.of_nat key, s)
          else keypad_scan_loop n' (S key) s
      | None => (Z.of_nat key, s)
      end
  end.

Definition keypad_scan (s : gpio_regs) : Z * gpio_regs :=
  keypad_scan_loop MAX_NUM_KEYPAD_KEYS 0 s.

(** [getkey_pressed], [wait_no_key_pressed] (LaunchPad.c:1675-1711): the
    two loops have no bound; [fuel] is the number of scans the model allows,
    [None] a call that has not returned within them. *)
Fixpoint getkey_pressed (fuel : nat) (s : gpio_regs)
    : option (Z * gpio_regs) :=
  match fuel with
  | O => None
  | S fuel' =>
      let (key, s) := keypad_scan s in
      if key =? NO_KEY_PRESSED then getkey_pressed fuel' s
      else Some (key, s)
  end.

Fixpoint wait_no_key_pressed (fuel : nat) (s : gpio_regs)
    : option gpio_regs :=
  match fuel with
  | O => None
  | S fuel' =>
      let (key, s) := keypad_scan s in
      if negb (key =? NO_KEY_PRESSED) then wait_no_key_pressed fuel' s
      else Some s
  end.

End Inputs.

(** ** Vocabulary for the pins *)

(** The port and the bit number of a table entry's pin. *)
Definition port_of (c : gpio_struct) : gpio_port :=
  if port_id c =? GPIO_PORTA then GPIOA else GPIOB.

Definition pin_of (c : gpio_struct) : gpio_port * Z :=
  (port_of c, Z.log2 (bit_mask c)).

Definition port_eqb (p q : gpio_port) : bool :=
  match p, q with
  | GPIOA, GPIOA | GPIOB, GPIOB => true
  | _, _ => false
  end.

(** The level a table entry's pin is driven to. *)
Definition pin_driven_high (c : gpio_struct) (s : gpio_regs) : bool :=
  Z.testbit (DOUT31_0 (port_of c) s) (Z.log2 (bit_mask c)).

(** A loop over the indices [i], [i+1], ... of a table, [n] rounds. *)
Fixpoint for_index (body : nat -> gpio_regs -> gpio_regs) (n i : nat)
    (s : gpio_regs) : gpio_regs :=
  match n with
  | O => s
  | S n' => for_index body n' (S i) (body i s)
  end.

(** Round [i] of a loop drives the pin of entry [i] of [table] to
    [level i] and changes no other bit of the output registers. *)
Definition drives (table : list gpio_struct) (level : nat -> bool)
    (body : nat -> gpio_regs -> gpio_regs) : Prop :=
  forall i c s q n,
    table !! i = Some c -> 0 <= n < 32 ->
    Z.testbit (DOUT31_0 q (body i s)) n
      = if port_eqb q (port_of c) && (n =? Z.log2 (bit_mask c))
        then level i
        else Z.testbit (DOUT31_0 q s) n.

(** The pins of a table are on bits 0 to 31, each pin once. *)
Definition pins_ok (table : list gpio_struct) : Prop :=
  Forall (fun c => 0 <= Z.log2 (bit_mask c) < 32) table /\
  NoDup (map pin_of table).

(** The level a table entry's pin reads. *)
Definition pin_reads_high {G : gpio_inputs} (c : gpio_struct) (s : gpio_regs)
    : bool :=
  Z.testbit (DIN31_0 (port_of c) s) (Z.log2 (bit_mask c)).

(** One round of the loop of [write_keycol_data], with the mask that the
    round has. *)
Definition write_keycol_round (data : Z) (col_num : nat) (s : gpio_regs)
    : gpio_regs :=
  write_keycol_loop 1 col_num data (Z.shiftl 1 (Z.of_nat col_num)) s.

(** The keypad: key [(row, col)] of the matrix closes row [row] onto column
    [col]; a row, pulled up, reads high unless a closed key ties it to a
    column that is driven low. *)
Definition row_pulled_low (pressed : nat -> nat -> bool) (s : gpio_regs)
    (row : nat) : bool :=
  existsb
    (fun col =>
       pressed row col &&
       match kp_col_config_data !! col with
       | Some cc => negb (pin_driven_high cc s)
       | None => false
       end)
    (seq 0 4).

Definition row_reads_high {G : gpio_inputs} (pressed : nat -> nat -> bool)
    (s : gpio_regs) : Prop :=
  forall row c,
    kp_row_config_data !! row = Some c ->
    din_bit c s = Z.b2z (negb (row_pulled_low pressed s row)).

(** What the rows show once the columns carry the low nibble of [code],
    and the scan as a function of the closed keys alone. *)
Definition rows_seen (pressed : nat -> nat -> bool) (code : Z) : Z :=
  let level row :=
    Z.b2z
      (negb
         (existsb
            (fun col => pressed row col && negb (Z.testbit code (Z.of_nat col)))
            (seq 0 4))) in
  Z.lor (Z.lor (Z.lor (level 0%nat) (Z.shiftl (level 1%nat) 1))
           (Z.shiftl (level 2%nat) 2))
    (Z.shiftl (level 3%nat) 3).

Fixpoint scan_keys (pressed : nat -> nat -> bool) (n key : nat) : Z :=
  match n with
  | O => Z.of_nat key
  | S n' =>
      match keycodes !! key with
      | Some code =>
          if rows_seen pressed code =? Z.shiftr (Z.land code 0xF0) 4
          then Z.of_nat key
          else scan_keys pressed n' (S key)
      | None => Z.of_nat key
      end
  end.

(** The key index at each place of the matrix, rows from the top, columns
    from the left: 1 2 3 A / 4 5 6 B / 7 8 9 C / E 0 F D. *)
Definition key_at (row col : nat) : Z :=
  nth (4 * row + col)
    [ 0x1; 0x2; 0x3; 0xA; 0x4; 0x5; 0x6; 0xB;
      0x7; 0x8; 0x9; 0xC; 0xE; 0x0; 0xF; 0xD ] NO_KEY_PRESSED.

(** A keypad for the examples: the rows follow the columns through the
    closed keys; every other input pin reads low. *)
Definition sim_keypad (pressed : nat -> nat -> bool) : gpio_inputs :=
  {| DIN31_0 := fun p s =>
       let word row :=
         match kp_row_config_data !! row with
         | Some c =>
             if port_eqb (port_of c) p && negb (row_pulled_low pressed s row)
             then bit_mask c else 0
         | None => 0
         end in
       Z.lor (Z.lor (Z.lor (word 0%nat) (word 1%nat)) (word 2%nat))
         (word 3%nat) |}.

(** Output registers for the examples. *)
Definition sim_regs (a b : Z) : gpio_regs :=
  {| GPIOA_DOUT31_0 := a; GPIOB_DOUT31_0 := b |}.

(** * The delay loops (clock.c)

    [clock_delay(cycles)] is a loop in assembly; here a call of it is one
    step, recorded with its argument. *)
Module Clock.

Definition MSEC_PER_SECOND : Z := 1000.
Definition USEC_PER_SECOND : Z := 1000000.

(** [while (n) { clock_delay(count); n--; }] for a [uint32_t] counter [n]:
    the arguments of the calls made, in order.  [fuel] bounds the rounds. *)
Fixpoint delay_loop (fuel : nat) (n count : Z) : option (list Z) :=
  match fuel with
  | O => None
  | S fuel' =>
      if n =? 0 then Some []
      else
        match delay_loop fuel' (u32 (n - 1)) count with
        | Some calls => Some (count :: calls)
        | None => None
        end
  end.

(** [msec_delay] (clock.c:303-314); [g_bus_clock_freq] is the value of the
    global variable when it is read. *)
Definition msec_delay (fuel : nat) (g_bus_clock_freq ms_delay_count : Z)
    : option (list Z) :=
  let count := u32 (g_bus_clock_freq / MSEC_PER_SECOND) in
  delay_loop fuel ms_delay_count count.

(** [usec_delay] (clock.c:351-366). *)
Definition usec_delay (fuel : nat) (g_bus_clock_freq us_delay_count : Z)
    : option (list Z) :=
  let count := u32 (g_bus_clock_freq / USEC_PER_SECOND) in
  let us_delay_count := u32 (us_delay_count / 2) in
  delay_loop fuel us_delay_count count.

(** The cycles asked for in a run of calls. *)
Definition cycles (calls : list Z) : Z := fold_right Z.add 0 calls.

End Clock.


(** ** Running a computation *)
Section Runs.
Context {L : hw_i2c} {D : device}.

Lemma run_bind {A B : Type} (m : M A) (k : A -> M B) d b d2 e :
  (m ≫= k) d = Some (b, d2, e) <->
  exists a d1 e1 e2,
    m d = Some (a, d1, e1) /\ k a d1 = Some (b, d2, e2) /\ e = e1 ++ e2.
Proof.
  unfold mbind, M_bind, bind. split.
  - destruct (m d) as [[[a d1] e1]|]; [|discriminate].
    destruct (k a d1) as [[[b' d2'] e2]|] eqn:Hk; [|discriminate].
    intros H; injection H as <- <- <-. exists a, d1, e1, e2. auto.
  - intros (a & d1 & e1 & e2 & -> & -> & ->). reflexivity.
Qed.

Lemma run_bind_after {A B : Type} (m : M A) (k : A -> M B) d a d1 e1 :
  m d = Some (a, d1, e1) -> (m ≫= k) d = after e1 (k a d1).
Proof. intros H. unfold mbind, M_bind, bind, after. rewrite H. reflexivity. Qed.

Lemma run_ret {A : Type} (a : A) d r d' e :
  ret a d = Some (r, d', e) <-> r = a /\ d' = d /\ e = [].
Proof.
  unfold ret. split.
  - intros H; injection H as <- <- <-. auto.
  - intros (-> & -> & ->). reflexivity.
Qed.

Lemma run_rd r d v d' e :
  rd r d = Some (v, d', e) <->
  v = (dev_read r d).1 /\ d' = (dev_read r d).2 /\ e = [EvRead r v].
Proof.
  unfold rd. destruct (dev_read r d) as [v0 d0]. simpl. split.
  - intros H; injection H as <- <- <-. auto.
  - intros (-> & -> & ->). reflexivity.
Qed.

Lemma rd_eq r d :
  rd r d = Some ((dev_read r d).1, (dev_read r d).2,
                 [EvRead r (dev_read r d).1]).
Proof. unfold rd. destruct (dev_read r d). reflexivity. Qed.

Lemma run_wr r v d u d' e :
  wr r v d = Some (u, d', e) <-> d' = dev_write r v d /\ e = [EvWrite r v].
Proof.
  unfold wr. destruct u. split.
  - intros H; injection H as <- <-. auto.
  - intros (-> & ->). reflexivity.
Qed.

Lemma run_usec_delay us d u d' e :
  usec_delay us d = Some (u, d', e) <->
  d' = dev_delay us d /\ e = [EvDelay us].
Proof.
  unfold usec_delay. destruct u. split.
  - intros H; injection H as <- <-. auto.
  - intros (-> & ->). reflexivity.
Qed.

Lemma after_after {A : Type} e1 e2 (o : option (A * dev * list event)) :
  after e1 (after e2 o) = after (e1 ++ e2) o.
Proof. destruct o as [[[a d] e]|]; simpl; [rewrite app_assoc|]; reflexivity. Qed.

Lemma after_Some {A : Type} e1 (o : option (A * dev * list event)) a d e :
  after e1 o = Some (a, d, e) <->
  exists e2, o = Some (a, d, e2) /\ e = e1 ++ e2.
Proof.
  destruct o as [[[a' d'] e']|]; simpl; split.
  - intros H; injection H as <- <- <-. eauto.
  - intros (e2 & H & ->). injection H as <- <- <-. reflexivity.
  - discriminate.
  - intros (e2 & H & _). discriminate.
Qed.

End Runs.

(** Inversion of a run, one step at a time. *)
Ltac run_inv H :=
  first
    [ apply run_bind in H;
      let a := fresh "a" in let d1 := fresh "d" in
      let e1 := fresh "e" in let e2 := fresh "e" in
      let H1 := fresh "Hrun" in let H2 := fresh "Hrun" in
      destruct H as (a & d1 & e1 & e2 & H1 & H2 & ->)
    | apply run_ret in H; destruct H as (? & ? & ?); simplify_eq
    | apply run_rd in H; destruct H as (? & ? & ?); simplify_eq
    | apply run_wr in H; destruct H as (? & ?); simplify_eq
    | apply run_usec_delay in H; destruct H as (? & ?); simplify_eq ].

(** Inversion of every bind and every primitive in sight. *)
Ltac run_all :=
  repeat match goal with
    | H : mbind _ _ _ = Some _ |- _ => run_inv H
    | H : rd _ _ = Some _ |- _ => run_inv H
    | H : wr _ _ _ = Some _ |- _ => run_inv H
    | H : usec_delay _ _ = Some _ |- _ => run_inv H
    | H : ret _ _ = Some _ |- _ => run_inv H
    | H : out_of_fuel _ = Some _ |- _ => discriminate H
    end.

(** ** What a computation may emit, and what it preserves *)
Section Emits.
Context {L : hw_i2c} {D : device}.

Lemma emits_ret {A : Type} P (a : A) : emits P (ret a).
Proof. intros d r d' e H. run_inv H. constructor. Qed.

Lemma emits_out_of_fuel {A : Type} P : emits P (@out_of_fuel _ A).
Proof. intros d r d' e H. discriminate. Qed.

Lemma emits_bind {A B : Type} P (m : M A) (k : A -> M B) :
  emits P m -> (forall a, emits P (k a)) -> emits P (m ≫= k).
Proof.
  intros Hm Hk d b d' e H. run_inv H.
  apply Forall_app. split; [eapply Hm | eapply Hk]; eassumption.
Qed.

Lemma emits_rd P r : (forall v, P (EvRead r v)) -> emits P (rd r).
Proof. intros HP d v d' e H. run_inv H. repeat constructor. apply HP. Qed.

Lemma emits_wr P r v : P (EvWrite r v) -> emits P (wr r v).
Proof. intros HP d u d' e H. run_inv H. repeat constructor. apply HP. Qed.

Lemma emits_usec_delay P us : P (EvDelay us) -> emits P (usec_delay us).
Proof. intros HP d u d' e H. run_inv H. repeat constructor. apply HP. Qed.

Lemma keeps_ret {A : Type} I (a : A) : keeps I (ret a).
Proof. intros d r d' e HI H. run_inv H. exact HI. Qed.

Lemma keeps_out_of_fuel {A : Type} I : keeps I (@out_of_fuel _ A).
Proof. intros d r d' e _ H. discriminate. Qed.

Lemma keeps_bind {A B : Type} I (m : M A) (k : A -> M B) :
  keeps I m -> (forall a, keeps I (k a)) -> keeps I (m ≫= k).
Proof.
  intros Hm Hk d b d' e HI H. run_inv H.
  eapply Hk; [|eassumption]. eapply Hm; eassumption.
Qed.

Lemma keeps_rd I r : closed I -> keeps I (rd r).
Proof. intros (Hc & _) d v d' e HI H. run_inv H. auto. Qed.

Lemma keeps_wr I r v : closed I -> keeps I (wr r v).
Proof. intros (_ & Hc & _) d u d' e HI H. run_inv H. auto. Qed.

Lemma keeps_usec_delay I us : closed I -> keeps I (usec_delay us).
Proof. intros (_ & _ & Hc) d u d' e HI H. run_inv H. auto. Qed.

End Emits.

(** Structural steps shared by the proofs about [emits] and [keeps]. *)
Ltac structural :=
  repeat first
    [ apply emits_ret | apply emits_out_of_fuel
    | apply keeps_ret | apply keeps_out_of_fuel
    | apply emits_bind | apply keeps_bind
    | apply emits_rd | apply emits_wr | apply emits_usec_delay
    | apply keeps_rd | apply keeps_wr | apply keeps_usec_delay
    | assumption
    | match goal with H : _ |- _ => solve [apply H; assumption] end
    | progress intros
    | match goal with
      | |- emits _ (if ?b then _ else _) => destruct b
      | |- keeps _ (if ?b then _ else _) => destruct b
      | |- emits _ (match ?x with Some _ => _ | None => _ end) => destruct x
      | |- keeps _ (match ?x with Some _ => _ | None => _ end) => destruct x
      end ].

Section Blocks.
Context {L : hw_i2c} {D : device}.

Lemma emits_wait_msr_timeout P fuel mask pat timeout :
  (forall v, P (EvRead MSR v)) -> P (EvDelay 10) ->
  emits P (wait_msr_timeout fuel mask pat timeout).
Proof.
  intros Hr Hd. revert timeout.
  induction fuel as [|fuel IH]; intros timeout; simpl; structural.
Qed.

Lemma emits_poll_while P fuel r cond :
  (forall v, P (EvRead r v)) -> emits P (poll_while fuel r cond).
Proof. intros Hr. induction fuel as [|fuel IH]; simpl; structural. Qed.

Lemma emits_fill_loop P fuel buffer count i st :
  (forall v, P (EvRead MFIFOSR v)) -> (forall v, P (EvWrite MTXDATA v)) ->
  emits P (fill_loop fuel buffer count i st).
Proof.
  intros Hr Hw. revert i st.
  induction fuel as [|fuel IH]; intros i st; simpl; structural.
Qed.

Lemma emits_rx_drain P n idx buffer :
  (forall v, P (EvRead MRXDATA v)) -> P (EvDelay 30) ->
  emits P (rx_drain n idx buffer).
Proof.
  intros Hr Hd. revert idx buffer.
  induction n as [|n IH]; intros idx buffer; simpl; structural.
Qed.

Lemma keeps_wait_msr_timeout I fuel mask pat timeout :
  closed I -> keeps I (wait_msr_timeout fuel mask pat timeout).
Proof.
  intros Hc. revert timeout.
  induction fuel as [|fuel IH]; intros timeout; simpl; structural.
Qed.

Lemma keeps_poll_while I fuel r cond :
  closed I -> keeps I (poll_while fuel r cond).
Proof. intros Hc. induction fuel as [|fuel IH]; simpl; structural. Qed.

Lemma keeps_fill_loop I fuel buffer count i st :
  closed I -> keeps I (fill_loop fuel buffer count i st).
Proof.
  intros Hc. revert i st.
  induction fuel as [|fuel IH]; intros i st; simpl; structural.
Qed.

Lemma keeps_rx_drain I n idx buffer :
  closed I -> keeps I (rx_drain n idx buffer).
Proof.
  intros Hc. revert idx buffer.
  induction n as [|n IH]; intros idx buffer; simpl; structural.
Qed.

End Blocks.

(** Loop lemmas join the structural steps. *)
Ltac blocks :=
  repeat first
    [ apply emits_wait_msr_timeout | apply emits_poll_while
    | apply emits_fill_loop | apply emits_rx_drain
    | apply keeps_wait_msr_timeout | apply keeps_poll_while
    | apply keeps_fill_loop | apply keeps_rx_drain
    | progress structural ].

(** ** The loops, run *)
Section Loops.
Context {L : hw_i2c} {D : device}.

(** The counted wait returns nothing but the timeout code. *)
Lemma wait_msr_timeout_code fuel mask pat timeout d e d' evs :
  wait_msr_timeout fuel mask pat timeout d = Some (Some e, d', evs) ->
  e = I2C_ERR_TIMEOUT.
Proof.
  revert timeout d evs.
  induction fuel as [|fuel IH]; intros timeout d evs H; simpl in H.
  - discriminate.
  - run_inv H. run_inv Hrun.
    destruct (Z.land _ mask =? pat).
    + destruct (u32 (timeout - 1) =? 0).
      * run_inv Hrun0. reflexivity.
      * run_inv Hrun0. run_inv Hrun. eauto.
    + run_inv Hrun0.
Qed.

(** On a controller whose status always matches the awaited pattern, the
    counted wait from [n] gives up after exactly [n] polls. *)
Lemma wait_msr_timeout_stuck (I : dev -> Prop) mask pat :
  closed I ->
  (forall d, I d -> Z.land (dev_read MSR d).1 mask = pat) ->
  forall n, (1 <= n)%nat -> Z.of_nat n < 2 ^ 32 ->
  forall fuel d, (n <= fuel)%nat -> I d ->
  exists vs d',
    wait_msr_timeout fuel mask pat (Z.of_nat n) d
      = Some (Some I2C_ERR_TIMEOUT, d', poll_trace vs) /\
    length vs = n /\ I d'.
Proof.
  intros Hc Hm n. induction n as [|n IH]; [lia|].
  intros _ Hn fuel d Hfuel HI.
  destruct fuel as [|fuel]; [lia|]. simpl wait_msr_timeout.
  rewrite (run_bind_after _ _ _ _ _ _ (rd_eq MSR d)).
  rewrite (proj2 (Z.eqb_eq _ _) (Hm d HI)).
  replace (Z.of_nat (S n) - 1) with (Z.of_nat n) by lia.
  unfold u32. rewrite Z.mod_small by lia.
  destruct n as [|n].
  - simpl. exists [(dev_read MSR d).1], (dev_read MSR d).2.
    split; [reflexivity|]. split; [reflexivity|]. apply Hc, HI.
  - replace (Z.of_nat (S n) =? 0) with false by (symmetry; apply Z.eqb_neq; lia).
    destruct Hc as (Hcr & Hcw & Hcd).
    destruct (IH ltac:(lia) ltac:(lia) fuel
                (dev_delay 10 (dev_read MSR d).2) ltac:(lia)
                ltac:(auto)) as (vs & d' & Hrun & Hlen & HI').
    rewrite (run_bind_after (usec_delay 10) _ _ tt
               (dev_delay 10 (dev_read MSR d).2) [EvDelay 10] eq_refl).
    rewrite Hrun. simpl.
    exists ((dev_read MSR d).1 :: vs), d'.
    split; [|split; [simpl; lia | exact HI']].
    destruct vs as [|v vs]; [discriminate|]. reflexivity.
Qed.

(** On a controller whose register always satisfies the loop condition, the
    unbounded wait never comes back, whatever the number of polls allowed. *)
Lemma poll_while_stuck (I : dev -> Prop) r cond :
  closed I ->
  (forall d, I d -> cond (dev_read r d).1 = true) ->
  forall fuel d, I d -> poll_while fuel r cond d = None.
Proof.
  intros Hc Hcond fuel. induction fuel as [|fuel IH]; intros d HI.
  - reflexivity.
  - simpl. rewrite (run_bind_after _ _ _ _ _ _ (rd_eq r d)).
    rewrite (Hcond d HI), IH; [reflexivity|]. apply Hc, HI.
Qed.

(** A run of the unbounded wait: only reads of its register, the condition
    true at each but the last, false at the last. *)
Lemma poll_while_run fuel r cond d u d' e :
  poll_while fuel r cond d = Some (u, d', e) ->
  exists vs v,
    e = map (EvRead r) (vs ++ [v]) /\
    Forall (fun x => cond x = true) vs /\ cond v = false.
Proof.
  revert d e. induction fuel as [|fuel IH]; intros d e H; simpl in H.
  - discriminate.
  - run_inv H. run_inv Hrun.
    destruct (cond (dev_read r d).1) eqn:Hcond.
    + destruct (IH _ _ Hrun0) as (vs & v & -> & Hvs & Hv).
      exists ((dev_read r d).1 :: vs), v. split; [reflexivity|].
      split; [constructor; assumption | assumption].
    + run_inv Hrun0. exists [], (dev_read r d).1.
      split; [reflexivity|]. split; [constructor | assumption].
Qed.

(** One round of the loader that finds its index below [count]. *)
Lemma fill_loop_round fuel buffer count i st d :
  i < count ->
  let sr := (dev_read MFIFOSR d).1 in
  let b := default 0 (buffer !! Z.to_nat i) in
  fill_loop (S fuel) buffer count i st d
    = after [EvRead MFIFOSR sr; EvWrite MTXDATA b]
        (fill_loop fuel buffer count (u8 (i + 1))
           (if tx_full sr then 0 else st)
           (dev_write MTXDATA b (dev_read MFIFOSR d).2)).
Proof.
  intros Hlt sr b. simpl fill_loop.
  rewrite (proj2 (Z.ltb_lt _ _) Hlt).
  rewrite (run_bind_after _ _ _ _ _ _ (rd_eq MFIFOSR d)).
  fold sr b.
  rewrite (run_bind_after (wr MTXDATA b) _ _ tt
             (dev_write MTXDATA b (dev_read MFIFOSR d).2)
             [EvWrite MTXDATA b] eq_refl).
  rewrite after_after. reflexivity.
Qed.

(** The index is a byte: against a count above 255 it wraps and the loader
    never returns, however many rounds it is allowed. *)
Lemma fill_loop_wraps fuel buffer count i st d :
  2 ^ 8 <= count -> 0 <= i < 2 ^ 8 ->
  fill_loop fuel buffer count i st d = None.
Proof.
  intros Hcount. revert i st d.
  induction fuel as [|fuel IH]; intros i st d Hi; [reflexivity|].
  rewrite fill_loop_round by lia.
  rewrite IH; [reflexivity|]. unfold u8. apply Z.mod_pos_bound. lia.
Qed.

(** With a count of at most 255 and rounds enough, the loader returns; it
    stores every byte from index [i] up to [count], and its result is 0
    exactly when some status word read before a store reported a full
    queue. *)
Lemma fill_loop_returns fuel buffer count i st d :
  0 <= i -> count < 2 ^ 8 -> (Z.to_nat (count - i) < fuel)%nat ->
  exists srs d',
    fill_loop fuel buffer count i st d
      = Some (if existsb tx_full srs then 0 else st, d',
              fill_trace buffer i srs) /\
    length srs = Z.to_nat (count - i).
Proof.
  intros Hi Hcount. revert i Hi st d.
  induction fuel as [|fuel IH]; intros i Hi st d Hfuel; [lia|].
  destruct (Z_lt_le_dec i count) as [Hlt|Hge].
  - rewrite fill_loop_round by exact Hlt.
    set (sr := (dev_read MFIFOSR d).1).
    set (b := default 0 (buffer !! Z.to_nat i)).
    assert (Hu : u8 (i + 1) = i + 1) by (apply Z.mod_small; lia).
    rewrite Hu.
    destruct (IH (i + 1) ltac:(lia) (if tx_full sr then 0 else st)
                (dev_write MTXDATA b (dev_read MFIFOSR d).2) ltac:(lia))
      as (srs & d' & Hrun & Hlen).
    rewrite Hrun. exists (sr :: srs), d'. split; [|simpl; lia].
    simpl. destruct (tx_full sr); simpl;
      [destruct (existsb tx_full srs)|]; reflexivity.
  - exists [], d. simpl fill_loop.
    rewrite (proj2 (Z.ltb_ge _ _) Hge).
    replace (Z.to_nat (count - i)) with O by lia. split; reflexivity.
Qed.

(** A run of the loader that returned: the count was at most 255, every
    byte from index [i] up to [count] was stored after one read of the queue
    status, and the result is 0 exactly when one of those status words
    reported a full queue. *)
Lemma fill_loop_run fuel buffer count i st d r d' e :
  0 <= i < 2 ^ 8 ->
  fill_loop fuel buffer count i st d = Some (r, d', e) ->
  exists srs,
    r = (if existsb tx_full srs then 0 else st) /\
    e = fill_trace buffer i srs /\
    length srs = Z.to_nat (count - i) /\
    count < 2 ^ 8.
Proof.
  intros Hi H.
  destruct (Z_lt_le_dec count (2 ^ 8)) as [Hcount|Hcount];
    [|rewrite fill_loop_wraps in H by assumption; discriminate H].
  revert i Hi st d e H.
  induction fuel as [|fuel IH]; intros i Hi st d e H; [discriminate H|].
  destruct (Z_lt_le_dec i count) as [Hlt|Hge].
  - rewrite fill_loop_round in H by exact Hlt.
    apply after_Some in H as (e2 & H & ->).
    assert (Hu : u8 (i + 1) = i + 1) by (apply Z.mod_small; lia).
    rewrite Hu in H.
    destruct (IH (i + 1) ltac:(lia) _ _ _ H) as (srs & -> & -> & Hlen & _).
    exists ((dev_read MFIFOSR d).1 :: srs).
    split; [|split; [reflexivity|split; [simpl; lia|exact Hcount]]].
    simpl. destruct (tx_full (dev_read MFIFOSR d).1); simpl;
      [destruct (existsb tx_full srs)|]; reflexivity.
  - simpl fill_loop in H. rewrite (proj2 (Z.ltb_ge _ _) Hge) in H.
    apply run_ret in H as (-> & -> & ->).
    exists []. replace (Z.to_nat (count - i)) with O by lia.
    repeat split. exact Hcount.
Qed.

(** The drain loop always returns; it reads the data register [n] times,
    each read followed by the settle delay, and stores what it read. *)
Lemma rx_drain_run n idx buffer d :
  exists xs d',
    rx_drain n idx buffer d
      = Some (store_bytes idx xs buffer, d', drain_trace xs) /\
    length xs = n.
Proof.
  revert idx buffer d. induction n as [|n IH]; intros idx buffer d.
  - exists [], d. split; reflexivity.
  - simpl rx_drain.
    rewrite (run_bind_after _ _ _ _ _ _ (rd_eq MRXDATA d)).
    set (x := (dev_read MRXDATA d).1). set (d1 := (dev_read MRXDATA d).2).
    rewrite (run_bind_after (usec_delay 30) _ _ tt
               (dev_delay 30 d1) [EvDelay 30] eq_refl).
    destruct (IH (idx + 1)
                (<[Z.to_nat idx := u8 (Z.land x I2C_MRXDATA_VALUE_MASK)]> buffer)
                (dev_delay 30 d1)) as (xs & d' & Hrun & Hlen).
    rewrite Hrun. exists (x :: xs), d'. split; [reflexivity | simpl; lia].
Qed.

(** The status check, case by case. *)
Lemma check_status_arb st d :
  Z.land (dev_read MSR d).1 I2C_MSR_ARBLST_MASK = I2C_MSR_ARBLST_SET ->
  check_status st d
    = Some (I2C_ERR_ARB_LOST, (dev_read MSR d).2,
            [EvRead MSR (dev_read MSR d).1]).
Proof.
  intros H. unfold check_status.
  rewrite (run_bind_after _ _ _ _ _ _ (rd_eq MSR d)).
  rewrite (proj2 (Z.eqb_eq _ _) H). reflexivity.
Qed.

Lemma check_status_nack st d :
  let d1 := (dev_read MSR d).2 in
  Z.land (dev_read MSR d).1 I2C_MSR_ARBLST_MASK <> I2C_MSR_ARBLST_SET ->
  Z.land (dev_read MSR d1).1 I2C_MSR_ERR_MASK = I2C_MSR_ERR_SET ->
  check_status st d
    = Some (I2C_ERR_NACK, (dev_read MSR d1).2,
            [EvRead MSR (dev_read MSR d).1; EvRead MSR (dev_read MSR d1).1]).
Proof.
  intros d1 H1 H2. unfold check_status.
  rewrite (run_bind_after _ _ _ _ _ _ (rd_eq MSR d)).
  rewrite (proj2 (Z.eqb_neq _ _) H1).
  rewrite (run_bind_after _ _ _ _ _ _ (rd_eq MSR d1)).
  rewrite (proj2 (Z.eqb_eq _ _) H2). reflexivity.
Qed.

Lemma check_status_clean st d :
  let d1 := (dev_read MSR d).2 in
  Z.land (dev_read MSR d).1 I2C_MSR_ARBLST_MASK <> I2C_MSR_ARBLST_SET ->
  Z.land (dev_read MSR d1).1 I2C_MSR_ERR_MASK <> I2C_MSR_ERR_SET ->
  check_status st d
    = Some (st, (dev_read MSR d1).2,
            [EvRead MSR (dev_read MSR d).1; EvRead MSR (dev_read MSR d1).1]).
Proof.
  intros d1 H1 H2. unfold check_status.
  rewrite (run_bind_after _ _ _ _ _ _ (rd_eq MSR d)).
  rewrite (proj2 (Z.eqb_neq _ _) H1).
  rewrite (run_bind_after _ _ _ _ _ _ (rd_eq MSR d1)).
  rewrite (proj2 (Z.eqb_neq _ _) H2). reflexivity.
Qed.

(** The status check always returns, after one or two reads of [MSR], with
    one of three codes. *)
Lemma check_status_run st d :
  exists r d' e,
    check_status st d = Some (r, d', e) /\
    Forall (fun ev => is_read MSR ev = true) e /\
    (r = I2C_ERR_ARB_LOST \/ r = I2C_ERR_NACK \/ r = st).
Proof.
  destruct (Z.eq_dec (Z.land (dev_read MSR d).1 I2C_MSR_ARBLST_MASK)
              I2C_MSR_ARBLST_SET) as [H1|H1].
  - eexists _, _, _. split; [apply check_status_arb, H1|].
    split; [repeat constructor | auto].
  - destruct (Z.eq_dec
                (Z.land (dev_read MSR (dev_read MSR d).2).1 I2C_MSR_ERR_MASK)
                I2C_MSR_ERR_SET) as [H2|H2].
    + eexists _, _, _. split; [apply check_status_nack; assumption|].
      split; [repeat constructor | auto].
    + eexists _, _, _. split; [apply check_status_clean; assumption|].
      split; [repeat constructor | auto].
Qed.

End Loops.

(** ** The engines, block by block *)
Section Engines.
Context {L : hw_i2c} {D : device}.

Lemma emits_wait_idle fuel t : emits ev_poll (wait_idle fuel t).
Proof. unfold wait_idle. blocks; simpl; auto. Qed.

Lemma emits_send_to_fill fuel t : emits ev_send_setup (send_to_fill fuel t).
Proof.
  unfold send_to_fill, wait_idle, tx_fifo_flush. blocks; simpl; auto.
Qed.

Lemma emits_fill fuel buffer count :
  emits ev_fill (I2C_fill_tx_fifo fuel buffer count).
Proof. unfold I2C_fill_tx_fifo. blocks; simpl; auto. Qed.


Lemma emits_read_to_status fuel slave length t :
  emits (ev_read_pre slave length t) (read_to_status fuel slave length t).
Proof.
  unfold read_to_status, read_to_done, read_to_trigger, wait_idle,
    rx_fifo_flush, read_program, read_wait_done, check_status.
  blocks; simpl; auto.
Qed.


Lemma keeps_send_to_trigger I fuel slave data length t :
  closed I -> keeps I (send_to_trigger fuel slave data length t).
Proof.
  intros Hc.
  unfold send_to_trigger, send_to_fill, wait_idle, tx_fifo_flush,
    I2C_fill_tx_fifo, send_program.
  blocks.
Qed.

Lemma keeps_read_to_status I fuel slave length t :
  closed I -> keeps I (read_to_status fuel slave length t).
Proof.
  intros Hc.
  unfold read_to_status, read_to_done, read_to_trigger, wait_idle,
    rx_fifo_flush, read_program, read_wait_done, check_status.
  blocks.
Qed.

Lemma keeps_read_to_trigger I fuel slave length t :
  closed I -> keeps I (read_to_trigger fuel slave length t).
Proof.
  intros Hc.
  unfold read_to_trigger, wait_idle, rx_fifo_flush, read_program.
  blocks.
Qed.

End Engines.

(** ** The engines and their program points *)
Section Split.
Context {L : hw_i2c} {D : device}.

Lemma bind_assoc_run {A B C : Type} (m : M A) (k : A -> M B) (h : B -> M C) d :
  ((m ≫= k) ≫= h) d = (m ≫= (fun a => k a ≫= h)) d.
Proof.
  unfold mbind, M_bind, bind.
  destruct (m d) as [[[a d1] e1]|]; [|reflexivity].
  destruct (k a d1) as [[[b d2] e2]|]; [|reflexivity].
  destruct (h b d2) as [[[c d3] e3]|]; [|reflexivity].
  rewrite app_assoc. reflexivity.
Qed.

Lemma bind_ret_run {A B : Type} (a : A) (k : A -> M B) d :
  (ret a ≫= k) d = k a d.
Proof.
  unfold mbind, M_bind, bind, ret.
  destruct (k a d) as [[[b d2] e2]|]; reflexivity.
Qed.

Lemma bind_ext_run {A B : Type} (m : M A) (k k' : A -> M B) d :
  (forall a d1, k a d1 = k' a d1) -> (m ≫= k) d = (m ≫= k') d.
Proof.
  intros H. unfold mbind, M_bind, bind.
  destruct (m d) as [[[a d1] e1]|]; [|reflexivity]. rewrite H. reflexivity.
Qed.

(** The send engine is its prefix through the completion wait, then the
    status check. *)
Lemma send_internal_to_done fuel slave data length t d :
  I2C_mstr_send_internal fuel slave data length t d =
  (early ← send_to_done fuel slave data length t;
   match early with
   | Some e => ret e
   | None => check_status I2C_SUCCESS
   end) d.
Proof.
  unfold I2C_mstr_send_internal, send_to_done, send_to_trigger, send_to_fill.
  rewrite !bind_assoc_run. apply bind_ext_run. intros [e|] d1.
  - rewrite !bind_ret_run. reflexivity.
  - rewrite !bind_assoc_run. apply bind_ext_run. intros [] d2.
    change (I2C_SUCCESS =? I2C_SUCCESS) with true. cbn iota.
    rewrite !bind_ret_run. rewrite !bind_assoc_run.
    apply bind_ext_run. intros filled d3.
    rewrite !bind_ret_run.
    destruct (filled =? 0); simpl.
    + rewrite !bind_ret_run. reflexivity.
    + rewrite !bind_assoc_run. apply bind_ext_run. intros [] d4.
      rewrite !bind_ret_run. reflexivity.
Qed.

(** The receive engine is its prefix through the status check, then the
    occupancy wait and the drain. *)
Lemma read_internal_to_status fuel slave buffer length t d :
  I2C_mstr_read_internal fuel slave buffer length t d =
  (x ← read_to_status fuel slave length t;
   match x with
   | inl e => ret (e, buffer)
   | inr st => read_finish fuel buffer length st
   end) d.
Proof.
  unfold I2C_mstr_read_internal, read_to_status, read_to_done,
    read_to_trigger.
  rewrite !bind_assoc_run. apply bind_ext_run. intros [e|] d1.
  - rewrite !bind_ret_run. reflexivity.
  - rewrite !bind_assoc_run. apply bind_ext_run. intros [] d2. simpl.
    rewrite !bind_assoc_run. apply bind_ext_run. intros [] d3.
    rewrite !bind_ret_run, !bind_assoc_run.
    apply bind_ext_run. intros [] d4.
    rewrite !bind_ret_run, !bind_assoc_run.
    apply bind_ext_run. intros st d5.
    rewrite !bind_ret_run. reflexivity.
Qed.

End Split.

(** ** The control word *)
Section ControlWord.
Context {L : hw_i2c}.








End ControlWord.

(** ** Facts about the send engine *)
Section SendFacts.
Context {L : hw_i2c} {D : device}.

(** A full queue seen by the loader ends the call right after the load. *)
Lemma send_fifo_error fuel slave data length t d d1 e1 d2 e2 :
  send_to_fill fuel t d = Some (None, d1, e1) ->
  I2C_fill_tx_fifo fuel data length d1 = Some (0, d2, e2) ->
  I2C_mstr_send_internal fuel slave data length t d
    = Some (I2C_FIFO_LOAD_ERROR, d2, e1 ++ e2).
Proof.
  intros H1 H2. rewrite send_internal_to_done.
  unfold send_to_done, send_to_trigger. rewrite !bind_assoc_run.
  rewrite (run_bind_after _ _ _ _ _ _ H1). simpl.
  rewrite !bind_assoc_run, (run_bind_after _ _ _ _ _ _ H2). simpl.
  rewrite !app_nil_r. reflexivity.
Qed.



(** A call that returned early from its prefix returns that code. *)
Lemma send_early fuel slave data length t d e d1 e1 :
  send_to_done fuel slave data length t d = Some (Some e, d1, e1) ->
  I2C_mstr_send_internal fuel slave data length t d = Some (e, d1, e1).
Proof.
  intros H. rewrite send_internal_to_done.
  rewrite (run_bind_after _ _ _ _ _ _ H). simpl.
  rewrite app_nil_r. reflexivity.
Qed.

(** The countdown of [I2C_TIMEOUT_COUNT] on a status that never changes. *)
Lemma timeout_count_stuck (I : dev -> Prop) mask pat fuel d :
  closed I ->
  (forall d, I d -> Z.land (dev_read MSR d).1 mask = pat) ->
  I2C_TIMEOUT_COUNT <= Z.of_nat fuel -> I d ->
  exists vs d',
    wait_msr_timeout fuel mask pat I2C_TIMEOUT_COUNT d
      = Some (Some I2C_ERR_TIMEOUT, d', poll_trace vs) /\
    Z.of_nat (List.length vs) = I2C_TIMEOUT_COUNT /\ I d'.
Proof.
  intros Hc Hm Hfuel HI.
  assert (Hn : Z.of_nat (Z.to_nat I2C_TIMEOUT_COUNT) = I2C_TIMEOUT_COUNT)
    by (unfold I2C_TIMEOUT_COUNT; lia).
  destruct (wait_msr_timeout_stuck I mask pat Hc Hm
              (Z.to_nat I2C_TIMEOUT_COUNT)
              ltac:(unfold I2C_TIMEOUT_COUNT; lia)
              ltac:(unfold I2C_TIMEOUT_COUNT; lia)
              fuel d ltac:(unfold I2C_TIMEOUT_COUNT in *; lia) HI)
    as (vs & d' & Hrun & Hlen & HI').
  rewrite Hn in Hrun. exists vs, d'. split; [exact Hrun|].
  split; [rewrite Hlen; exact Hn | exact HI'].
Qed.

(** On a bus that never reports idle, a Normal send gives up after the
    countdown, having done nothing but poll. *)
Lemma send_idle_timeout (I : dev -> Prop) fuel slave data length d :
  closed I ->
  (forall d, I d ->
     Z.land (dev_read MSR d).1 I2C_MSR_IDLE_MASK = I2C_MSR_IDLE_CLEARED) ->
  I2C_TIMEOUT_COUNT <= Z.of_nat fuel -> I d ->
  exists vs d',
    I2C_mstr_send_internal fuel slave data length I2C_NORMAL d
      = Some (I2C_ERR_TIMEOUT, d', poll_trace vs) /\
    Z.of_nat (List.length vs) = I2C_TIMEOUT_COUNT.
Proof.
  intros Hc Hm Hfuel HI.
  destruct (timeout_count_stuck I _ _ fuel d Hc Hm Hfuel HI)
    as (vs & d' & Hrun & Hlen & _).
  exists vs, d'. split; [|exact Hlen].
  unfold I2C_mstr_send_internal, wait_idle, is_normal.
  rewrite (run_bind_after _ _ _ _ _ _ Hrun).
  unfold after, ret. rewrite app_nil_r. reflexivity.
Qed.

(** On a controller that stays busy, a send that triggered its burst gives
    up after the countdown, whatever the burst type. *)
Lemma send_busy_timeout (I : dev -> Prop) fuel slave data length t d d1 e1 :
  closed I ->
  (forall d, I d ->
     Z.land (dev_read MSR d).1 I2C_MSR_BUSY_MASK = I2C_MSR_BUSY_SET) ->
  I2C_TIMEOUT_COUNT <= Z.of_nat fuel ->
  send_to_trigger fuel slave data length t d = Some (None, d1, e1) ->
  I d1 ->
  exists vs d',
    I2C_mstr_send_internal fuel slave data length t d
      = Some (I2C_ERR_TIMEOUT, d', e1 ++ poll_trace vs) /\
    Z.of_nat (List.length vs) = I2C_TIMEOUT_COUNT.
Proof.
  intros Hc Hm Hfuel Htrig HI.
  destruct (timeout_count_stuck I _ _ fuel d1 Hc Hm Hfuel HI)
    as (vs & d' & Hrun & Hlen & _).
  exists vs, d'. split; [|exact Hlen].
  apply send_early. unfold send_to_done.
  rewrite (run_bind_after _ _ _ _ _ _ Htrig).
  unfold send_wait_done. rewrite Hrun. reflexivity.
Qed.

(** Where a timeout of the send engine comes from. *)
Lemma send_timeout_origin fuel slave data length t d d' evs :
  I2C_mstr_send_internal fuel slave data length t d
    = Some (I2C_ERR_TIMEOUT, d', evs) ->
  (t = I2C_NORMAL /\
   wait_idle fuel t d = Some (Some I2C_ERR_TIMEOUT, d', evs)) \/
  (exists d1 e1 e2,
     send_to_trigger fuel slave data length t d = Some (None, d1, e1) /\
     send_wait_done fuel d1 = Some (Some I2C_ERR_TIMEOUT, d', e2) /\
     evs = e1 ++ e2).
Proof.
  intros H. rewrite send_internal_to_done in H. run_inv H.
  destruct a as [c|].
  - run_all. rewrite app_nil_r.
    unfold send_to_done in Hrun. run_inv Hrun. destruct a as [c|].
    + run_all. rewrite app_nil_r.
      unfold send_to_trigger in Hrun0. run_inv Hrun0. destruct a as [c|].
      * run_all. rewrite app_nil_r.
        unfold send_to_fill in Hrun. run_inv Hrun. destruct a as [c|].
        -- run_all. rewrite app_nil_r. left.
           destruct t;
             try (cbv [wait_idle is_normal ret] in Hrun0; discriminate).
           split; [reflexivity | exact Hrun0].
        -- run_all.
      * run_inv Hrun1. destruct (a =? 0); run_all.
    + right. eauto 8.
  - exfalso.
    destruct (check_status_run I2C_SUCCESS d0) as (r & d2 & e9 & Hcs & _ & Hr).
    rewrite Hcs in Hrun0. injection Hrun0 as Hcode _ _. subst r.
    destruct Hr as [Hr|[Hr|Hr]]; discriminate.
Qed.

(** The first access of a send call: the status register when the idle wait
    runs, the queue control register of the flush otherwise. *)
Lemma send_first_event fuel slave data length t d r d' evs :
  I2C_mstr_send_internal fuel slave data length t d = Some (r, d', evs) ->
  exists v rest,
    evs = EvRead (if is_normal t then MSR else MFIFOCTL) v :: rest.
Proof.
  intros H.
  assert (Hflush : forall (k : () -> M Z) dk rk dk' ek,
            (tx_fifo_flush fuel ≫= k) dk = Some (rk, dk', ek) ->
            exists v rest, ek = EvRead MFIFOCTL v :: rest).
  { intros k dk rk dk' ek Hk. run_inv Hk. unfold tx_fifo_flush in Hrun.
    run_inv Hrun. run_all. simpl. eauto. }
  unfold I2C_mstr_send_internal in H. run_inv H.
  destruct t; cbv [wait_idle is_normal] in Hrun;
    try (run_inv Hrun; simpl; eapply Hflush; exact Hrun0).
  destruct fuel as [|fuel]; [discriminate|]. simpl in Hrun.
  run_inv Hrun. run_all. simpl. eauto.
Qed.

(** A send call that triggered its burst did so by storing the control
    word, last. *)
Lemma send_trigger_word fuel slave data length t d d1 e1 :
  send_to_trigger fuel slave data length t d = Some (None, d1, e1) ->
  exists e0,
    e1 = e0 ++ [EvWrite MCTR (mctr_word I2C_MCTR_ACK_DISABLE length t)].
Proof.
  intros H. unfold send_to_trigger in H. run_inv H.
  destruct a as [c|]; [run_all|]. run_inv Hrun0.
  destruct (a =? 0); run_all.
  match goal with
  | H : send_program _ _ _ _ = Some _ |- _ => unfold send_program in H
  end.
  run_all. rewrite app_nil_r, !app_assoc. eexists. reflexivity.
Qed.

(** With the status already at 0 the loader returns 0. *)
Lemma fill_loop_zero fuel buffer count i d r d' e :
  fill_loop fuel buffer count i 0 d = Some (r, d', e) -> r = 0.
Proof.
  revert i d e. induction fuel as [|fuel IH]; intros i d e H;
    [discriminate H|].
  destruct (Z_lt_le_dec i count) as [Hlt|Hge].
  - rewrite fill_loop_round in H by exact Hlt.
    apply after_Some in H as (e2 & H & _).
    destruct (tx_full _) in H; exact (IH _ _ _ H).
  - simpl fill_loop in H. rewrite (proj2 (Z.ltb_ge _ _) Hge) in H.
    apply run_ret in H as (-> & _). reflexivity.
Qed.

(** More bytes than free entries: the loader returns 0. *)
Lemma fill_loop_overflow (I : dev -> Prop) (free : dev -> nat) fuel buffer
    count i st d r d' e :
  tx_queue I free ->
  I d -> 0 <= i -> (free d < Z.to_nat (count - i))%nat ->
  fill_loop fuel buffer count i st d = Some (r, d', e) -> r = 0.
Proof.
  intros [Hc Hfull Hstat Hstore]. revert i st d e.
  induction fuel as [|fuel IH]; intros i st d e HI Hi Hlt H;
    [discriminate H|].
  rewrite fill_loop_round in H by lia.
  apply after_Some in H as (e2 & H & _).
  assert (HI1 : I (dev_read MFIFOSR d).2) by (apply Hc, HI).
  destruct (tx_full (dev_read MFIFOSR d).1) eqn:Hf.
  - eapply fill_loop_zero. exact H.
  - assert (Hu : 0 <= u8 (i + 1) <= i + 1).
    { unfold u8. split; [apply Z.mod_pos_bound; lia|].
      apply Z.mod_le; lia. }
    eapply IH; [| | |exact H].
    + apply Hc, HI1.
    + lia.
    + rewrite (Hstore _ _ HI1), (Hstat _ HI).
      assert (free d <> O)
        by (intros H0; apply (Hfull _ HI) in H0; congruence).
      lia.
Qed.

(** The accesses of a send call up to the trigger of its burst, for a call
    that passed the idle wait: the flush, then one status read and one store
    per data byte, then - unless a status word reported a full queue - the
    address register and the control register. *)
Lemma send_to_trigger_cases fuel slave data length t d d0 e0 x d1 e1 :
  wait_idle fuel t d = Some (None, d0, e0) ->
  send_to_trigger fuel slave data length t d = Some (x, d1, e1) ->
  exists es srs,
    Forall ev_send_setup es /\ List.length srs = Z.to_nat length /\
    ((x = Some I2C_FIFO_LOAD_ERROR /\ e1 = es ++ fill_trace data 0 srs) \/
     (x = None /\
      e1 = es ++ fill_trace data 0 srs ++
           [EvWrite MSA (Z.lor (Z.shiftl slave I2C_MSA_SADDR_OFS)
                           I2C_MSA_DIR_TRANSMIT);
            EvWrite MCTR (mctr_word I2C_MCTR_ACK_DISABLE length t)])).
Proof.
  intros Hidle H. unfold send_to_trigger in H. run_inv H.
  pose proof (emits_send_to_fill _ _ _ _ _ _ Hrun) as Hes.
  destruct a as [c|].
  - exfalso. unfold send_to_fill in Hrun. run_inv Hrun.
    match goal with
    | H : wait_idle _ _ _ = Some (?a, _, _) |- _ =>
        is_var a; rewrite Hidle in H; injection H as <- <- <-
    end.
    run_all.
  - run_inv Hrun0.
    match goal with
    | H : I2C_fill_tx_fifo _ _ _ _ = Some _ |- _ =>
        unfold I2C_fill_tx_fifo in H;
        apply fill_loop_run in H as (srs & -> & -> & Hlen & _); [|lia]
    end.
    rewrite Z.sub_0_r in Hlen.
    exists e, srs. split; [exact Hes|]. split; [exact Hlen|].
    match goal with
    | H : (if _ then _ else _) _ = Some _ |- _ =>
        destruct (existsb tx_full srs); simpl in H;
        [left; run_all | right; run_inv H]
    end.
    + rewrite app_nil_r. auto.
    + match goal with
      | H : send_program _ _ _ _ = Some _ |- _ => unfold send_program in H
      end.
      run_all. rewrite app_nil_r. auto.
Qed.

(** The accesses of a whole send call that passed the idle wait. *)
Lemma send_run_cases fuel slave data length t d d0 e0 r d' evs :
  wait_idle fuel t d = Some (None, d0, e0) ->
  I2C_mstr_send_internal fuel slave data length t d = Some (r, d', evs) ->
  exists es srs,
    Forall ev_send_setup es /\ List.length srs = Z.to_nat length /\
    ((r = I2C_FIFO_LOAD_ERROR /\ evs = es ++ fill_trace data 0 srs) \/
     ((r = I2C_ERR_TIMEOUT \/ r = I2C_ERR_ARB_LOST \/ r = I2C_ERR_NACK \/
       r = I2C_SUCCESS) /\
      exists ep,
        Forall ev_poll ep /\
        evs = es ++ fill_trace data 0 srs ++
              [EvWrite MSA (Z.lor (Z.shiftl slave I2C_MSA_SADDR_OFS)
                              I2C_MSA_DIR_TRANSMIT);
               EvWrite MCTR (mctr_word I2C_MCTR_ACK_DISABLE length t)] ++ ep)).
Proof.
  intros Hidle H. rewrite send_internal_to_done in H. run_inv H.
  unfold send_to_done in Hrun. run_inv Hrun.
  match goal with
  | Ht : send_to_trigger _ _ _ _ _ _ = Some _ |- _ =>
      destruct (send_to_trigger_cases _ _ _ _ _ _ _ _ _ _ _ Hidle Ht)
        as (es & srs & Hes & Hlen & [[-> ->]|[-> ->]]); clear Ht
  end;
    exists es, srs; (split; [exact Hes|]); (split; [exact Hlen|]).
  - left. run_all. rewrite !app_nil_r. auto.
  - right.
    match goal with
    | Hw : send_wait_done _ ?dd = Some (?a, ?d9, ?e9) |- _ =>
        pose proof (emits_wait_msr_timeout ev_poll fuel I2C_MSR_BUSY_MASK
                      I2C_MSR_BUSY_SET I2C_TIMEOUT_COUNT
                      ltac:(intros; exact Logic.I) eq_refl _ _ _ _ Hw) as Hp;
        destruct a as [c|];
        [ assert (c = I2C_ERR_TIMEOUT) as ->
            by (eapply wait_msr_timeout_code; exact Hw);
          run_all; split; [auto|];
          exists e9; split; [exact Hp|];
          rewrite app_nil_r, <- !app_assoc; reflexivity
        | clear Hw ]
    end.
    match goal with
    | Hc : check_status _ ?dd = Some (?c, _, ?e3) |- _ =>
        destruct (check_status_run I2C_SUCCESS dd)
          as (c' & ? & e3' & Hcs & He3 & Hcode);
        rewrite Hcs in Hc; injection Hc as <- <- <-
    end.
    split; [tauto|].
    eexists. split; [|rewrite <- !app_assoc; reflexivity].
    apply Forall_app. split; [exact Hp|].
    eapply Forall_impl; [exact He3|].
    intros [[] v|[] v|us]; simpl; try discriminate; auto.
Qed.



End SendFacts.

(** ** Facts about the receive engine *)
Section ReadFacts.
Context {L : hw_i2c} {D : device}.

(** Past the status check, the call ends with the occupancy wait and the
    drain. *)
Lemma read_after_status fuel slave buffer length t d st d1 e1 :
  read_to_status fuel slave length t d = Some (inr st, d1, e1) ->
  I2C_mstr_read_internal fuel slave buffer length t d
    = after e1 (read_finish fuel buffer length st d1).
Proof.
  intros H. rewrite read_internal_to_status.
  rewrite (run_bind_after _ _ _ _ _ _ H). reflexivity.
Qed.

Lemma read_early fuel slave buffer length t d c d1 e1 :
  read_to_status fuel slave length t d = Some (inl c, d1, e1) ->
  I2C_mstr_read_internal fuel slave buffer length t d
    = Some ((c, buffer), d1, e1).
Proof.
  intros H. rewrite read_internal_to_status.
  rewrite (run_bind_after _ _ _ _ _ _ H). simpl.
  rewrite app_nil_r. reflexivity.
Qed.

(** The only early return of the receive engine is the idle timeout. *)
Lemma read_early_origin fuel slave length t d c d1 e1 :
  read_to_status fuel slave length t d = Some (inl c, d1, e1) ->
  c = I2C_ERR_TIMEOUT /\ t = I2C_NORMAL /\
  wait_idle fuel t d = Some (Some I2C_ERR_TIMEOUT, d1, e1).
Proof.
  intros H. unfold read_to_status in H. run_inv H.
  destruct a as [c1|]; [|run_all].
  run_all. rewrite app_nil_r.
  unfold read_to_done in Hrun. run_inv Hrun.
  destruct a as [c2|]; [|run_all].
  run_all. rewrite app_nil_r.
  unfold read_to_trigger in Hrun0. run_inv Hrun0.
  destruct a as [c3|]; [|run_all].
  run_all. rewrite app_nil_r.
  destruct t; try (cbv [wait_idle is_normal ret] in Hrun; discriminate).
  match goal with
  | H : wait_idle _ _ _ = Some (Some ?x, _, _) |- _ =>
      assert (x = I2C_ERR_TIMEOUT)
        by (eapply wait_msr_timeout_code; exact H);
      subst
  end.
  auto.
Qed.

(** A receive call that triggered its burst did so by storing the control
    word, last. *)
Lemma read_trigger_word fuel slave length t d d1 e1 :
  read_to_trigger fuel slave length t d = Some (None, d1, e1) ->
  exists e0,
    e1 = e0 ++ [EvWrite MCTR (mctr_word I2C_MCTR_ACK_ENABLE length t)].
Proof.
  intros H. unfold read_to_trigger in H. run_inv H.
  destruct a as [c|]; run_all.
  match goal with
  | H : read_program _ _ _ _ = Some _ |- _ => unfold read_program in H
  end.
  run_all. rewrite app_nil_r, !app_assoc. eexists. reflexivity.
Qed.

(** The status check leaves one of three codes. *)
Lemma read_status_codes fuel slave length t d st d1 e1 :
  read_to_status fuel slave length t d = Some (inr st, d1, e1) ->
  st = I2C_ERR_ARB_LOST \/ st = I2C_ERR_NACK \/ st = I2C_SUCCESS.
Proof.
  intros H. unfold read_to_status in H. run_inv H.
  destruct a as [c'|]; [run_all|]. run_inv Hrun0. run_all.
  match goal with
  | H : check_status _ ?d9 = Some _ |- _ =>
      destruct (check_status_run I2C_SUCCESS d9) as (r & ? & ? & Hcs & _ & Hr);
      rewrite Hcs in H; injection H as Hcode _ _; subst r; exact Hr
  end.
Qed.

(** A call that passed the idle wait and returned went past the status
    check. *)
Lemma read_past_idle fuel slave buffer length t d d0 e0 r b d' evs :
  wait_idle fuel t d = Some (None, d0, e0) ->
  I2C_mstr_read_internal fuel slave buffer length t d
    = Some ((r, b), d', evs) ->
  exists st d1 e1,
    read_to_status fuel slave length t d = Some (inr st, d1, e1).
Proof.
  intros Hidle H. rewrite read_internal_to_status in H. run_inv H.
  destruct a as [c|st]; [|eauto].
  apply read_early_origin in Hrun as (_ & _ & Hrun).
  rewrite Hidle in Hrun. discriminate.
Qed.

(** What the occupancy wait and the drain do. *)
Lemma read_finish_run fuel buffer length st d r b d' e :
  read_finish fuel buffer length st d = Some ((r, b), d', e) ->
  r = st /\
  exists polls last xs,
    e = map (EvRead MFIFOSR) (polls ++ [last]) ++ drain_trace xs /\
    Forall (fun v => rx_count v < length) polls /\
    length <= rx_count last /\
    (st = I2C_SUCCESS ->
       List.length xs = Z.to_nat length /\ b = store_bytes 0 xs buffer) /\
    (st <> I2C_SUCCESS -> xs = [] /\ b = buffer).
Proof.
  intros H. unfold read_finish in H. run_inv H.
  unfold rx_wait in Hrun.
  destruct (poll_while_run _ _ _ _ _ _ _ Hrun) as (polls & last & -> & Hp & Hl).
  assert (Hp' : Forall (fun v => rx_count v < length) polls).
  { eapply Forall_impl; [exact Hp|]. intros v Hv.
    unfold rx_short in Hv. apply Z.ltb_lt in Hv. exact Hv. }
  assert (Hl' : length <= rx_count last).
  { unfold rx_short in Hl. apply Z.ltb_ge in Hl. exact Hl. }
  destruct (st =? I2C_SUCCESS) eqn:Hst.
  - apply Z.eqb_eq in Hst.
    destruct (rx_drain_run (Z.to_nat length) 0 buffer d0)
      as (xs & d2 & Hdrain & Hlen).
    rewrite (run_bind_after _ _ _ _ _ _ Hdrain) in Hrun0.
    unfold after, ret in Hrun0. rewrite app_nil_r in Hrun0.
    injection Hrun0 as <- <- <- <-.
    split; [reflexivity|]. exists polls, last, xs.
    repeat split; auto; congruence.
  - apply Z.eqb_neq in Hst. run_all.
    split; [reflexivity|]. exists polls, last, [].
    repeat split; auto; congruence.
Qed.


(** On a bus that never reports idle, a Normal receive gives up after the
    countdown, having done nothing but poll. *)
Lemma read_idle_timeout (I : dev -> Prop) fuel slave buffer length d :
  closed I ->
  (forall d, I d ->
     Z.land (dev_read MSR d).1 I2C_MSR_IDLE_MASK = I2C_MSR_IDLE_CLEARED) ->
  I2C_TIMEOUT_COUNT <= Z.of_nat fuel -> I d ->
  exists vs d',
    I2C_mstr_read_internal fuel slave buffer length I2C_NORMAL d
      = Some ((I2C_ERR_TIMEOUT, buffer), d', poll_trace vs) /\
    Z.of_nat (List.length vs) = I2C_TIMEOUT_COUNT.
Proof.
  intros Hc Hm Hfuel HI.
  destruct (timeout_count_stuck I _ _ fuel d Hc Hm Hfuel HI)
    as (vs & d' & Hrun & Hlen & _).
  exists vs, d'. split; [|exact Hlen].
  unfold I2C_mstr_read_internal, wait_idle, is_normal.
  rewrite (run_bind_after _ _ _ _ _ _ Hrun).
  unfold after, ret. rewrite app_nil_r. reflexivity.
Qed.

(** The first access of a receive call. *)
Lemma read_first_event fuel slave buffer length t d r d' evs :
  I2C_mstr_read_internal fuel slave buffer length t d = Some (r, d', evs) ->
  exists v rest,
    evs = EvRead (if is_normal t then MSR else MFIFOCTL) v :: rest.
Proof.
  intros H.
  assert (Hflush : forall (k : () -> M (Z * list Z)) dk rk dk' ek,
            (rx_fifo_flush fuel ≫= k) dk = Some (rk, dk', ek) ->
            exists v rest, ek = EvRead MFIFOCTL v :: rest).
  { intros k dk rk dk' ek Hk. run_inv Hk. unfold rx_fifo_flush in Hrun.
    run_inv Hrun. run_all. simpl. eauto. }
  unfold I2C_mstr_read_internal in H. run_inv H.
  destruct t; cbv [wait_idle is_normal] in Hrun;
    try (run_inv Hrun; simpl; eapply Hflush; exact Hrun0).
  destruct fuel as [|fuel]; [discriminate|]. simpl in Hrun.
  run_inv Hrun. run_all. simpl. eauto.
Qed.

(** On a controller that stays busy, a receive that needs no idle wait never
    returns, whatever the number of polls allowed. *)
Lemma read_busy_never_returns (I : dev -> Prop) fuel slave buffer length t d :
  closed I ->
  (forall d, I d ->
     Z.land (dev_read MSR d).1 I2C_MSR_BUSY_MASK = I2C_MSR_BUSY_SET) ->
  I d -> t <> I2C_NORMAL ->
  I2C_mstr_read_internal fuel slave buffer length t d = None.
Proof.
  intros Hc Hm HI Ht.
  destruct (I2C_mstr_read_internal fuel slave buffer length t d)
    as [[[[r b] d'] evs]|] eqn:H; [exfalso|reflexivity].
  rewrite read_internal_to_status in H. run_inv H.
  unfold read_to_status in Hrun. run_inv Hrun.
  unfold read_to_done in Hrun1. run_inv Hrun1.
  destruct a1 as [c|].
  - unfold read_to_trigger in Hrun. run_inv Hrun.
    destruct a1 as [c'|]; [|run_all].
    destruct t; try congruence;
      cbv [wait_idle is_normal ret] in Hrun1; discriminate.
  - pose proof (keeps_read_to_trigger I fuel slave length t Hc _ _ _ _ HI Hrun)
      as HI1.
    run_inv Hrun3. unfold read_wait_done in Hrun1.
    rewrite (poll_while_stuck I MSR msr_busy Hc) in Hrun1;
      [discriminate| |exact HI1].
    intros d9 H9. unfold msr_busy. apply Z.eqb_eq, Hm, H9.
Qed.

(** On a controller whose receive queue never holds [length] bytes, a
    receive that passed the idle wait never returns. *)
Lemma read_short_never_returns (I : dev -> Prop) fuel slave buffer length t
    d d0 e0 :
  closed I ->
  (forall d, I d -> rx_count (dev_read MFIFOSR d).1 < length) ->
  I d ->
  wait_idle fuel t d = Some (None, d0, e0) ->
  I2C_mstr_read_internal fuel slave buffer length t d = None.
Proof.
  intros Hc Hm HI Hidle.
  destruct (I2C_mstr_read_internal fuel slave buffer length t d)
    as [[[[r b] d'] evs]|] eqn:H; [exfalso|reflexivity].
  destruct (read_past_idle _ _ _ _ _ _ _ _ _ _ _ _ Hidle H)
    as (st & d1 & e1 & Hst).
  rewrite (read_after_status _ _ _ _ _ _ _ _ _ Hst) in H.
  apply after_Some in H as (e2 & H & _).
  pose proof (keeps_read_to_status I fuel slave length t Hc _ _ _ _ HI Hst)
    as HI1.
  unfold read_finish in H. run_inv H. unfold rx_wait in Hrun.
  rewrite (poll_while_stuck I MFIFOSR (rx_short length) Hc) in Hrun;
    [discriminate| |exact HI1].
  intros d9 H9. unfold rx_short. apply Z.ltb_lt, Hm, H9.
Qed.

(** On a controller that stays busy, a receive that is past the idle wait
    never returns, whatever the burst type and the number of polls allowed:
    its wait for the end of the burst has no counter. *)
Lemma read_busy_past_idle (I : dev -> Prop) fuel slave buffer length t d
    d0 e0 :
  closed I ->
  (forall d, I d ->
     Z.land (dev_read MSR d).1 I2C_MSR_BUSY_MASK = I2C_MSR_BUSY_SET) ->
  I d ->
  wait_idle fuel t d = Some (None, d0, e0) ->
  I2C_mstr_read_internal fuel slave buffer length t d = None.
Proof.
  intros Hc Hm HI Hidle.
  destruct (I2C_mstr_read_internal fuel slave buffer length t d)
    as [[[[r b] d'] evs]|] eqn:H; [exfalso|reflexivity].
  rewrite read_internal_to_status in H. run_inv H.
  unfold read_to_status in Hrun. run_inv Hrun.
  unfold read_to_done in Hrun1. run_inv Hrun1.
  destruct a1 as [c|].
  - unfold read_to_trigger in Hrun. run_inv Hrun.
    rewrite Hidle in Hrun1. injection Hrun1 as <- <- <-. run_all.
  - pose proof (keeps_read_to_trigger I fuel slave length t Hc _ _ _ _ HI Hrun)
      as HI1.
    run_inv Hrun3. unfold read_wait_done in Hrun1.
    rewrite (poll_while_stuck I MSR msr_busy Hc) in Hrun1;
      [discriminate| |exact HI1].
    intros d9 H9. unfold msr_busy. apply Z.eqb_eq, Hm, H9.
Qed.


End ReadFacts.

(** ** Facts about the simulated controller *)
Section SimFacts.
#[local] Existing Instance mspm0g350x.
#[local] Existing Instance sim_device.

(** The status word of the simulated controller never changes. *)
Lemma sim_msr_closed (c : Z) :
  closed (D:=sim_device) (fun s => sim_msr s = c).
Proof.
  split; [|split].
  - intros r s H. destruct r; exact H.
  - intros r v s H. destruct r; exact H.
  - intros us s H. exact H.
Qed.

Lemma sim_quiet_closed : closed (D:=sim_device) sim_quiet.
Proof.
  unfold sim_quiet. split; [|split].
  - intros r s (Hf & Hr & Hw).
    destruct r;
      cbv [dev_read sim_device sim_read sim_tx_free sim_rx sim_wire snd];
      auto.
    fold (sim_rx s). rewrite Hr. auto.
  - intros r v s (Hf & Hr & Hw).
    destruct r;
      cbv [dev_write sim_device sim_write sim_tx_free sim_rx sim_wire];
      fold (sim_tx_free s) (sim_rx s) (sim_wire s); auto.
    + split; [destruct (Z.testbit v 7); lia|].
      split; [destruct (Z.testbit v 15); auto | exact Hw].
    + split; [exact Hf|]. split; [|exact Hw].
      destruct (Z.testbit v 3); [rewrite Hw; apply firstn_nil | exact Hr].
    + split; [lia | auto].
  - intros us s H. exact H.
Qed.

Lemma sim_quiet_status s :
  sim_quiet s ->
  (sim_read MFIFOSR s).1 = Z.shiftl (sim_tx_free s) 8 /\
  (sim_tx_free s = 0 \/ sim_tx_free s = 1 \/ sim_tx_free s = 2 \/
   sim_tx_free s = 3 \/ sim_tx_free s = 4 \/ sim_tx_free s = 5 \/
   sim_tx_free s = 6 \/ sim_tx_free s = 7 \/ sim_tx_free s = 8).
Proof.
  intros (Hf & Hr & Hw). split; [|lia].
  simpl. rewrite Hr. simpl. apply Z.lor_0_r.
Qed.

Lemma sim_msr_stuck (c mask : Z) :
  msr_stuck (D:=sim_device) (fun s => sim_msr s = c) mask (Z.land c mask).
Proof.
  intros s Hs. change (dev_read MSR s).1 with (sim_msr s).
  rewrite Hs. reflexivity.
Qed.

(** In those states the simulated transmit queue is a queue as the loader
    reads it. *)
Lemma sim_tx_queue :
  tx_queue (D:=sim_device) sim_quiet (fun s => Z.to_nat (sim_tx_free s)).
Proof.
  split.
  - exact sim_quiet_closed.
  - intros s H. change (dev_read MFIFOSR s) with (sim_read MFIFOSR s).
    change (@dev sim_device) with sim in *.
    destruct (sim_quiet_status s H) as (-> & Hcases).
    unfold tx_full.
    destruct Hcases as [->|[->|[->|[->|[->|[->|[->|[->| ->]]]]]]]];
      vm_compute; split; intros; congruence.
  - intros s H. reflexivity.
  - intros v s (Hf & _). simpl. lia.
Qed.

(** In those states the simulated receive queue holds no byte. *)
Lemma sim_quiet_rx_count s :
  sim_quiet s -> rx_count (sim_read MFIFOSR s).1 = 0.
Proof.
  intros H. destruct (sim_quiet_status s H) as (-> & Hcases).
  destruct Hcases as [->|[->|[->|[->|[->|[->|[->|[->| ->]]]]]]]];
    reflexivity.
Qed.

End SimFacts.

(** ** The claims *)



(** C2, as the code has it.  When the loader finds the transmit queue full,
    the send call returns [I2C_FIFO_LOAD_ERROR] straight after the load: its
    events are those of the idle wait, the flush and the load, the device is
    left as the load left it, neither the slave address register nor the
    control register is written, and no status flag is read after the load. *)
Theorem C2_full_queue_ends_the_call (L : hw_i2c) (D : device) (fuel : nat)
    (slave : Z) (data : list Z) (length : Z) (t : i2c_burst_type_t)
    (d d1 d2 : dev) (e1 e2 : list event) :
  send_to_fill fuel t d = Some (None, d1, e1) ->
  I2C_fill_tx_fifo fuel data length d1 = Some (0, d2, e2) ->
  I2C_mstr_send_internal fuel slave data length t d
    = Some (I2C_FIFO_LOAD_ERROR, d2, e1 ++ e2) /\
  Forall (fun e => is_write MSA e = false /\ is_write MCTR e = false)
    (e1 ++ e2) /\
  Forall (fun e => is_read MSR e = false) e2.
Proof.
  intros H1 H2. split; [eapply send_fifo_error; eassumption|]. split.
  - apply Forall_app. split.
    + eapply Forall_impl; [exact (emits_send_to_fill _ _ _ _ _ _ H1)|].
      intros [[] v|[] v|us]; simpl; tauto.
    + eapply Forall_impl; [exact (emits_fill _ _ _ _ _ _ _ H2)|].
      intros [[] v|[] v|us]; simpl; tauto.
  - eapply Forall_impl; [exact (emits_fill _ _ _ _ _ _ _ H2)|].
    intros [[] v|[] v|us]; simpl; tauto.
Qed.

(** An instance of C2: nine bytes sent under Start to the simulated
    controller, whose queue has eight entries. *)
Lemma C2_full_queue_ends_the_call_witness :
  exists d2 evs,
    I2C_mstr_send_internal (L:=mspm0g350x) (D:=sim_device) 10 0x27
      [1; 2; 3; 4; 5; 6; 7; 8; 9] 9 I2C_START (sim_init 0x20 [])
      = Some (I2C_FIFO_LOAD_ERROR, d2, evs) /\
    Forall (fun e => is_write MSA e = false /\ is_write MCTR e = false) evs.
Proof.
  eexists _, _.
  pose proof (C2_full_queue_ends_the_call mspm0g350x sim_device 10 0x27
                [1; 2; 3; 4; 5; 6; 7; 8; 9] 9 I2C_START (sim_init 0x20 [])
                _ _ _ _ eq_refl eq_refl) as (Hrun & Hw & _).
  split; [exact Hrun | exact Hw].
Defined.

(** C2 as the specification words it - the engine still proceeds with the
    burst after a load error - fails on the code.  Nine bytes sent under
    Start to the simulated controller, whose status shows no error: the load
    finds the queue full and the call returns [I2C_FIFO_LOAD_ERROR], but it
    has written neither the slave address register nor the control register,
    and has read no status flag. *)
Lemma C2_full_queue_still_bursts_counterexample :
  exists d' evs,
    I2C_mstr_send_start (L:=mspm0g350x) (D:=sim_device) 10 0x27
      [1; 2; 3; 4; 5; 6; 7; 8; 9] 9 (sim_init 0x20 [])
      = Some (I2C_FIFO_LOAD_ERROR, d', evs) /\
    existsb (is_write MSA) evs = false /\
    existsb (is_write MCTR) evs = false /\
    existsb (is_read MSR) evs = false.
Proof. eexists _, _. split; [reflexivity|]. repeat split. Qed.

(** C3, as the code has it.  The receive engine has one counted wait, the
    idle wait: a receive call that returns [I2C_ERR_TIMEOUT] is a Normal call
    whose idle wait gave up; and on a controller that stays busy a receive
    call that is past the idle wait - under every burst type, Normal
    included - never returns, however many polls it is allowed: so does, in
    particular, every receive call that needs no idle wait.  The send engine
    has two counted waits: on a controller that stays busy, a send call that
    has triggered its burst returns [I2C_ERR_TIMEOUT] after exactly
    [I2C_TIMEOUT_COUNT] polls of the busy flag, under every burst type; and a
    send call that returns [I2C_ERR_TIMEOUT] does so from the idle wait of a
    Normal call or from the wait for the end of the burst. *)
Theorem C3_counted_waits (L : hw_i2c) (D : device) :
  (forall fuel slave buffer length t d b d' evs,
     I2C_mstr_read_internal fuel slave buffer length t d
       = Some ((I2C_ERR_TIMEOUT, b), d', evs) ->
     t = I2C_NORMAL /\ b = buffer /\
     wait_idle fuel t d = Some (Some I2C_ERR_TIMEOUT, d', evs)) /\
  (forall (I : dev -> Prop) fuel slave buffer length t d d0 e0,
     closed I -> msr_stuck I I2C_MSR_BUSY_MASK I2C_MSR_BUSY_SET ->
     I d -> wait_idle fuel t d = Some (None, d0, e0) ->
     I2C_mstr_read_internal fuel slave buffer length t d = None) /\
  (forall (I : dev -> Prop) fuel slave buffer length t d,
     closed I -> msr_stuck I I2C_MSR_BUSY_MASK I2C_MSR_BUSY_SET ->
     I d -> t <> I2C_NORMAL ->
     I2C_mstr_read_internal fuel slave buffer length t d = None) /\
  (forall (I : dev -> Prop) fuel slave data length t d d1 e1,
     closed I -> msr_stuck I I2C_MSR_BUSY_MASK I2C_MSR_BUSY_SET ->
     I2C_TIMEOUT_COUNT <= Z.of_nat fuel ->
     send_to_trigger fuel slave data length t d = Some (None, d1, e1) ->
     I d1 ->
     exists vs d',
       I2C_mstr_send_internal fuel slave data length t d
         = Some (I2C_ERR_TIMEOUT, d', e1 ++ poll_trace vs) /\
       Z.of_nat (List.length vs) = I2C_TIMEOUT_COUNT) /\
  (forall fuel slave data length t d d' evs,
     I2C_mstr_send_internal fuel slave data length t d
       = Some (I2C_ERR_TIMEOUT, d', evs) ->
     (t = I2C_NORMAL /\
      wait_idle fuel t d = Some (Some I2C_ERR_TIMEOUT, d', evs)) \/
     (exists d1 e1 e2,
        send_to_trigger fuel slave data length t d = Some (None, d1, e1) /\
        send_wait_done fuel d1 = Some (Some I2C_ERR_TIMEOUT, d', e2) /\
        evs = e1 ++ e2)).
Proof.
  split; [|split; [|split; [|split]]].
  - intros fuel slave buffer length t d b d' evs H.
    rewrite read_internal_to_status in H. run_inv H.
    destruct a as [c|st].
    + run_all. rewrite app_nil_r.
      destruct (read_early_origin _ _ _ _ _ _ _ _ Hrun) as (_ & Ht & Hidle).
      auto.
    + exfalso.
      pose proof (read_status_codes _ _ _ _ _ _ _ _ Hrun) as Hst.
      destruct (read_finish_run _ _ _ _ _ _ _ _ _ Hrun0) as (Hr & _).
      destruct Hst as [Hst|[Hst|Hst]]; rewrite Hst in Hr; discriminate.
  - intros I fuel slave buffer length t d d0 e0 Hc Hm HI Hidle.
    eapply read_busy_past_idle; eassumption.
  - intros I fuel slave buffer length t d Hc Hm HI Ht.
    eapply read_busy_never_returns; eassumption.
  - intros I fuel slave data length t d d1 e1 Hc Hm Hfuel Htrig HI.
    eapply send_busy_timeout; eassumption.
  - intros fuel slave data length t d d' evs H.
    apply send_timeout_origin. exact H.
Qed.

(** An instance of C3 on the simulated controller with the busy flag stuck:
    a Normal receive that finds the bus idle (status word 0x21) never
    returns, nor does a receive under Start; a send under Continue times
    out. *)
Lemma C3_counted_waits_witness :
  I2C_mstr_read_internal (L:=mspm0g350x) (D:=sim_device) 1000 0x27 [0] 1
    I2C_NORMAL (sim_init 0x21 [0xAA]) = None /\
  I2C_mstr_read_internal (L:=mspm0g350x) (D:=sim_device) 1000 0x27 [0] 1
    I2C_START (sim_init 0x1 [0xAA]) = None /\
  exists vs d',
    I2C_mstr_send_internal (L:=mspm0g350x) (D:=sim_device)
      (Z.to_nat 200000) 0x27 [0x0C] 1 I2C_CONTINUE (sim_init 0x1 [])
      = Some (I2C_ERR_TIMEOUT, d',
              [EvRead MFIFOCTL 0; EvWrite MFIFOCTL 128; EvRead MFIFOSR 2048;
               EvRead MFIFOCTL 0; EvWrite MFIFOCTL 0; EvRead MFIFOSR 2048;
               EvWrite MTXDATA 12; EvWrite MSA 78; EvWrite MCTR 65539]
              ++ poll_trace vs) /\
    Z.of_nat (List.length vs) = I2C_TIMEOUT_COUNT.
Proof.
  pose proof (C3_counted_waits mspm0g350x sim_device)
    as (_ & Hpast & Hread & Hsend & _).
  split; [|split].
  - apply (Hpast (fun s => sim_msr s = 0x21) 1000%nat 0x27 [0] 1 I2C_NORMAL
             (sim_init 0x21 [0xAA]) (sim_init 0x21 [0xAA]) [EvRead MSR 0x21]);
      [apply sim_msr_closed | exact (sim_msr_stuck 0x21 1) | reflexivity
      | reflexivity].
  - apply (Hread (fun s => sim_msr s = 1));
      [apply sim_msr_closed | exact (sim_msr_stuck 1 1) | reflexivity
      | discriminate].
  - apply (Hsend (fun s => sim_msr s = 1) (Z.to_nat 200000) 0x27 [0x0C] 1
             I2C_CONTINUE (sim_init 0x1 [])
             {| sim_msr := 1; sim_tx_free := 7; sim_rx := [];
                sim_wire := [] |});
      [apply sim_msr_closed | exact (sim_msr_stuck 1 1)
      | unfold I2C_TIMEOUT_COUNT; lia | vm_compute; reflexivity
      | reflexivity].
Defined.

(** C3 as the specification words it - only the idle wait of a Normal call
    can time out - fails on the code for the send engine.  On the simulated
    controller with the busy flag stuck, [I2C_mstr_send_start] - burst type
    Start, so no idle wait - returns [I2C_ERR_TIMEOUT]: the send engine
    counts down on the busy flag after it has triggered the burst. *)
Lemma C3_only_idle_wait_is_bounded_counterexample :
  exists d' evs,
    I2C_mstr_send_start (L:=mspm0g350x) (D:=sim_device) (Z.to_nat 200000)
      0x27 [0x0C] 1 (sim_init 0x1 [])
      = Some (I2C_ERR_TIMEOUT, d', evs) /\
    In (EvWrite MCTR 65539) evs.
Proof.
  destruct (send_busy_timeout (L:=mspm0g350x) (D:=sim_device)
              (fun s => sim_msr s = 1) (Z.to_nat 200000) 0x27 [0x0C] 1
              I2C_START (sim_init 0x1 [])
              {| sim_msr := 1; sim_tx_free := 7; sim_rx := [];
                 sim_wire := [] |}
              [EvRead MFIFOCTL 0; EvWrite MFIFOCTL 128; EvRead MFIFOSR 2048;
               EvRead MFIFOCTL 0; EvWrite MFIFOCTL 0; EvRead MFIFOSR 2048;
               EvWrite MTXDATA 12; EvWrite MSA 78; EvWrite MCTR 65539])
    as (vs & d' & Hrun & _).
  - apply sim_msr_closed.
  - exact (sim_msr_stuck 1 1).
  - unfold I2C_TIMEOUT_COUNT. lia.
  - vm_compute. reflexivity.
  - reflexivity.
  - eexists _, _. split; [exact Hrun|].
    apply in_or_app. left. simpl. tauto.
Qed.

(** C4.  On a bus that never reports idle, a Normal send call and a Normal
    receive call return [I2C_ERR_TIMEOUT] after exactly [I2C_TIMEOUT_COUNT]
    = 200,000 polls of the status register, with one 10 microsecond delay
    between consecutive polls and nothing else: no register is written, the
    receive buffer is untouched.  And the idle wait runs exactly for the
    burst type Normal: the first access of a call is a status poll if and
    only if the burst type is Normal (it is the queue flush otherwise). *)
Theorem C4_idle_wait (L : hw_i2c) (D : device) :
  (forall (I : dev -> Prop) fuel slave data buffer length d,
     closed I -> msr_stuck I I2C_MSR_IDLE_MASK I2C_MSR_IDLE_CLEARED ->
     I2C_TIMEOUT_COUNT <= Z.of_nat fuel -> I d ->
     (exists vs d',
        I2C_mstr_send_internal fuel slave data length I2C_NORMAL d
          = Some (I2C_ERR_TIMEOUT, d', poll_trace vs) /\
        Z.of_nat (List.length vs) = 200000) /\
     (exists vs d',
        I2C_mstr_read_internal fuel slave buffer length I2C_NORMAL d
          = Some ((I2C_ERR_TIMEOUT, buffer), d', poll_trace vs) /\
        Z.of_nat (List.length vs) = 200000)) /\
  (forall fuel slave data length t d r d' evs,
     I2C_mstr_send_internal fuel slave data length t d = Some (r, d', evs) ->
     (t = I2C_NORMAL <-> exists v rest, evs = EvRead MSR v :: rest)) /\
  (forall fuel slave buffer length t d r d' evs,
     I2C_mstr_read_internal fuel slave buffer length t d = Some (r, d', evs) ->
     (t = I2C_NORMAL <-> exists v rest, evs = EvRead MSR v :: rest)).
Proof.
  assert (Hfirst : forall t (evs : list event),
            (exists v rest,
               evs = EvRead (if is_normal t then MSR else MFIFOCTL) v :: rest) ->
            (t = I2C_NORMAL <-> exists v rest, evs = EvRead MSR v :: rest)).
  { intros t evs (v & rest & ->). split.
    - intros ->. simpl. eauto.
    - intros (v' & rest' & Heq). destruct t; simpl in Heq; congruence. }
  split; [|split].
  - intros I fuel slave data buffer length d Hc Hm Hfuel HI. split.
    + eapply send_idle_timeout; eassumption.
    + eapply read_idle_timeout; eassumption.
  - intros fuel slave data length t d r d' evs H.
    apply Hfirst. eapply send_first_event. exact H.
  - intros fuel slave buffer length t d r d' evs H.
    apply Hfirst. eapply read_first_event. exact H.
Qed.

(** An instance of C4: the simulated controller with the status word stuck
    at 0, polled by [I2C_mstr_send1] and by [I2C_mstr_read1]. *)
Lemma C4_idle_wait_witness :
  (exists vs d',
     I2C_mstr_send1 (L:=mspm0g350x) (D:=sim_device) (Z.to_nat 200000)
       0x27 0x00 (sim_init 0 [])
       = Some (I2C_ERR_TIMEOUT, d', poll_trace vs) /\
     Z.of_nat (List.length vs) = 200000) /\
  (exists vs d',
     I2C_mstr_read1 (L:=mspm0g350x) (D:=sim_device) (Z.to_nat 200000)
       0x27 [0x55] (sim_init 0 [])
       = Some ((I2C_ERR_TIMEOUT, [0x55]), d', poll_trace vs) /\
     Z.of_nat (List.length vs) = 200000).
Proof.
  apply (proj1 (C4_idle_wait mspm0g350x sim_device)
           (fun s => sim_msr s = 0) (Z.to_nat 200000) 0x27 [0x00] [0x55] 1
           (sim_init 0 [])).
  - apply sim_msr_closed.
  - exact (sim_msr_stuck 0 0x20).
  - unfold I2C_TIMEOUT_COUNT. lia.
  - reflexivity.
Defined.



(** C6.  The queue loader, for a count of at most 255 - every count the
    send engine passes, its length being a byte - returns once it has its
    rounds: it reads the queue status before each byte and then stores that
    byte, for every index below [count], and its result is 0 exactly when one
    of those status words reported a full queue.  Its index being a byte too,
    for a count above 255 it never returns.  And when the send engine reaches
    the load with the eight entries of the queue free and is asked for more
    than eight bytes, the call stores all of them and returns
    [I2C_FIFO_LOAD_ERROR]. *)
Theorem C6_fifo_overflow (L : hw_i2c) (D : device) :
  (forall fuel buffer count d,
     0 <= count < 2 ^ 8 -> (Z.to_nat count < fuel)%nat ->
     exists srs d',
       I2C_fill_tx_fifo fuel buffer count d
         = Some (if existsb tx_full srs then 0 else 1, d',
                 fill_trace buffer 0 srs) /\
       List.length srs = Z.to_nat count) /\
  (forall fuel buffer count d,
     2 ^ 8 <= count -> I2C_fill_tx_fifo fuel buffer count d = None) /\
  (forall (I : dev -> Prop) (free : dev -> nat) fuel slave data length t
          d d1 e1,
     tx_queue I free ->
     send_to_fill fuel t d = Some (None, d1, e1) ->
     I d1 -> free d1 = 8%nat -> 8 < length < 2 ^ 8 ->
     (Z.to_nat length < fuel)%nat ->
     exists srs d2,
       I2C_mstr_send_internal fuel slave data length t d
         = Some (I2C_FIFO_LOAD_ERROR, d2, e1 ++ fill_trace data 0 srs) /\
       List.length srs = Z.to_nat length).
Proof.
  split; [|split].
  - intros fuel buffer count d Hcount Hfuel.
    destruct (fill_loop_returns fuel buffer count 0 1 d)
      as (srs & d' & Hrun & Hlen); [lia|lia|rewrite Z.sub_0_r; exact Hfuel|].
    rewrite Z.sub_0_r in Hlen. exists srs, d'. split; assumption.
  - intros fuel buffer count d Hcount.
    apply fill_loop_wraps; [exact Hcount|lia].
  - intros I free fuel slave data length t d d1 e1 Hq Hpre HI Hfree Hlen
      Hfuel.
    destruct (fill_loop_returns fuel data length 0 1 d1)
      as (srs & d2 & Hrun & Hsrs); [lia|lia|rewrite Z.sub_0_r; exact Hfuel|].
    rewrite Z.sub_0_r in Hsrs.
    assert (Hzero : (if existsb tx_full srs then 0 else 1) = 0).
    { eapply (fill_loop_overflow I free);
        [exact Hq | exact HI | | | exact Hrun]; [lia|].
      rewrite Hfree. lia. }
    rewrite Hzero in Hrun. exists srs, d2. split; [|exact Hsrs].
    eapply send_fifo_error; eassumption.
Qed.

(** An instance of C6: nine bytes sent under Start through the simulated
    controller. *)
Lemma C6_fifo_overflow_witness :
  exists srs d2,
    I2C_mstr_send_start (L:=mspm0g350x) (D:=sim_device) 10 0x27
      [1; 2; 3; 4; 5; 6; 7; 8; 9] 9 (sim_init 0x20 [])
      = Some (I2C_FIFO_LOAD_ERROR, d2,
              [EvRead MFIFOCTL 0; EvWrite MFIFOCTL 128; EvRead MFIFOSR 2048;
               EvRead MFIFOCTL 0; EvWrite MFIFOCTL 0]
              ++ fill_trace [1; 2; 3; 4; 5; 6; 7; 8; 9] 0 srs) /\
    List.length srs = 9%nat.
Proof.
  apply (proj2 (proj2 (C6_fifo_overflow mspm0g350x sim_device))
           sim_quiet (fun s => Z.to_nat (sim_tx_free s)) 10%nat 0x27
           [1; 2; 3; 4; 5; 6; 7; 8; 9] 9 I2C_START (sim_init 0x20 [])
           (sim_init 0x20 [])).
  - exact sim_tx_queue.
  - reflexivity.
  - unfold sim_quiet. simpl. repeat split; lia.
  - reflexivity.
  - lia.
  - lia.
Defined.

(** C7.  A receive call that has passed the status check then polls the
    occupancy count of the receive queue, reading [MFIFOSR] until the count
    is at least [length]; no read of the data register comes before the
    last of those polls.  Only then, and only under [I2C_SUCCESS], it
    drains: [length] reads of [MRXDATA], each followed by one 30 microsecond
    delay, the bytes stored in order from index 0. *)
Theorem C7_occupancy_wait_then_drain (L : hw_i2c) (D : device) (fuel : nat)
    (slave : Z) (buffer : list Z) (length : Z) (t : i2c_burst_type_t)
    (d d1 d' : dev) (st r : Z) (b : list Z) (e1 evs : list event) :
  read_to_status fuel slave length t d = Some (inr st, d1, e1) ->
  I2C_mstr_read_internal fuel slave buffer length t d
    = Some ((r, b), d', evs) ->
  exists polls last xs,
    evs = e1 ++ map (EvRead MFIFOSR) (polls ++ [last]) ++ drain_trace xs /\
    Forall (fun e => is_read MRXDATA e = false) e1 /\
    Forall (fun v => rx_count v < length) polls /\
    length <= rx_count last /\
    r = st /\
    (st = I2C_SUCCESS ->
       List.length xs = Z.to_nat length /\ b = store_bytes 0 xs buffer) /\
    (st <> I2C_SUCCESS -> xs = [] /\ b = buffer).
Proof.
  intros Hst H. rewrite (read_after_status _ _ _ _ _ _ _ _ _ Hst) in H.
  apply after_Some in H as (e2 & H & ->).
  destruct (read_finish_run _ _ _ _ _ _ _ _ _ H)
    as (Hr & polls & last & xs & -> & Hp & Hl & Hok & Hko).
  exists polls, last, xs. repeat split; try tauto.
  eapply Forall_impl; [exact (emits_read_to_status _ _ _ _ _ _ _ _ Hst)|].
  intros [[] v|[] v|us]; simpl; tauto.
Qed.

(** An instance of C7: three bytes read under Normal from a slave that
    offers four. *)
Lemma C7_occupancy_wait_then_drain_witness :
  exists polls last xs,
    [EvRead MSR 32; EvRead MFIFOCTL 0; EvWrite MFIFOCTL 32768;
     EvRead MFIFOSR 2048; EvRead MFIFOCTL 0; EvWrite MFIFOCTL 0;
     EvWrite MSA 79; EvWrite MCTR 196623; EvRead MSR 32; EvRead MSR 32;
     EvRead MSR 32; EvRead MFIFOSR 2051; EvRead MRXDATA 170; EvDelay 30;
     EvRead MRXDATA 187; EvDelay 30; EvRead MRXDATA 204; EvDelay 30]
    = [EvRead MSR 32; EvRead MFIFOCTL 0; EvWrite MFIFOCTL 32768;
       EvRead MFIFOSR 2048; EvRead MFIFOCTL 0; EvWrite MFIFOCTL 0;
       EvWrite MSA 79; EvWrite MCTR 196623; EvRead MSR 32; EvRead MSR 32;
       EvRead MSR 32]
      ++ map (EvRead MFIFOSR) (polls ++ [last]) ++ drain_trace xs /\
    Forall (fun v => rx_count (L:=mspm0g350x) v < 3) polls /\
    3 <= rx_count (L:=mspm0g350x) last /\
    List.length xs = 3%nat /\
    [170; 187; 204; 0] = store_bytes (L:=mspm0g350x) 0 xs [0; 0; 0; 0].
Proof.
  destruct (C7_occupancy_wait_then_drain mspm0g350x sim_device 5 0x27
              [0; 0; 0; 0] 3 I2C_NORMAL
              (sim_init 0x20 [0xAA; 0xBB; 0xCC; 0xDD])
              _ _ _ _ _ _ _ eq_refl eq_refl)
    as (polls & last & xs & Hevs & _ & Hp & Hl & _ & Hok & _).
  exists polls, last, xs.
  destruct (Hok eq_refl) as (Hlen & Hb).
  repeat split; assumption.
Defined.

(** C8.  Each of the ten public entry points is its engine applied to the
    same arguments with a fixed burst type: Normal, Normal, Start, Continue,
    End for the five send functions and for the five receive functions, the
    single-byte forms with length 1.  [I2C_mstr_send1] passes the address of
    its byte argument, an array of one byte. *)
Theorem C8_facade_is_delegation (L : hw_i2c) (D : device) (fuel : nat)
    (slave byte : Z) (data buffer : list Z) (length : Z) :
  I2C_mstr_send1 fuel slave byte
    = I2C_mstr_send_internal fuel slave [byte] 1 I2C_NORMAL /\
  I2C_mstr_send fuel slave data length
    = I2C_mstr_send_internal fuel slave data length I2C_NORMAL /\
  I2C_mstr_send_start fuel slave data length
    = I2C_mstr_send_internal fuel slave data length I2C_START /\
  I2C_mstr_send_continue fuel slave data length
    = I2C_mstr_send_internal fuel slave data length I2C_CONTINUE /\
  I2C_mstr_send_end fuel slave data length
    = I2C_mstr_send_internal fuel slave data length I2C_END /\
  I2C_mstr_read1 fuel slave buffer
    = I2C_mstr_read_internal fuel slave buffer 1 I2C_NORMAL /\
  I2C_mstr_read fuel slave buffer length
    = I2C_mstr_read_internal fuel slave buffer length I2C_NORMAL /\
  I2C_mstr_read_start fuel slave buffer length
    = I2C_mstr_read_internal fuel slave buffer length I2C_START /\
  I2C_mstr_read_continue fuel slave buffer length
    = I2C_mstr_read_internal fuel slave buffer length I2C_CONTINUE /\
  I2C_mstr_read_end fuel slave buffer length
    = I2C_mstr_read_internal fuel slave buffer length I2C_END.
Proof. repeat split. Qed.

(** C9.  A receive call that returns a code other than [I2C_SUCCESS]
    leaves the caller's buffer as it was, and has neither read the data
    register nor run the 30 microsecond settle delay of the drain loop. *)
Theorem C9_failed_read_leaves_buffer (L : hw_i2c) (D : device) (fuel : nat)
    (slave : Z) (buffer : list Z) (length : Z) (t : i2c_burst_type_t)
    (d d' : dev) (r : Z) (b : list Z) (evs : list event) :
  I2C_mstr_read_internal fuel slave buffer length t d
    = Some ((r, b), d', evs) ->
  r <> I2C_SUCCESS ->
  b = buffer /\
  Forall (fun e => is_read MRXDATA e = false /\ e <> EvDelay 30) evs.
Proof.
  intros H Hr.
  assert (Hpre : forall e, ev_read_pre slave length t e ->
                   is_read MRXDATA e = false /\ e <> EvDelay 30).
  { intros [[] v|[] v|us] He; simpl in He |- *; try contradiction;
      (split; [reflexivity|]); try discriminate.
    intros Heq. injection Heq as ->. discriminate He. }
  rewrite read_internal_to_status in H. run_inv H.
  pose proof (emits_read_to_status _ _ _ _ _ _ _ _ Hrun) as Hev.
  destruct a as [c|st].
  - run_all. rewrite app_nil_r. split; [reflexivity|].
    eapply Forall_impl; [exact Hev | exact Hpre].
  - destruct (read_finish_run _ _ _ _ _ _ _ _ _ Hrun0)
      as (-> & polls & last & xs & -> & _ & _ & _ & Hko).
    destruct (Hko Hr) as (-> & ->). split; [reflexivity|].
    apply Forall_app. split; [eapply Forall_impl; [exact Hev | exact Hpre]|].
    simpl. rewrite app_nil_r. apply List.Forall_forall. intros ev Hin.
    apply in_map_iff in Hin as (v & <- & _).
    split; [reflexivity | discriminate].
Qed.

(** An instance of C9: arbitration lost while one byte is waiting in the
    receive queue. *)
Lemma C9_failed_read_leaves_buffer_witness :
  [0x55] = [0x55] /\
  Forall (fun e => is_read MRXDATA e = false /\ e <> EvDelay 30)
    [EvRead MSR 50; EvRead MFIFOCTL 0; EvWrite MFIFOCTL 32768;
     EvRead MFIFOSR 2048; EvRead MFIFOCTL 0; EvWrite MFIFOCTL 0;
     EvWrite MSA 79; EvWrite MCTR 65551; EvRead MSR 50; EvRead MSR 50;
     EvRead MFIFOSR 2049].
Proof.
  apply (C9_failed_read_leaves_buffer mspm0g350x sim_device 5 0x27 [0x55] 1
           I2C_NORMAL (sim_init 0x32 [0xAA])
           {| sim_msr := 0x32; sim_tx_free := 8; sim_rx := [0xAA];
              sim_wire := [0xAA] |}
           I2C_ERR_ARB_LOST).
  - reflexivity.
  - discriminate.
Defined.

(** C10.  A receive call that passed the idle wait and returned has gone
    through the status check and then polled the occupancy count until it
    was at least [length], whatever the status code: when the code is not
    [I2C_SUCCESS], the last access of the call is that poll.  On a
    controller whose receive queue never holds [length] bytes, a receive
    call that passed the idle wait never returns, however many polls it is
    allowed. *)
Theorem C10_failed_read_waits_for_queue (L : hw_i2c) (D : device) :
  (forall fuel slave buffer length t d d0 e0 r b d' evs,
     wait_idle fuel t d = Some (None, d0, e0) ->
     I2C_mstr_read_internal fuel slave buffer length t d
       = Some ((r, b), d', evs) ->
     exists d1 e1 polls last xs,
       read_to_status fuel slave length t d = Some (inr r, d1, e1) /\
       evs = e1 ++ map (EvRead MFIFOSR) (polls ++ [last]) ++ drain_trace xs /\
       Forall (fun v => rx_count v < length) polls /\
       length <= rx_count last /\
       (r <> I2C_SUCCESS -> xs = [])) /\
  (forall (I : dev -> Prop) fuel slave buffer length t d d0 e0,
     closed I ->
     (forall d, I d -> rx_count (dev_read MFIFOSR d).1 < length) ->
     I d ->
     wait_idle fuel t d = Some (None, d0, e0) ->
     I2C_mstr_read_internal fuel slave buffer length t d = None).
Proof.
  split.
  - intros fuel slave buffer length t d d0 e0 r b d' evs Hidle H.
    destruct (read_past_idle _ _ _ _ _ _ _ _ _ _ _ _ Hidle H)
      as (st & d1 & e1 & Hst).
    pose proof H as H'.
    rewrite (read_after_status _ _ _ _ _ _ _ _ _ Hst) in H'.
    apply after_Some in H' as (e2 & H' & ->).
    destruct (read_finish_run _ _ _ _ _ _ _ _ _ H')
      as (-> & polls & last & xs & -> & Hp & Hl & _ & Hko).
    exists d1, e1, polls, last, xs. repeat split; try assumption.
    intros Hr. apply (Hko Hr).
  - intros I fuel slave buffer length t d d0 e0 Hc Hm HI Hidle.
    eapply read_short_never_returns; eassumption.
Qed.

(** An instance of C10 on the simulated controller reporting arbitration
    lost: with one byte offered the call returns after the poll that sees
    it; with none offered it does not return. *)
Lemma C10_failed_read_waits_for_queue_witness :
  (exists d1 e1 polls last xs,
     read_to_status (L:=mspm0g350x) (D:=sim_device) 5 0x27 1 I2C_NORMAL
       (sim_init 0x32 [0xAA]) = Some (inr I2C_ERR_ARB_LOST, d1, e1) /\
     [EvRead MSR 50; EvRead MFIFOCTL 0; EvWrite MFIFOCTL 32768;
      EvRead MFIFOSR 2048; EvRead MFIFOCTL 0; EvWrite MFIFOCTL 0;
      EvWrite MSA 79; EvWrite MCTR 65551; EvRead MSR 50; EvRead MSR 50;
      EvRead MFIFOSR 2049]
     = e1 ++ map (EvRead MFIFOSR) (polls ++ [last]) ++ drain_trace xs /\
     Forall (fun v => rx_count (L:=mspm0g350x) v < 1) polls /\
     1 <= rx_count (L:=mspm0g350x) last /\
     (I2C_ERR_ARB_LOST <> I2C_SUCCESS -> xs = [])) /\
  I2C_mstr_read_internal (L:=mspm0g350x) (D:=sim_device) 1000 0x27 [0x55] 1
    I2C_NORMAL (sim_init 0x32 []) = None.
Proof.
  pose proof (C10_failed_read_waits_for_queue mspm0g350x sim_device)
    as (Hret & Hnever).
  split.
  - apply (Hret 5%nat 0x27 [0x55] 1 I2C_NORMAL (sim_init 0x32 [0xAA])
             (sim_init 0x32 [0xAA]) [EvRead MSR 50]
             I2C_ERR_ARB_LOST [0x55]
             {| sim_msr := 0x32; sim_tx_free := 8; sim_rx := [0xAA];
                sim_wire := [0xAA] |});
      reflexivity.
  - apply (Hnever sim_quiet 1000%nat 0x27 [0x55] 1 I2C_NORMAL
             (sim_init 0x32 []) (sim_init 0x32 []) [EvRead MSR 50]).
    + exact sim_quiet_closed.
    + intros s Hs. change (dev_read MFIFOSR s) with (sim_read MFIFOSR s).
      change (@dev sim_device) with sim in *.
      rewrite (sim_quiet_rx_count s Hs). lia.
    + unfold sim_quiet. simpl. repeat split; lia.
    + reflexivity.
Defined.

(** ** Further properties of the engines *)
Section EngineExtras.
Context {L : hw_i2c} {D : device}.

Lemma tx_bytes_app e1 e2 : tx_bytes (e1 ++ e2) = tx_bytes e1 ++ tx_bytes e2.
Proof.
  induction e1 as [|e e1 IH]; simpl; [reflexivity|].
  destruct e as [r v|r v|us]; try destruct r; simpl; rewrite ?IH; reflexivity.
Qed.

Lemma tx_bytes_none evs :
  Forall (fun e => is_write MTXDATA e = false) evs -> tx_bytes evs = [].
Proof.
  induction 1 as [|e evs He _ IH]; simpl; [reflexivity|].
  destruct e as [r v|r v|us]; try destruct r; simpl in *;
    try assumption; discriminate.
Qed.

Lemma tx_bytes_fill_trace buffer i srs :
  tx_bytes (fill_trace buffer i srs)
    = map (fun k => default 0 (buffer !! Z.to_nat (i + Z.of_nat k)))
        (seq 0 (List.length srs)).
Proof.
  revert i. induction srs as [|sr srs IH]; intros i; simpl; [reflexivity|].
  rewrite Z.add_0_r. f_equal. rewrite IH, <- seq_shift, map_map.
  apply map_ext. intros k. do 3 f_equal. lia.
Qed.

Lemma rx_words_app e1 e2 : rx_words (e1 ++ e2) = rx_words e1 ++ rx_words e2.
Proof.
  induction e1 as [|e e1 IH]; simpl; [reflexivity|].
  destruct e as [r v|r v|us]; try destruct r; simpl; rewrite ?IH; reflexivity.
Qed.

Lemma rx_words_none evs :
  Forall (fun e => is_read MRXDATA e = false) evs -> rx_words evs = [].
Proof.
  induction 1 as [|e evs He _ IH]; simpl; [reflexivity|].
  destruct e as [r v|r v|us]; try destruct r; simpl in *;
    try assumption; discriminate.
Qed.

Lemma rx_words_drain_trace xs : rx_words (drain_trace xs) = xs.
Proof. induction xs as [|x xs IH]; simpl; [|rewrite IH]; reflexivity. Qed.


Lemma lookups_take (data : list Z) n :
  (n <= List.length data)%nat ->
  map (fun k => default 0 (data !! Z.to_nat (0 + Z.of_nat k))) (seq 0 n)
    = take n data.
Proof.
  revert data. induction n as [|n IH]; intros data Hn; [reflexivity|].
  destruct data as [|x data]; [simpl in Hn; lia|].
  simpl. f_equal. rewrite <- seq_shift, map_map. rewrite <- IH.
  - apply map_ext. intros k.
    replace (Z.to_nat (0 + Z.of_nat (S k))) with (S (Z.to_nat (0 + Z.of_nat k)))
      by lia.
    reflexivity.
  - simpl in Hn. lia.
Qed.

(** The caller's array after a drain that stays within it. *)
Lemma store_bytes_in_range xs k (buffer : list Z) :
  (k + List.length xs <= List.length buffer)%nat ->
  store_bytes (Z.of_nat k) xs buffer
    = take k buffer
      ++ map (fun x => u8 (Z.land x I2C_MRXDATA_VALUE_MASK)) xs
      ++ drop (k + List.length xs) buffer.
Proof.
  revert k buffer. induction xs as [|x xs IH]; intros k buffer Hk; simpl.
  - rewrite Nat.add_0_r. symmetry. apply take_drop.
  - simpl in Hk. rewrite Nat2Z.id.
    replace (Z.of_nat k + 1) with (Z.of_nat (S k)) by lia.
    rewrite IH by (rewrite length_insert; lia).
    rewrite (take_S_r _ k (u8 (Z.land x I2C_MRXDATA_VALUE_MASK)))
      by (apply list_lookup_insert_eq; lia).
    rewrite take_insert_ge by lia. rewrite drop_insert_lt by lia.
    rewrite <- app_assoc. simpl.
    replace (S k + List.length xs)%nat with (k + S (List.length xs))%nat by lia.
    replace (S (k + List.length xs))%nat with (k + S (List.length xs))%nat
      by lia.
    reflexivity.
Qed.

End EngineExtras.

(** X1.  A send call that passed the idle wait and met no load error
    accesses the controller in this order: the polls of the idle wait and the
    queue flush, which store nothing but the queue control register; then,
    for each data byte, one read of the queue status and the store of the
    byte; then the slave address with the transmit direction; then the
    control word, which starts the burst.  After the control word it only
    polls the status register. *)
Theorem X1_send_access_order (L : hw_i2c) (D : device) (fuel : nat)
    (slave : Z) (data : list Z) (len : Z) (t : i2c_burst_type_t)
    (d d0 d' : dev) (e0 evs : list event) (r : Z) :
  wait_idle fuel t d = Some (None, d0, e0) ->
  I2C_mstr_send_internal fuel slave data len t d = Some (r, d', evs) ->
  r <> I2C_FIFO_LOAD_ERROR ->
  exists es srs ep,
    evs = es ++ fill_trace data 0 srs ++
          [EvWrite MSA (Z.lor (Z.shiftl slave I2C_MSA_SADDR_OFS)
                          I2C_MSA_DIR_TRANSMIT);
           EvWrite MCTR (mctr_word I2C_MCTR_ACK_DISABLE len t)] ++ ep /\
    Forall ev_send_setup es /\
    List.length srs = Z.to_nat len /\
    Forall ev_poll ep.
Proof.
  intros Hidle H Hr.
  destruct (send_run_cases _ _ _ _ _ _ _ _ _ _ _ Hidle H)
    as (es & srs & Hes & Hlen & [[-> _]|[_ (ep & Hep & ->)]]);
    [congruence|].
  exists es, srs, ep. auto.
Qed.

(** An instance of X1: one byte sent under Normal through the simulated
    controller. *)
Lemma X1_send_access_order_witness :
  exists es srs ep,
    [EvRead MSR 32; EvRead MFIFOCTL 0; EvWrite MFIFOCTL 128;
     EvRead MFIFOSR 2048; EvRead MFIFOCTL 0; EvWrite MFIFOCTL 0;
     EvRead MFIFOSR 2048; EvWrite MTXDATA 12; EvWrite MSA 78;
     EvWrite MCTR 65543; EvRead MSR 32; EvRead MSR 32; EvRead MSR 32]
    = es ++ fill_trace [0x0C] 0 srs ++
      [EvWrite MSA 78; EvWrite MCTR 65543] ++ ep /\
    Forall (ev_send_setup) es /\
    List.length srs = 1%nat /\
    Forall ev_poll ep.
Proof.
  apply (X1_send_access_order mspm0g350x sim_device 5 0x27 [0x0C] 1
           I2C_NORMAL (sim_init 0x20 []) (sim_init 0x20 [])
           {| sim_msr := 0x20; sim_tx_free := 7; sim_rx := [];
              sim_wire := [] |}
           [EvRead MSR 32] _ I2C_SUCCESS);
    [reflexivity | reflexivity | discriminate].
Defined.

(** The bytes a send call stores once it is past the idle wait. *)
Lemma send_tx_bytes (L : hw_i2c) (D : device) (fuel : nat)
    (slave : Z) (data : list Z) (len : Z) (t : i2c_burst_type_t)
    (d d0 d' : dev) (e0 evs : list event) (r : Z) :
  wait_idle fuel t d = Some (None, d0, e0) ->
  I2C_mstr_send_internal fuel slave data len t d = Some (r, d', evs) ->
  (Z.to_nat len <= List.length data)%nat ->
  tx_bytes evs = take (Z.to_nat len) data.
Proof.
  intros Hidle H Hlen.
  assert (Hsetup : forall es, Forall ev_send_setup es -> tx_bytes es = []).
  { intros es Hes. apply tx_bytes_none.
    eapply Forall_impl; [exact Hes|].
    intros [[] v|[] v|us]; simpl; tauto. }
  assert (Hpoll : forall ep, Forall ev_poll ep -> tx_bytes ep = []).
  { intros ep Hep. apply tx_bytes_none.
    eapply Forall_impl; [exact Hep|].
    intros [[] v|[] v|us]; simpl; tauto. }
  destruct (send_run_cases _ _ _ _ _ _ _ _ _ _ _ Hidle H)
    as (es & srs & Hes & Hsrs & [[_ ->]|[_ (ep & Hep & ->)]]);
    rewrite !tx_bytes_app, (Hsetup _ Hes), tx_bytes_fill_trace, Hsrs,
      (lookups_take _ _ Hlen); simpl.
  - reflexivity.
  - rewrite (Hpoll _ Hep), app_nil_r. reflexivity.
Qed.


(** A send call that returns [I2C_SUCCESS] was past the idle wait. *)
Lemma send_success_tx_bytes (L : hw_i2c) (D : device) (fuel : nat)
    (slave : Z) (data : list Z) (len : Z) (t : i2c_burst_type_t)
    (d d' : dev) (evs : list event) :
  I2C_mstr_send_internal fuel slave data len t d
    = Some (I2C_SUCCESS, d', evs) ->
  (Z.to_nat len <= List.length data)%nat ->
  tx_bytes evs = take (Z.to_nat len) data.
Proof.
  intros H Hlen.
  destruct (wait_idle fuel t d) as [[[[c|] d0] e0]|] eqn:Hidle.
  - exfalso. unfold I2C_mstr_send_internal in H.
    rewrite (run_bind_after _ _ _ _ _ _ Hidle) in H.
    apply after_Some in H as (e2 & H & _). run_all.
    destruct t; try (cbv [wait_idle is_normal ret] in Hidle; discriminate).
    pose proof (wait_msr_timeout_code _ _ _ _ _ _ _ _ Hidle) as Hc.
    discriminate Hc.
  - eapply send_tx_bytes; eassumption.
  - unfold I2C_mstr_send_internal in H.
    apply run_bind in H as (? & ? & ? & ? & Ha & _).
    rewrite Hidle in Ha. discriminate Ha.
Qed.

(** On a bus that never falls idle a Normal send gives up after the
    countdown, having stored nothing, and leaves the controller in the same
    set of states. *)
Lemma send_idle_timeout_keeps (L : hw_i2c) (D : device) (I : dev -> Prop)
    fuel slave data len d :
  closed I ->
  msr_stuck I I2C_MSR_IDLE_MASK I2C_MSR_IDLE_CLEARED ->
  I2C_TIMEOUT_COUNT <= Z.of_nat fuel -> I d ->
  exists vs d',
    I2C_mstr_send_internal fuel slave data len I2C_NORMAL d
      = Some (I2C_ERR_TIMEOUT, d', poll_trace vs) /\
    Z.of_nat (List.length vs) = I2C_TIMEOUT_COUNT /\ I d'.
Proof.
  intros Hc Hm Hfuel HI.
  destruct (timeout_count_stuck I _ _ fuel d Hc Hm Hfuel HI)
    as (vs & d' & Hrun & Hlen & HI').
  exists vs, d'. split; [|auto].
  unfold I2C_mstr_send_internal, wait_idle, is_normal.
  rewrite (run_bind_after _ _ _ _ _ _ Hrun).
  unfold after, ret. rewrite app_nil_r. reflexivity.
Qed.

(** X2.  A send call that passed the idle wait has stored in the transmit
    data register exactly the first [len] bytes of the caller's array, in
    order, whatever code it returns - also when the queue was found full. *)
Theorem X2_send_queues_the_data (L : hw_i2c) (D : device) (fuel : nat)
    (slave : Z) (data : list Z) (len : Z) (t : i2c_burst_type_t)
    (d d0 d' : dev) (e0 evs : list event) (r : Z) :
  wait_idle fuel t d = Some (None, d0, e0) ->
  I2C_mstr_send_internal fuel slave data len t d = Some (r, d', evs) ->
  (Z.to_nat len <= List.length data)%nat ->
  tx_bytes evs = take (Z.to_nat len) data.
Proof. apply send_tx_bytes. Qed.

(** An instance of X2: nine bytes offered to a queue of eight entries. *)
Lemma X2_send_queues_the_data_witness :
  tx_bytes
    [EvRead MFIFOCTL 0; EvWrite MFIFOCTL 128; EvRead MFIFOSR 2048;
     EvRead MFIFOCTL 0; EvWrite MFIFOCTL 0; EvRead MFIFOSR 2048;
     EvWrite MTXDATA 1; EvRead MFIFOSR 1792; EvWrite MTXDATA 2;
     EvRead MFIFOSR 1536; EvWrite MTXDATA 3; EvRead MFIFOSR 1280;
     EvWrite MTXDATA 4; EvRead MFIFOSR 1024; EvWrite MTXDATA 5;
     EvRead MFIFOSR 768; EvWrite MTXDATA 6; EvRead MFIFOSR 512;
     EvWrite MTXDATA 7; EvRead MFIFOSR 256; EvWrite MTXDATA 8;
     EvRead MFIFOSR 0; EvWrite MTXDATA 9]
  = take 9 [1; 2; 3; 4; 5; 6; 7; 8; 9; 10].
Proof.
  apply (X2_send_queues_the_data mspm0g350x sim_device 10 0x27
           [1; 2; 3; 4; 5; 6; 7; 8; 9; 10] 9 I2C_START (sim_init 0x20 [])
           (sim_init 0x20 [])
           {| sim_msr := 0x20; sim_tx_free := 0; sim_rx := [];
              sim_wire := [] |}
           [] _ I2C_FIFO_LOAD_ERROR);
    [reflexivity | reflexivity | simpl; lia].
Defined.

(** X3.  A send call returns one of the five codes of LaunchPad.h. *)
Theorem X3_send_return_codes (L : hw_i2c) (D : device) (fuel : nat)
    (slave : Z) (data : list Z) (len : Z) (t : i2c_burst_type_t)
    (d d' : dev) (evs : list event) (r : Z) :
  I2C_mstr_send_internal fuel slave data len t d = Some (r, d', evs) ->
  r = I2C_SUCCESS \/ r = I2C_ERR_ARB_LOST \/ r = I2C_ERR_NACK \/
  r = I2C_FIFO_LOAD_ERROR \/ r = I2C_ERR_TIMEOUT.
Proof.
  intros H.
  destruct (wait_idle fuel t d) as [[[[c|] d0] e0]|] eqn:Hidle.
  - unfold I2C_mstr_send_internal in H.
    rewrite (run_bind_after _ _ _ _ _ _ Hidle) in H.
    apply after_Some in H as (e2 & H & _). run_all.
    destruct t; try (cbv [wait_idle is_normal ret] in Hidle; discriminate).
    rewrite (wait_msr_timeout_code _ _ _ _ _ _ _ _ Hidle). tauto.
  - destruct (send_run_cases _ _ _ _ _ _ _ _ _ _ _ Hidle H)
      as (es & srs & _ & _ & [[-> _]|[Hr _]]); tauto.
  - unfold I2C_mstr_send_internal in H.
    apply run_bind in H as (? & ? & ? & ? & Ha & _).
    rewrite Hidle in Ha. discriminate Ha.
Qed.

(** An instance of X3: a send to a full queue. *)
Lemma X3_send_return_codes_witness :
  I2C_FIFO_LOAD_ERROR = I2C_SUCCESS \/
  I2C_FIFO_LOAD_ERROR = I2C_ERR_ARB_LOST \/
  I2C_FIFO_LOAD_ERROR = I2C_ERR_NACK \/
  I2C_FIFO_LOAD_ERROR = I2C_FIFO_LOAD_ERROR \/
  I2C_FIFO_LOAD_ERROR = I2C_ERR_TIMEOUT.
Proof.
  eapply (X3_send_return_codes mspm0g350x sim_device 10 0x27
           [1; 2; 3; 4; 5; 6; 7; 8; 9; 10] 9 I2C_START (sim_init 0x20 [])
           {| sim_msr := 0x20; sim_tx_free := 0; sim_rx := [];
              sim_wire := [] |} _ I2C_FIFO_LOAD_ERROR).
  reflexivity.
Defined.

(** X4.  A receive call returns [I2C_SUCCESS], [I2C_ERR_ARB_LOST],
    [I2C_ERR_NACK] or [I2C_ERR_TIMEOUT]: never [I2C_FIFO_LOAD_ERROR]. *)
Theorem X4_read_return_codes (L : hw_i2c) (D : device) (fuel : nat)
    (slave : Z) (buffer : list Z) (len : Z) (t : i2c_burst_type_t)
    (d d' : dev) (b : list Z) (evs : list event) (r : Z) :
  I2C_mstr_read_internal fuel slave buffer len t d = Some ((r, b), d', evs) ->
  (r = I2C_SUCCESS \/ r = I2C_ERR_ARB_LOST \/ r = I2C_ERR_NACK \/
   r = I2C_ERR_TIMEOUT) /\ r <> I2C_FIFO_LOAD_ERROR.
Proof.
  intros H.
  assert (Hr : r = I2C_SUCCESS \/ r = I2C_ERR_ARB_LOST \/ r = I2C_ERR_NACK \/
               r = I2C_ERR_TIMEOUT).
  { rewrite read_internal_to_status in H. run_inv H.
    destruct a as [c|st].
    - run_all.
      destruct (read_early_origin _ _ _ _ _ _ _ _ Hrun) as (-> & _). tauto.
    - destruct (read_finish_run _ _ _ _ _ _ _ _ _ Hrun0) as (-> & _).
      pose proof (read_status_codes _ _ _ _ _ _ _ _ Hrun). tauto. }
  split; [exact Hr|].
  destruct Hr as [->|[->|[->| ->]]]; discriminate.
Qed.

(** An instance of X4: a Normal receive of three bytes from the simulated
    controller at rest. *)
Lemma X4_read_return_codes_witness :
  (I2C_SUCCESS = I2C_SUCCESS \/ I2C_SUCCESS = I2C_ERR_ARB_LOST \/
   I2C_SUCCESS = I2C_ERR_NACK \/ I2C_SUCCESS = I2C_ERR_TIMEOUT) /\
  I2C_SUCCESS <> I2C_FIFO_LOAD_ERROR.
Proof.
  eapply (X4_read_return_codes mspm0g350x sim_device 5 0x27 [0; 0; 0; 0] 3
           I2C_NORMAL (sim_init 0x20 [0xAA; 0xBB; 0xCC; 0xDD])
           {| sim_msr := 0x20; sim_tx_free := 8; sim_rx := [];
              sim_wire := [0xAA; 0xBB; 0xCC; 0xDD] |}
           [170; 187; 204; 0] _ I2C_SUCCESS).
  reflexivity.
Defined.

(** X5.  A receive call that returns [I2C_SUCCESS], on a caller's array of
    at least [len] bytes, has read the data register exactly [len] times and
    leaves in the array, from index 0, the words read in order, each masked
    and cut to eight bits; the bytes of the array past [len] are kept. *)
Theorem X5_read_fills_buffer (L : hw_i2c) (D : device) (fuel : nat)
    (slave : Z) (buffer : list Z) (len : Z) (t : i2c_burst_type_t)
    (d d' : dev) (b : list Z) (evs : list event) :
  I2C_mstr_read_internal fuel slave buffer len t d
    = Some ((I2C_SUCCESS, b), d', evs) ->
  (Z.to_nat len <= List.length buffer)%nat ->
  List.length (rx_words evs) = Z.to_nat len /\
  b = map (fun x => u8 (Z.land x I2C_MRXDATA_VALUE_MASK)) (rx_words evs)
      ++ drop (Z.to_nat len) buffer.
Proof.
  intros H Hlen. rewrite read_internal_to_status in H. run_inv H.
  destruct a as [c|st].
  - exfalso. run_all.
    destruct (read_early_origin _ _ _ _ _ _ _ _ Hrun) as (Hc & _).
    discriminate Hc.
  - destruct (read_finish_run _ _ _ _ _ _ _ _ _ Hrun0)
      as (<- & polls & last & xs & -> & _ & _ & Hok & _).
    destruct (Hok eq_refl) as (Hxs & ->).
    assert (Hwords : rx_words
                       (e ++ map (EvRead MFIFOSR) (polls ++ [last])
                          ++ drain_trace xs) = xs).
    { rewrite !rx_words_app, rx_words_drain_trace.
      rewrite (rx_words_none e).
      - rewrite (rx_words_none (map _ _)); [reflexivity|].
        apply List.Forall_forall. intros ev Hin.
        apply in_map_iff in Hin as (v & <- & _). reflexivity.
      - eapply Forall_impl;
          [exact (emits_read_to_status _ _ _ _ _ _ _ _ Hrun)|].
        intros [[] v|[] v|us]; simpl; tauto. }
    rewrite Hwords. split; [exact Hxs|].
    rewrite (store_bytes_in_range xs 0 buffer) by (simpl; lia).
    simpl. rewrite Hxs. reflexivity.
Qed.

(** An instance of X5: three bytes read into an array of four. *)
Lemma X5_read_fills_buffer_witness :
  List.length [170; 187; 204] = 3%nat /\
  [170; 187; 204; 0]
  = map (fun x => u8 (Z.land x 0xFF)) [170; 187; 204] ++ drop 3 [0; 0; 0; 0].
Proof.
  apply (X5_read_fills_buffer mspm0g350x sim_device 5 0x27 [0; 0; 0; 0] 3
           I2C_NORMAL (sim_init 0x20 [0xAA; 0xBB; 0xCC; 0xDD])
           {| sim_msr := 0x20; sim_tx_free := 8; sim_rx := [];
              sim_wire := [0xAA; 0xBB; 0xCC; 0xDD] |}
           [170; 187; 204; 0]
           [EvRead MSR 32; EvRead MFIFOCTL 0; EvWrite MFIFOCTL 32768;
            EvRead MFIFOSR 2048; EvRead MFIFOCTL 0; EvWrite MFIFOCTL 0;
            EvWrite MSA 79; EvWrite MCTR 196623; EvRead MSR 32;
            EvRead MSR 32; EvRead MSR 32; EvRead MFIFOSR 2051;
            EvRead MRXDATA 170; EvDelay 30; EvRead MRXDATA 187; EvDelay 30;
            EvRead MRXDATA 204; EvDelay 30]);
    [reflexivity | simpl; lia].
Defined.

(** * The conversions of lcd1602.c *)

Lemma land_nibble_range v : 0 <= Z.land v 0x0F < 16.
Proof.
  change 0x0F with (Z.ones 4). rewrite Z.land_ones by lia.
  apply Z.mod_pos_bound. lia.
Qed.

Lemma Z_range_forallb (P : Z -> bool) (n : nat) :
  forallb P (map Z.of_nat (seq 0 n)) = true ->
  forall z, 0 <= z < Z.of_nat n -> P z = true.
Proof.
  intros H z Hz. rewrite forallb_forall in H. apply H.
  apply in_map_iff. exists (Z.to_nat z). split; [lia|].
  apply in_seq. lia.
Qed.

(** [hex_to_ascii] on each of the sixteen nibbles: the digit of the table,
    a value that the cast to [uint8_t] keeps. *)
Lemma hex_to_ascii_nibble hex_value :
  hex_digit_chars !! Z.to_nat (Z.land hex_value 0x0F)
    = Some (hex_to_ascii hex_value) /\
  u8 (hex_to_ascii hex_value) = hex_to_ascii hex_value.
Proof.
  unfold hex_to_ascii, LOWER_NIBBLE_MASK.
  pose proof (land_nibble_range hex_value) as Hn.
  generalize dependent (Z.land hex_value 0x0F). intros n Hn.
  pose (P := fun n =>
    bool_decide
      (hex_digit_chars !! Z.to_nat n
         = Some (if u8 n <=? 9 then s8 (chr "0" + u8 n)
                 else s8 (chr "A" + (u8 n - BASE_TEN))) /\
       u8 (if u8 n <=? 9 then s8 (chr "0" + u8 n)
           else s8 (chr "A" + (u8 n - BASE_TEN)))
         = (if u8 n <=? 9 then s8 (chr "0" + u8 n)
            else s8 (chr "A" + (u8 n - BASE_TEN))))).
  assert (Hall : forallb P (map Z.of_nat (seq 0 16)) = true)
    by (vm_compute; reflexivity).
  pose proof (Z_range_forallb _ _ Hall n ltac:(lia)) as Hp.
  unfold P in Hp. apply bool_decide_eq_true in Hp. exact Hp.
Qed.

Lemma drop_insert_here {A : Type} (l : list A) n x :
  (n < List.length l)%nat -> drop n (<[n:=x]> l) = x :: drop (S n) l.
Proof.
  intros Hn. rewrite insert_take_drop by exact Hn.
  rewrite drop_app_length'; [reflexivity|].
  rewrite length_take. lia.
Qed.

Lemma div_pow10_zero V i :
  0 <= V -> V / 10 ^ Z.of_nat i = 0 <-> V < 10 ^ Z.of_nat i.
Proof.
  intros HV. assert (0 < 10 ^ Z.of_nat i) by (apply Z.pow_pos_nonneg; lia).
  split; intros Hd.
  - apply Z.div_small_iff in Hd; lia.
  - apply Z.div_small. lia.
Qed.

Lemma div_pow10_succ V i :
  0 <= V -> V / 10 ^ Z.of_nat i / 10 = V / 10 ^ Z.of_nat (S i).
Proof.
  intros HV. assert (0 < 10 ^ Z.of_nat i) by (apply Z.pow_pos_nonneg; lia).
  rewrite Z.div_div by lia.
  replace (Z.of_nat (S i)) with (Z.succ (Z.of_nat i)) by lia.
  rewrite Z.pow_succ_r by lia. f_equal. lia.
Qed.

(** The loop writes the decimal field over the head of the array. *)
Lemma to_ascii_loop_field last V n i string :
  0 <= V -> (i + n = S last)%nat -> (n <= List.length string)%nat ->
  to_ascii_loop last n i (V / 10 ^ Z.of_nat i) string
    = map (decimal_char V) (rev (seq i n)) ++ drop n string.
Proof.
  intros HV. revert i string.
  induction n as [|n IH]; intros i string Hi Hlen; [reflexivity|].
  assert (Hpos : (last - i)%nat = n) by lia.
  assert (Hrev : map (decimal_char V) (rev (seq i (S n)))
                 = map (decimal_char V) (rev (seq (S i) n))
                   ++ [decimal_char V i]).
  { simpl. rewrite map_app. reflexivity. }
  rewrite Hrev, <- app_assoc. simpl to_ascii_loop. rewrite Hpos.
  unfold BASE_TEN.
  destruct (negb (V / 10 ^ Z.of_nat i =? 0) || Nat.eqb i 0) eqn:Hc.
  - rewrite div_pow10_succ by exact HV.
    rewrite IH by (rewrite ?length_insert; lia).
    rewrite drop_insert_here by lia. simpl. do 2 f_equal.
    unfold decimal_char.
    destruct (Nat.eqb i 0) eqn:Hi0; [reflexivity|].
    rewrite orb_false_r in Hc. apply negb_true_iff, Z.eqb_neq in Hc.
    destruct (10 ^ Z.of_nat i <=? V) eqn:Hle; [reflexivity|].
    apply Z.leb_gt in Hle. apply div_pow10_zero in Hle; [|exact HV].
    contradiction.
  - apply orb_false_iff in Hc as (Hz & Hi0).
    apply negb_false_iff, Z.eqb_eq in Hz.
    assert (Hz' : V / 10 ^ Z.of_nat (S i) = 0).
    { rewrite <- div_pow10_succ, Hz by exact HV. reflexivity. }
    rewrite Hz. rewrite <- Hz' at 1.
    rewrite IH by (rewrite ?length_insert; lia).
    rewrite drop_insert_here by lia. simpl. do 2 f_equal.
    unfold decimal_char. rewrite Hi0. simpl.
    apply div_pow10_zero in Hz; [|exact HV].
    destruct (10 ^ Z.of_nat i <=? V) eqn:Hle; [|reflexivity].
    apply Z.leb_le in Hle. lia.
Qed.

Lemma to_ascii_loop_decimal w V string :
  0 <= V -> (w <= List.length string)%nat ->
  to_ascii_loop (pred w) w 0 V string = decimal_field w V ++ drop w string.
Proof.
  intros HV Hlen. destruct w as [|w]; [reflexivity|].
  rewrite <- (Z.div_1_r V) at 1.
  change 1 with (10 ^ Z.of_nat 0) at 1.
  apply to_ascii_loop_field; [exact HV|simpl; lia|exact Hlen].
Qed.

(** The digit a character of the field stands for. *)
Lemma decimal_char_digit V k :
  0 <= V ->
  (if decimal_char V k =? chr " " then 0 else decimal_char V k - chr "0")
    = (V / 10 ^ Z.of_nat k) mod 10.
Proof.
  intros HV. unfold decimal_char.
  assert (Hd : 0 <= (V / 10 ^ Z.of_nat k) mod 10 < 10)
    by (apply Z.mod_pos_bound; lia).
  change (chr " ") with 32. change (chr "0") with 48.
  destruct (Nat.eqb k 0 || (10 ^ Z.of_nat k <=? V)) eqn:Hc.
  - destruct (48 + _ =? 32) eqn:He; [apply Z.eqb_eq in He; lia|lia].
  - apply orb_false_iff in Hc as (_ & Hlt). apply Z.leb_gt in Hlt.
    simpl. apply div_pow10_zero in Hlt; [|exact HV]. rewrite Hlt.
    reflexivity.
Qed.

Lemma decimal_field_S w V :
  decimal_field (S w) V = decimal_char V w :: decimal_field w V.
Proof.
  unfold decimal_field. rewrite seq_S, rev_app_distr. reflexivity.
Qed.

Lemma decimal_value_field_acc w V acc :
  0 <= V ->
  fold_left
    (fun acc c => 10 * acc + (if c =? chr " " then 0 else c - chr "0"))
    (decimal_field w V) acc
  = acc * 10 ^ Z.of_nat w + V mod 10 ^ Z.of_nat w.
Proof.
  intros HV. revert acc. induction w as [|w IH]; intros acc.
  - simpl. rewrite Z.mod_1_r. lia.
  - rewrite decimal_field_S. simpl fold_left. rewrite IH.
    rewrite decimal_char_digit by exact HV.
    assert (Hp : 0 < 10 ^ Z.of_nat w) by (apply Z.pow_pos_nonneg; lia).
    replace (Z.of_nat (S w)) with (Z.succ (Z.of_nat w)) by lia.
    rewrite Z.pow_succ_r by lia.
    replace (10 * 10 ^ Z.of_nat w) with (10 ^ Z.of_nat w * 10) by lia.
    rewrite Z.rem_mul_r by lia. lia.
Qed.

(** The field spells the number it was made from, when the number fits. *)
Lemma decimal_value_field w V :
  0 <= V < 10 ^ Z.of_nat w -> decimal_value (decimal_field w V) = V.
Proof.
  intros HV. unfold decimal_value.
  rewrite decimal_value_field_acc by lia.
  rewrite Z.mod_small by lia. lia.
Qed.

(** No character of the field is NUL. *)
Lemma decimal_field_no_nul w V :
  Forall (fun c => c <> 0) (decimal_field w V).
Proof.
  unfold decimal_field. apply List.Forall_forall. intros c Hin.
  apply in_map_iff in Hin as (k & <- & _). unfold decimal_char.
  assert (Hd : 0 <= (V / 10 ^ Z.of_nat k) mod 10 < 10)
    by (apply Z.mod_pos_bound; lia).
  change (chr " ") with 32. change (chr "0") with 48.
  destruct (_ || _); lia.
Qed.

(** X6.  [hex_to_ascii] returns the character that stands at the index of
    the low nibble of its argument in "0123456789ABCDEF"; the high nibble
    plays no part. *)
Theorem X6_hex_to_ascii_digit (hex_value : Z) :
  hex_digit_chars !! Z.to_nat (Z.land hex_value 0x0F)
    = Some (hex_to_ascii hex_value).
Proof. apply hex_to_ascii_nibble. Qed.

(** X7.  [byte_to_ascii] writes over the first three characters of the
    array the decimal digits of the byte, right-justified and padded with
    spaces; the field spells the byte back.  It stores nothing past the third
    character: no terminator is written. *)
Theorem X7_byte_to_ascii_decimal (byte : Z) (string : list Z) :
  0 <= byte < 2 ^ 8 -> (3 <= List.length string)%nat ->
  byte_to_ascii byte string = decimal_field 3 byte ++ drop 3 string /\
  decimal_value (decimal_field 3 byte) = byte.
Proof.
  intros Hb Hlen. split.
  - apply (to_ascii_loop_decimal 3); [lia|exact Hlen].
  - apply decimal_value_field. simpl. lia.
Qed.

(** An instance of X7: 42 in an array of four characters. *)
Lemma X7_byte_to_ascii_decimal_witness :
  byte_to_ascii 42 [88; 88; 88; 88] = [32; 52; 50] ++ [88] /\
  decimal_value [32; 52; 50] = 42.
Proof.
  apply (X7_byte_to_ascii_decimal 42 [88; 88; 88; 88]); simpl; lia.
Defined.

(** X8.  [doublebyte_to_ascii] writes over the first five characters of
    the array the decimal digits of the 16-bit value, right-justified and
    padded with spaces; the field spells the value back.  Nothing is stored
    past the fifth character. *)
Theorem X8_doublebyte_to_ascii_decimal (doublebyte : Z) (string : list Z) :
  0 <= doublebyte < 2 ^ 16 -> (5 <= List.length string)%nat ->
  doublebyte_to_ascii doublebyte string
    = decimal_field 5 doublebyte ++ drop 5 string /\
  decimal_value (decimal_field 5 doublebyte) = doublebyte.
Proof.
  intros Hb Hlen. split.
  - apply (to_ascii_loop_decimal 5); [lia|exact Hlen].
  - apply decimal_value_field. simpl. lia.
Qed.

(** An instance of X8: the largest 16-bit value. *)
Lemma X8_doublebyte_to_ascii_decimal_witness :
  doublebyte_to_ascii 65535 [0; 0; 0; 0; 0; 7]
    = [54; 53; 53; 51; 53] ++ [7] /\
  decimal_value [54; 53; 53; 51; 53] = 65535.
Proof.
  apply (X8_doublebyte_to_ascii_decimal 65535 [0; 0; 0; 0; 0; 7]);
    simpl; lia.
Defined.

(** X9.  [quadbyte_to_ascii] writes over the first ten characters of the
    array the decimal digits of the 32-bit value, right-justified and padded
    with spaces; the field spells the value back.  Nothing is stored past the
    tenth character. *)
Theorem X9_quadbyte_to_ascii_decimal (quadbyte : Z) (string : list Z) :
  0 <= quadbyte < 2 ^ 32 -> (10 <= List.length string)%nat ->
  quadbyte_to_ascii quadbyte string
    = decimal_field 10 quadbyte ++ drop 10 string /\
  decimal_value (decimal_field 10 quadbyte) = quadbyte.
Proof.
  intros Hb Hlen. split.
  - apply (to_ascii_loop_decimal 10); [lia|exact Hlen].
  - apply decimal_value_field. simpl. lia.
Qed.

(** An instance of X9: zero is written as one digit after nine spaces. *)
Lemma X9_quadbyte_to_ascii_decimal_witness :
  quadbyte_to_ascii 0 [1; 1; 1; 1; 1; 1; 1; 1; 1; 1; 0]
    = [32; 32; 32; 32; 32; 32; 32; 32; 32; 48] ++ [0] /\
  decimal_value [32; 32; 32; 32; 32; 32; 32; 32; 32; 48] = 0.
Proof.
  apply (X9_quadbyte_to_ascii_decimal 0 [1; 1; 1; 1; 1; 1; 1; 1; 1; 1; 0]);
    simpl; lia.
Defined.

(** * Runs of the LCD module *)
Section LcdRuns.
Context {L : hw_i2c} {D : device}.

Lemma lcd_run_bind {A B : Type} (m : LM A) (k : A -> LM B) s b s2 e :
  (m ≫= k) s = Some (b, s2, e) <->
  exists a s1 e1 e2,
    m s = Some (a, s1, e1) /\ k a s1 = Some (b, s2, e2) /\ e = e1 ++ e2.
Proof.
  unfold mbind, LM_bind, lcd_bind. split.
  - destruct (m s) as [[[a s1] e1]|]; [|discriminate].
    destruct (k a s1) as [[[b' s2'] e2]|] eqn:Hk; [|discriminate].
    intros H; injection H as <- <- <-. exists a, s1, e1, e2. auto.
  - intros (a & s1 & e1 & e2 & -> & -> & ->). reflexivity.
Qed.

Lemma lcd_bind_after {A B : Type} (m : LM A) (k : A -> LM B) s a s1 e1 :
  m s = Some (a, s1, e1) -> (m ≫= k) s = lcd_after e1 (k a s1).
Proof.
  intros H. unfold mbind, LM_bind, lcd_bind, lcd_after. rewrite H.
  reflexivity.
Qed.

Lemma lcd_after_nil {A : Type} (o : option (A * lcd_state * list lcd_event)) :
  lcd_after [] o = o.
Proof. destruct o as [[[a s] e]|]; reflexivity. Qed.

Lemma lcd_after_after {A : Type} e1 e2
    (o : option (A * lcd_state * list lcd_event)) :
  lcd_after e1 (lcd_after e2 o) = lcd_after (e1 ++ e2) o.
Proof.
  destruct o as [[[a s] e]|]; simpl; [|reflexivity].
  rewrite app_assoc. reflexivity.
Qed.

Lemma lcd_run_ret {A : Type} (a : A) s r s' e :
  (mret a : LM A) s = Some (r, s', e) <-> r = a /\ s' = s /\ e = [].
Proof.
  unfold mret, LM_ret, lcd_ret. split.
  - intros H; injection H as <- <- <-. auto.
  - intros (-> & -> & ->). reflexivity.
Qed.

Lemma lcd_run_on_bus {A : Type} (m : M A) s a s' e :
  on_bus m s = Some (a, s', e) <->
  exists d e0,
    m (lcd_bus s) = Some (a, d, e0) /\
    s' = {| g_lcd_backlight_mode := g_lcd_backlight_mode s; lcd_bus := d |} /\
    e = map LcdBus e0.
Proof.
  unfold on_bus. split.
  - destruct (m (lcd_bus s)) as [[[a' d] e0]|]; [|discriminate].
    intros H; injection H as <- <- <-. eauto.
  - intros (d & e0 & -> & -> & ->). reflexivity.
Qed.

Lemma lcd_run_msec_delay ms s u s' e :
  msec_delay ms s = Some (u, s', e) <->
  s' = {| g_lcd_backlight_mode := g_lcd_backlight_mode s;
          lcd_bus := dev_delay (1000 * ms) (lcd_bus s) |} /\
  e = [LcdMsec ms].
Proof.
  unfold msec_delay. split.
  - intros H; injection H as <- <-. auto.
  - intros (-> & ->). destruct u. reflexivity.
Qed.

Lemma lcd_run_get s g s' e :
  get_backlight_mode s = Some (g, s', e) <->
  g = g_lcd_backlight_mode s /\ s' = s /\ e = [].
Proof.
  unfold get_backlight_mode. split.
  - intros H; injection H as <- <- <-. auto.
  - intros (-> & -> & ->). reflexivity.
Qed.

Lemma lcd_run_set g s u s' e :
  set_backlight_mode g s = Some (u, s', e) <->
  s' = {| g_lcd_backlight_mode := g; lcd_bus := lcd_bus s |} /\ e = [].
Proof.
  unfold set_backlight_mode. split.
  - intros H; injection H as <- <-. auto.
  - intros (-> & ->). destruct u. reflexivity.
Qed.

Lemma lcd_bind_get {A : Type} (k : Z -> LM A) s :
  (get_backlight_mode ≫= k) s = k (g_lcd_backlight_mode s) s.
Proof.
  unfold mbind, LM_bind, lcd_bind, get_backlight_mode.
  destruct (k _ s) as [[[a s'] e]|]; reflexivity.
Qed.

Lemma lcd_bind_set {A : Type} g (k : unit -> LM A) s :
  (set_backlight_mode g ≫= k) s
    = k tt {| g_lcd_backlight_mode := g; lcd_bus := lcd_bus s |}.
Proof.
  unfold mbind, LM_bind, lcd_bind, set_backlight_mode.
  destruct (k tt _) as [[[a s'] e]|]; reflexivity.
Qed.

Lemma lcd_bind_msec_delay {A : Type} ms (k : unit -> LM A) s :
  (msec_delay ms ≫= k) s
    = lcd_after [LcdMsec ms]
        (k tt {| g_lcd_backlight_mode := g_lcd_backlight_mode s;
                 lcd_bus := dev_delay (1000 * ms) (lcd_bus s) |}).
Proof. reflexivity. Qed.

Lemma lcd_bind_usec_delay {A : Type} us (k : unit -> LM A) s :
  (on_bus (usec_delay us) ≫= k) s
    = lcd_after [LcdBus (EvDelay us)]
        (k tt {| g_lcd_backlight_mode := g_lcd_backlight_mode s;
                 lcd_bus := dev_delay us (lcd_bus s) |}).
Proof. reflexivity. Qed.

Lemma lcd_bind_ret {A B : Type} (a : A) (k : A -> LM B) s :
  (mret a ≫= k) s = k a s.
Proof.
  unfold mbind, LM_bind, lcd_bind, mret, LM_ret, lcd_ret.
  destruct (k a s) as [[[b s'] e]|]; reflexivity.
Qed.

Lemma lcd_bind_assoc {A B C : Type} (m : LM A) (f : A -> LM B)
    (g : B -> LM C) s :
  ((m ≫= f) ≫= g) s = (m ≫= (fun a => f a ≫= g)) s.
Proof.
  unfold mbind, LM_bind, lcd_bind.
  destruct (m s) as [[[a s1] e1]|]; [|reflexivity].
  destruct (f a s1) as [[[b s2] e2]|]; [|reflexivity].
  destruct (g b s2) as [[[c s3] e3]|]; [|reflexivity].
  rewrite app_assoc. reflexivity.
Qed.

Lemma lcd_bind_ext {A B : Type} (m : LM A) (k k' : A -> LM B) s :
  (forall a s1, k a s1 = k' a s1) -> (m ≫= k) s = (m ≫= k') s.
Proof.
  intros Hk. unfold mbind, LM_bind, lcd_bind.
  destruct (m s) as [[[a s1] e1]|]; [|reflexivity].
  rewrite Hk. reflexivity.
Qed.

Lemma bus_events_app e1 e2 :
  bus_events (e1 ++ e2) = bus_events e1 ++ bus_events e2.
Proof.
  induction e1 as [|[e|ms] e1 IH]; simpl; rewrite ?IH; reflexivity.
Qed.

Lemma bus_events_map e : bus_events (map LcdBus e) = e.
Proof. induction e as [|x e IH]; simpl; rewrite ?IH; reflexivity. Qed.

Lemma msec_delays_app e1 e2 :
  msec_delays (e1 ++ e2) = msec_delays e1 ++ msec_delays e2.
Proof.
  induction e1 as [|[e|ms] e1 IH]; simpl; rewrite ?IH; reflexivity.
Qed.

Lemma msec_delays_map e : msec_delays (map LcdBus e) = [].
Proof. induction e as [|x e IH]; simpl; rewrite ?IH; reflexivity. Qed.

Lemma msr_polls_app e1 e2 :
  msr_polls (e1 ++ e2) = (msr_polls e1 + msr_polls e2)%nat.
Proof. unfold msr_polls. rewrite filter_app, length_app. reflexivity. Qed.

Lemma msr_polls_poll_trace vs : msr_polls (poll_trace vs) = List.length vs.
Proof.
  induction vs as [|v vs IH]; [reflexivity|].
  destruct vs as [|v' vs]; [reflexivity|].
  change (poll_trace (v :: v' :: vs))
    with (EvRead MSR v :: EvDelay 10 :: poll_trace (v' :: vs)).
  change (msr_polls (EvRead MSR v :: EvDelay 10 :: poll_trace (v' :: vs)))
    with (S (msr_polls (poll_trace (v' :: vs)))).
  rewrite IH. reflexivity.
Qed.

Lemma tx_bytes_poll_trace vs : tx_bytes (poll_trace vs) = [].
Proof.
  induction vs as [|v vs IH]; [reflexivity|].
  destruct vs as [|v' vs]; [reflexivity|]. exact IH.
Qed.

(** ** The backlight mode along a run *)

Lemma keeps_mode_ret {A : Type} P (a : A) : keeps_mode P (mret a : LM A).
Proof. intros s r s' e HP H. apply lcd_run_ret in H as (_ & -> & _). exact HP. Qed.

Lemma keeps_mode_bind {A B : Type} P (m : LM A) (k : A -> LM B) :
  keeps_mode P m -> (forall a, keeps_mode P (k a)) -> keeps_mode P (m ≫= k).
Proof.
  intros Hm Hk s b s' e HP H.
  apply lcd_run_bind in H as (a & s1 & e1 & e2 & H1 & H2 & _).
  eapply Hk; [|exact H2]. eapply Hm; [exact HP|exact H1].
Qed.

Lemma keeps_mode_on_bus {A : Type} P (m : M A) : keeps_mode P (on_bus m).
Proof.
  intros s a s' e HP H. apply lcd_run_on_bus in H as (d & e0 & _ & -> & _).
  exact HP.
Qed.

Lemma keeps_mode_msec_delay P ms : keeps_mode P (msec_delay ms).
Proof.
  intros s a s' e HP H. apply lcd_run_msec_delay in H as (-> & _). exact HP.
Qed.

Lemma keeps_mode_get P : keeps_mode P get_backlight_mode.
Proof.
  intros s a s' e HP H. apply lcd_run_get in H as (_ & -> & _). exact HP.
Qed.

Lemma keeps_mode_set (P : Z -> Prop) g : P g -> keeps_mode P (set_backlight_mode g).
Proof.
  intros Hg s a s' e HP H. apply lcd_run_set in H as (-> & _). exact Hg.
Qed.

End LcdRuns.

Ltac lcd_inv H :=
  first
    [ apply lcd_run_bind in H;
      let a := fresh "a" in let s1 := fresh "s" in
      let e1 := fresh "e" in let e2 := fresh "e" in
      let H1 := fresh "Hlcd" in let H2 := fresh "Hlcd" in
      destruct H as (a & s1 & e1 & e2 & H1 & H2 & ->)
    | apply lcd_run_ret in H; destruct H as (? & ? & ?); simplify_eq
    | apply lcd_run_get in H; destruct H as (? & ? & ?); simplify_eq
    | apply lcd_run_set in H; destruct H as (? & ?); simplify_eq
    | apply lcd_run_msec_delay in H; destruct H as (? & ?); simplify_eq ].

Ltac lcd_all :=
  repeat match goal with
    | H : mbind _ _ _ = Some _ |- _ => lcd_inv H
    | H : get_backlight_mode _ = Some _ |- _ => lcd_inv H
    | H : set_backlight_mode _ _ = Some _ |- _ => lcd_inv H
    | H : msec_delay _ _ = Some _ |- _ => lcd_inv H
    | H : mret _ _ = Some _ |- _ => lcd_inv H
    end.

Ltac keeps_mode_step :=
  first
    [ apply keeps_mode_ret
    | apply keeps_mode_on_bus
    | apply keeps_mode_msec_delay
    | apply keeps_mode_get
    | apply keeps_mode_bind; [|intros ?] ].

Section LcdFacts.
Context {L : hw_i2c} {D : device}.

Lemma keeps_mode_lcd1602_write P fuel iic_addr data reg_select :
  keeps_mode P (lcd1602_write fuel iic_addr data reg_select).
Proof. unfold lcd1602_write. repeat keeps_mode_step. Qed.

Lemma keeps_mode_lcd_write_char P fuel c : keeps_mode P (lcd_write_char fuel c).
Proof.
  unfold lcd_write_char. apply keeps_mode_bind;
    [apply keeps_mode_lcd1602_write|intros ?; apply keeps_mode_ret].
Qed.

Lemma keeps_mode_lcd_write_string P fuel string :
  keeps_mode P (lcd_write_string fuel string).
Proof.
  induction string as [|c string IH]; simpl; [apply keeps_mode_ret|].
  destruct (c =? 0); [apply keeps_mode_ret|].
  apply keeps_mode_bind; [apply keeps_mode_lcd_write_char|intros ?; exact IH].
Qed.

End LcdFacts.

(** * The byte protocol of [lcd1602_write] *)

(** The bytes as the code computes them, with its casts, are the seven
    bytes of [lcd_write_bytes]; the display latches [data] from them; each
    carries the backlight mode in bit 3; the first six carry the register
    select in bit 0, the write direction in bit 1. *)
Lemma lcd_bytes_facts g data reg_select :
  backlight_mode_ok g -> reg_select = 0 \/ reg_select = 1 ->
  0 <= data < 2 ^ 8 ->
  let up :=
    u8 (Z.lor (u8 (Z.land data UPPER_NIBBLE_MASK))
          (Z.lor (Z.lor g WRITE_ENABLE) reg_select)) in
  let lo :=
    u8 (Z.lor (u8 (Z.shiftl (Z.land data LOWER_NIBBLE_MASK) NIBBLE_SHIFT))
          (Z.lor (Z.lor g WRITE_ENABLE) reg_select)) in
  [up; u8 (Z.lor up LATCH_ENABLE); up; lo; u8 (Z.lor lo LATCH_ENABLE); lo;
   u8 (Z.lor g READ_ENABLE)] = lcd_write_bytes g data reg_select /\
  lcd_latched (lcd_write_bytes g data reg_select) = data /\
  Forall (fun b => Z.land b LCD_BACKLIGHT_BIT_MASK = g)
    (lcd_write_bytes g data reg_select) /\
  Forall (fun b => Z.land b (Z.lor READ_ENABLE LCD_DATA_REG) = reg_select)
    (take 6 (lcd_write_bytes g data reg_select)).
Proof.
  intros Hg Hrs Hdata.
  pose (P := fun g rs data =>
    bool_decide
      ([u8 (Z.lor (u8 (Z.land data UPPER_NIBBLE_MASK))
              (Z.lor (Z.lor g WRITE_ENABLE) rs));
        u8 (Z.lor (u8 (Z.lor (u8 (Z.land data UPPER_NIBBLE_MASK))
                         (Z.lor (Z.lor g WRITE_ENABLE) rs))) LATCH_ENABLE);
        u8 (Z.lor (u8 (Z.land data UPPER_NIBBLE_MASK))
              (Z.lor (Z.lor g WRITE_ENABLE) rs));
        u8 (Z.lor (u8 (Z.shiftl (Z.land data LOWER_NIBBLE_MASK) NIBBLE_SHIFT))
              (Z.lor (Z.lor g WRITE_ENABLE) rs));
        u8 (Z.lor (u8 (Z.lor (u8 (Z.shiftl (Z.land data LOWER_NIBBLE_MASK)
                                    NIBBLE_SHIFT))
                         (Z.lor (Z.lor g WRITE_ENABLE) rs))) LATCH_ENABLE);
        u8 (Z.lor (u8 (Z.shiftl (Z.land data LOWER_NIBBLE_MASK) NIBBLE_SHIFT))
              (Z.lor (Z.lor g WRITE_ENABLE) rs));
        u8 (Z.lor g READ_ENABLE)] = lcd_write_bytes g data rs /\
       lcd_latched (lcd_write_bytes g data rs) = data /\
       Forall (fun b => Z.land b LCD_BACKLIGHT_BIT_MASK = g)
         (lcd_write_bytes g data rs) /\
       Forall (fun b => Z.land b (Z.lor READ_ENABLE LCD_DATA_REG) = rs)
         (take 6 (lcd_write_bytes g data rs)))).
  assert (Hall : forall g rs,
            backlight_mode_ok g -> rs = 0 \/ rs = 1 ->
            forallb (P g rs) (map Z.of_nat (seq 0 256)) = true).
  { intros g' rs' [->| ->] [->| ->]; vm_compute; reflexivity. }
  pose proof (Z_range_forallb _ _ (Hall g reg_select Hg Hrs) data
                ltac:(lia)) as Hp.
  unfold P in Hp. apply bool_decide_eq_true in Hp. exact Hp.
Qed.

Section LcdProtocol.
Context {L : hw_i2c} {D : device}.

Lemma send1_success_byte fuel slave data d d' e :
  I2C_mstr_send1 fuel slave data d = Some (0, d', e) -> tx_bytes e = [data].
Proof.
  intros H. unfold I2C_mstr_send1 in H.
  apply (send_success_tx_bytes L D) in H; [exact H|simpl; lia].
Qed.

(** A call of [lcd1602_write] that returns 0 has stored its seven bytes. *)
Lemma lcd1602_write_success fuel iic_addr data reg_select s status s' evs :
  backlight_mode_ok (g_lcd_backlight_mode s) ->
  reg_select = 0 \/ reg_select = 1 -> 0 <= data < 2 ^ 8 ->
  lcd1602_write fuel iic_addr data reg_select s = Some (status, s', evs) ->
  status = 0 ->
  tx_bytes (bus_events evs)
    = lcd_write_bytes (g_lcd_backlight_mode s) data reg_select /\
  g_lcd_backlight_mode s' = g_lcd_backlight_mode s.
Proof.
  intros Hg Hrs Hdata H Hst.
  destruct (lcd_bytes_facts _ _ _ Hg Hrs Hdata) as (<- & _).
  unfold lcd1602_write in H. lcd_all.
  repeat match goal with
    | H : on_bus _ _ = Some _ |- _ =>
        apply lcd_run_on_bus in H as (? & ? & H & ? & ?)
    end.
  subst. run_all. simpl in *.
  match goal with H : 0 = Z.lor _ _ |- _ => symmetry in H end.
  repeat match goal with
    | H : Z.lor _ _ = 0 |- _ => apply Z.lor_eq_0_iff in H as (H & ?)
    end.
  subst.
  repeat match goal with
    | H : I2C_mstr_send1 _ _ _ _ = Some _ |- _ =>
        apply send1_success_byte in H
    end.
  split; [|reflexivity].
  repeat first
    [ rewrite bus_events_app | rewrite bus_events_map | rewrite tx_bytes_app
    | progress cbn [bus_events tx_bytes] ].
  repeat match goal with
    | H : tx_bytes _ = _ |- _ => rewrite H; clear H
    end.
  reflexivity.
Qed.

End LcdProtocol.

(** X10.  A call of [lcd1602_write] that returns 0 has stored seven bytes
    in the transmit data register, one per send: the high nibble of [data]
    with the latch bit low, high and low again, the low nibble likewise, then
    the release byte.  The two bytes sent with the latch bit high carry
    [data] in their high halves; every byte carries the backlight mode in
    bit 3; the six nibble bytes carry the register select in bit 0 with bit 1
    clear.  The backlight mode is left as it was. *)
Theorem X10_lcd1602_write_protocol (L : hw_i2c) (D : device) (fuel : nat)
    (iic_addr data reg_select : Z) (s s' : lcd_state)
    (evs : list lcd_event) :
  backlight_mode_ok (g_lcd_backlight_mode s) ->
  reg_select = LCD_INSTR_REG \/ reg_select = LCD_DATA_REG ->
  0 <= data < 2 ^ 8 ->
  lcd1602_write fuel iic_addr data reg_select s = Some (0, s', evs) ->
  let bytes := tx_bytes (bus_events evs) in
  bytes = lcd_write_bytes (g_lcd_backlight_mode s) data reg_select /\
  lcd_latched bytes = data /\
  Forall (fun b => Z.land b LCD_BACKLIGHT_BIT_MASK = g_lcd_backlight_mode s)
    bytes /\
  Forall (fun b => Z.land b (Z.lor READ_ENABLE LCD_DATA_REG) = reg_select)
    (take 6 bytes) /\
  g_lcd_backlight_mode s' = g_lcd_backlight_mode s.
Proof.
  intros Hg Hrs Hdata H bytes.
  destruct (lcd1602_write_success _ _ _ _ _ _ _ _ Hg Hrs Hdata H eq_refl)
    as (Hb & Hg').
  destruct (lcd_bytes_facts _ _ _ Hg Hrs Hdata) as (_ & Hl & Hbl & Hc).
  subst bytes. rewrite Hb. auto.
Qed.

(** * The module on a bus that never falls idle *)
Section LcdDeadBus.
Context {L : hw_i2c} {D : device}.
Variable I : dev -> Prop.
Hypothesis I_closed : closed I.
Hypothesis I_stuck : msr_stuck I I2C_MSR_IDLE_MASK I2C_MSR_IDLE_CLEARED.

Lemma times_out_ret {A : Type} (a : A) :
  times_out I 0 (eq a) (mret a : LM A).
Proof.
  intros s HI. exists a, s, []. repeat split; auto.
Qed.

Lemma times_out_bind {A B : Type} n1 n2 (R1 : A -> Prop) (R2 : B -> Prop)
    (m : LM A) (k : A -> LM B) :
  times_out I n1 R1 m -> (forall a, R1 a -> times_out I n2 R2 (k a)) ->
  times_out I (n1 + n2) R2 (m ≫= k).
Proof.
  intros Hm Hk s HI.
  destruct (Hm s HI) as (a & s1 & e1 & Hrun1 & HR1 & HI1 & Hp1 & Ht1).
  destruct (Hk a HR1 s1 HI1) as (b & s2 & e2 & Hrun2 & HR2 & HI2 & Hp2 & Ht2).
  exists b, s2, (e1 ++ e2). split; [|split; [exact HR2|split; [exact HI2|]]].
  - apply lcd_run_bind. exists a, s1, e1, e2. auto.
  - rewrite bus_events_app, msr_polls_app, tx_bytes_app, Ht1, Ht2.
    split; [lia|reflexivity].
Qed.

Lemma times_out_eq {A : Type} n n' (R : A -> Prop) (m : LM A) :
  times_out I n R m -> n = n' -> times_out I n' R m.
Proof. intros H <-. exact H. Qed.

Lemma times_out_get : times_out I 0 (fun _ => True) get_backlight_mode.
Proof.
  intros s HI. exists (g_lcd_backlight_mode s), s, []. repeat split; auto.
Qed.

Lemma times_out_set g : times_out I 0 (fun _ => True) (set_backlight_mode g).
Proof.
  intros s HI. eexists tt, _, []. repeat split; auto.
Qed.

Lemma times_out_msec_delay ms : times_out I 0 (fun _ => True) (msec_delay ms).
Proof.
  intros s HI. eexists tt, _, [LcdMsec ms].
  split; [reflexivity|]. split; [exact Logic.I|]. split; [|split; reflexivity].
  apply I_closed. exact HI.
Qed.

Lemma times_out_usec_delay us :
  times_out I 0 (fun _ => True) (on_bus (usec_delay us)).
Proof.
  intros s HI. eexists tt, _, [LcdBus (EvDelay us)].
  split; [reflexivity|]. split; [exact Logic.I|]. split; [|split; reflexivity].
  apply I_closed. exact HI.
Qed.

Lemma times_out_weaken {A : Type} n (R R' : A -> Prop) (m : LM A) :
  times_out I n R m -> (forall a, R a -> R' a) -> times_out I n R' m.
Proof.
  intros Hm HR s HI.
  destruct (Hm s HI) as (a & s' & evs & Hrun & Ha & Hrest).
  exists a, s', evs. auto.
Qed.

Lemma times_out_bind0 {A B : Type} n (R1 : A -> Prop) (R2 : B -> Prop)
    (m : LM A) (k : A -> LM B) :
  times_out I 0 R1 m -> (forall a, R1 a -> times_out I n R2 (k a)) ->
  times_out I n R2 (m ≫= k).
Proof. intros Hm Hk. exact (times_out_bind 0 n R1 R2 m k Hm Hk). Qed.

Variable fuel : nat.
Hypothesis fuel_enough : I2C_TIMEOUT_COUNT <= Z.of_nat fuel.

Lemma times_out_send1 slave data :
  times_out I 1 (eq I2C_ERR_TIMEOUT) (on_bus (I2C_mstr_send1 fuel slave data)).
Proof.
  intros s HI.
  destruct (send_idle_timeout_keeps L D I fuel slave [data] 1 (lcd_bus s)
              I_closed I_stuck fuel_enough HI)
    as (vs & d' & Hrun & Hlen & HI').
  exists I2C_ERR_TIMEOUT,
    {| g_lcd_backlight_mode := g_lcd_backlight_mode s; lcd_bus := d' |},
    (map LcdBus (poll_trace vs)).
  split; [|split; [reflexivity|split; [exact HI'|]]].
  - apply lcd_run_on_bus. exists d', (poll_trace vs). auto.
  - rewrite bus_events_map, msr_polls_poll_trace, tx_bytes_poll_trace.
    split; [lia|reflexivity].
Qed.

Lemma times_out_bind_send1 {B : Type} n (R2 : B -> Prop) slave data
    (k : Z -> LM B) :
  times_out I n R2 (k I2C_ERR_TIMEOUT) ->
  times_out I (S n) R2 (on_bus (I2C_mstr_send1 fuel slave data) ≫= k).
Proof.
  intros Hk.
  apply (times_out_bind 1 n (eq I2C_ERR_TIMEOUT) R2);
    [apply times_out_send1|intros a <-; exact Hk].
Qed.

End LcdDeadBus.

Ltac times_out_step :=
  first
    [ eapply times_out_bind_send1; [eassumption..|]
    | eapply times_out_bind0;
        [ first [ eapply times_out_usec_delay; eassumption
                | eapply times_out_msec_delay; eassumption
                | eapply times_out_get
                | eapply times_out_set ]
        | intros ? _ ]
    | eapply times_out_ret ].

Section LcdDeadBusFacts.
Context {L : hw_i2c} {D : device}.
Variable I : dev -> Prop.
Hypothesis I_closed : closed I.
Hypothesis I_stuck : msr_stuck I I2C_MSR_IDLE_MASK I2C_MSR_IDLE_CLEARED.
Variable fuel : nat.
Hypothesis fuel_enough : I2C_TIMEOUT_COUNT <= Z.of_nat fuel.

Lemma times_out_lcd1602_write iic_addr data reg_select :
  times_out I 7 (eq I2C_ERR_TIMEOUT)
    (lcd1602_write fuel iic_addr data reg_select).
Proof.
  unfold lcd1602_write. repeat times_out_step.
Qed.

Lemma times_out_lcd_write_char character :
  times_out I 7 (fun _ => True) (lcd_write_char fuel character).
Proof.
  unfold lcd_write_char.
  apply (times_out_bind I 7 0 (eq I2C_ERR_TIMEOUT));
    [apply times_out_lcd1602_write|intros ? _].
  eapply times_out_weaken; [apply times_out_ret|auto].
Qed.

Lemma times_out_lcd_set_backlight_on :
  times_out I 1 (fun _ => True) (lcd_set_backlight_on fuel).
Proof.
  unfold lcd_set_backlight_on. repeat times_out_step.
  eapply times_out_msec_delay; eassumption.
Qed.

Lemma lor_timeout_twice status :
  Z.lor (Z.lor status I2C_ERR_TIMEOUT) I2C_ERR_TIMEOUT
    = Z.lor status I2C_ERR_TIMEOUT.
Proof. rewrite <- Z.lor_assoc, Z.lor_diag. reflexivity. Qed.

Lemma times_out_init_nibble_loop codes status :
  times_out I (2 * List.length codes)
    (eq (match codes with
         | [] => status
         | _ => Z.lor status I2C_ERR_TIMEOUT
         end))
    (init_nibble_loop fuel codes status).
Proof.
  revert status. induction codes as [|code codes IH]; intros status.
  - apply times_out_ret.
  - simpl init_nibble_loop.
    replace (2 * List.length (code :: codes))%nat
      with (S (S (2 * List.length codes))) by (simpl; lia).
    do 4 times_out_step.
    eapply times_out_weaken; [apply IH|].
    intros r <-. destruct codes; rewrite ?lor_timeout_twice; reflexivity.
Qed.

Lemma times_out_init_write_loop codes status :
  times_out I (7 * List.length codes)
    (eq (match codes with
         | [] => status
         | _ => Z.lor status I2C_ERR_TIMEOUT
         end))
    (init_write_loop fuel codes status).
Proof.
  revert status. induction codes as [|code codes IH]; intros status.
  - apply times_out_ret.
  - simpl init_write_loop.
    replace (7 * List.length (code :: codes))%nat
      with (7 + 7 * List.length codes)%nat by (simpl; lia).
    apply (times_out_bind I 7 _ (eq I2C_ERR_TIMEOUT));
      [apply times_out_lcd1602_write|intros ? <-].
    times_out_step.
    eapply times_out_weaken; [apply IH|].
    intros r <-. destruct codes; rewrite ?lor_timeout_twice; reflexivity.
Qed.

Lemma times_out_lcd1602_init :
  times_out I 37 (eq I2C_ERR_TIMEOUT) (lcd1602_init fuel).
Proof.
  unfold lcd1602_init.
  apply (times_out_bind I 8 29 (eq I2C_ERR_TIMEOUT));
    [apply (times_out_init_nibble_loop (take 4 lcd_init_code) 0)|intros ? <-].
  apply (times_out_bind I 28 1 (eq I2C_ERR_TIMEOUT));
    [apply (times_out_init_write_loop (drop 4 lcd_init_code) I2C_ERR_TIMEOUT)
    |intros ? <-].
  apply (times_out_bind I 1 0 (fun _ => True));
    [apply times_out_lcd_set_backlight_on|intros ? _].
  apply times_out_ret.
Qed.

End LcdDeadBusFacts.

Section LcdModeFacts.
Context {L : hw_i2c} {D : device}.

(** What one send leaves in the transmit data register: its byte, or
    nothing when it gave up in the idle wait. *)
Lemma send1_tx_bytes_cases fuel slave data d r d' e :
  I2C_mstr_send1 fuel slave data d = Some (r, d', e) ->
  tx_bytes e = [] \/ tx_bytes e = [data].
Proof.
  intros H. unfold I2C_mstr_send1 in H.
  destruct (wait_idle fuel I2C_NORMAL d) as [[[[c|] d0] e0]|] eqn:Hidle.
  - left. unfold I2C_mstr_send_internal in H.
    rewrite (run_bind_after _ _ _ _ _ _ Hidle) in H.
    apply after_Some in H as (e2 & H & ->). run_all. rewrite app_nil_r.
    apply tx_bytes_none.
    eapply Forall_impl; [exact (emits_wait_idle _ _ _ _ _ _ Hidle)|].
    intros [[] v|[] v|us]; simpl; tauto.
  - right.
    apply (send_tx_bytes L D _ _ _ _ _ _ _ _ _ _ _ Hidle) in H;
      [exact H|simpl; lia].
  - unfold I2C_mstr_send_internal in H.
    apply run_bind in H as (? & ? & ? & ? & Ha & _).
    rewrite Hidle in Ha. discriminate Ha.
Qed.

Lemma lcd_set_backlight_on_run fuel s u s' e :
  lcd_set_backlight_on fuel s = Some (u, s', e) ->
  g_lcd_backlight_mode s'
    = u8 (Z.lor (g_lcd_backlight_mode s) LCD_BACKLIGHT_BIT_MASK) /\
  (tx_bytes (bus_events e) = [] \/
   tx_bytes (bus_events e) = [g_lcd_backlight_mode s']) /\
  msec_delays e = [IIC_TIME_DELAY_1MS].
Proof.
  intros H. unfold lcd_set_backlight_on in H. lcd_all.
  match goal with
  | H : on_bus _ _ = Some _ |- _ =>
      apply lcd_run_on_bus in H as (? & ? & H & ? & ?)
  end.
  subst. simpl in *. split; [reflexivity|].
  rewrite bus_events_app, bus_events_map, tx_bytes_app, app_nil_r.
  rewrite msec_delays_app, msec_delays_map.
  split; [|reflexivity].
  eapply send1_tx_bytes_cases. eassumption.
Qed.

Lemma lcd_set_backlight_off_run fuel s u s' e :
  lcd_set_backlight_off fuel s = Some (u, s', e) ->
  g_lcd_backlight_mode s'
    = u8 (Z.land (g_lcd_backlight_mode s)
            (u32 (Z.lnot LCD_BACKLIGHT_BIT_MASK))) /\
  (tx_bytes (bus_events e) = [] \/
   tx_bytes (bus_events e) = [g_lcd_backlight_mode s']) /\
  msec_delays e = [IIC_TIME_DELAY_1MS].
Proof.
  intros H. unfold lcd_set_backlight_off in H. lcd_all.
  match goal with
  | H : on_bus _ _ = Some _ |- _ =>
      apply lcd_run_on_bus in H as (? & ? & H & ? & ?)
  end.
  subst. simpl in *. split; [reflexivity|].
  rewrite bus_events_app, bus_events_map, tx_bytes_app, app_nil_r.
  rewrite msec_delays_app, msec_delays_map.
  split; [|reflexivity].
  eapply send1_tx_bytes_cases. eassumption.
Qed.

Lemma keeps_mode_lcd_set_backlight_on fuel :
  keeps_mode backlight_mode_ok (lcd_set_backlight_on fuel).
Proof.
  intros s a s' e Hs H.
  apply lcd_set_backlight_on_run in H as (-> & _).
  destruct Hs as [->| ->]; right; reflexivity.
Qed.

Lemma keeps_mode_lcd_set_backlight_off fuel :
  keeps_mode backlight_mode_ok (lcd_set_backlight_off fuel).
Proof.
  intros s a s' e Hs H.
  apply lcd_set_backlight_off_run in H as (-> & _).
  destruct Hs as [->| ->]; left; reflexivity.
Qed.

Lemma keeps_mode_init_nibble_loop P fuel codes status :
  keeps_mode P (init_nibble_loop fuel codes status).
Proof.
  revert status. induction codes as [|code codes IH]; intros status; simpl.
  - apply keeps_mode_ret.
  - repeat keeps_mode_step. apply IH.
Qed.

Lemma keeps_mode_init_write_loop P fuel codes status :
  keeps_mode P (init_write_loop fuel codes status).
Proof.
  revert status. induction codes as [|code codes IH]; intros status; simpl.
  - apply keeps_mode_ret.
  - apply keeps_mode_bind; [apply keeps_mode_lcd1602_write|intros ?].
    repeat keeps_mode_step. apply IH.
Qed.

Lemma keeps_mode_lcd1602_init fuel :
  keeps_mode backlight_mode_ok (lcd1602_init fuel).
Proof.
  unfold lcd1602_init.
  apply keeps_mode_bind; [apply keeps_mode_init_nibble_loop|intros ?].
  apply keeps_mode_bind; [apply keeps_mode_init_write_loop|intros ?].
  apply keeps_mode_bind; [apply keeps_mode_lcd_set_backlight_on|intros ?].
  apply keeps_mode_ret.
Qed.

(** The string loop: it stops at the first NUL, and a string without NUL
    is written piece by piece. *)
Lemma lcd_write_string_nul fuel s1 s2 st :
  Forall (fun c => c <> 0) s1 ->
  lcd_write_string fuel (s1 ++ 0 :: s2) st = lcd_write_string fuel s1 st.
Proof.
  intros Hs. revert st. induction Hs as [|c s1 Hc Hs IH]; intros st.
  - reflexivity.
  - simpl. apply Z.eqb_neq in Hc. rewrite Hc.
    apply lcd_bind_ext. intros _ st1. apply IH.
Qed.

Lemma lcd_write_string_app fuel s1 s2 st :
  Forall (fun c => c <> 0) s1 ->
  lcd_write_string fuel (s1 ++ s2) st
    = (lcd_write_string fuel s1 ;; lcd_write_string fuel s2) st.
Proof.
  intros Hs. revert st. induction Hs as [|c s1 Hc Hs IH]; intros st.
  - simpl. rewrite lcd_bind_ret. reflexivity.
  - simpl. apply Z.eqb_neq in Hc. rewrite Hc.
    rewrite lcd_bind_assoc. apply lcd_bind_ext. intros _ st1. apply IH.
Qed.

End LcdModeFacts.

Section LcdInitFacts.
Context {L : hw_i2c} {D : device}.

Lemma lcd1602_init_mode fuel s r s' e :
  lcd1602_init fuel s = Some (r, s', e) ->
  g_lcd_backlight_mode s'
    = u8 (Z.lor (g_lcd_backlight_mode s) LCD_BACKLIGHT_BIT_MASK).
Proof.
  intros H. unfold lcd1602_init in H.
  apply lcd_run_bind in H as (r1 & s1 & e1 & e1' & H1 & H & _).
  apply lcd_run_bind in H as (r2 & s2 & e2 & e2' & H2 & H & _).
  apply lcd_run_bind in H as (r3 & s3 & e3 & e3' & H3 & H & _).
  apply lcd_run_ret in H as (_ & -> & _).
  apply (keeps_mode_init_nibble_loop
           (fun g => g = g_lcd_backlight_mode s)) in H1; [|reflexivity].
  apply (keeps_mode_init_write_loop
           (fun g => g = g_lcd_backlight_mode s)) in H2; [|exact H1].
  apply lcd_set_backlight_on_run in H3 as (-> & _).
  rewrite H2. reflexivity.
Qed.

(** The bytes of the two loops of [lcd1602_init] when every send
    succeeded. *)
Lemma init_nibble_loop_success fuel codes status s r s' evs :
  init_nibble_loop fuel codes status s = Some (r, s', evs) -> r = 0 ->
  status = 0 /\
  tx_bytes (bus_events evs)
    = flat_map
        (fun code =>
           [u8 (Z.lor (Z.lor (Z.lor code LATCH_ENABLE) WRITE_ENABLE)
                  LCD_INSTR_REG);
            u8 (Z.lor (Z.lor code WRITE_ENABLE) LCD_INSTR_REG)]) codes.
Proof.
  revert status s evs.
  induction codes as [|code codes IH]; intros status s evs H Hr.
  - simpl in H. apply lcd_run_ret in H as (-> & _ & ->). auto.
  - simpl in H.
    apply lcd_run_bind in H as (r1 & s1 & e1 & e1' & H1 & H & ->).
    apply lcd_run_bind in H as (u1 & s2 & e2 & e2' & H2 & H & ->).
    apply lcd_run_bind in H as (r2 & s3 & e3 & e3' & H3 & H & ->).
    apply lcd_run_bind in H as (u2 & s4 & e4 & e4' & H4 & H & ->).
    apply lcd_run_msec_delay in H2 as (-> & ->).
    apply lcd_run_msec_delay in H4 as (-> & ->).
    destruct (IH _ _ _ H Hr) as (Hst & Hb).
    apply Z.lor_eq_0_iff in Hst as (Hst & ->).
    apply Z.lor_eq_0_iff in Hst as (-> & ->).
    apply lcd_run_on_bus in H1 as (d1 & x1 & H1 & -> & ->).
    apply lcd_run_on_bus in H3 as (d3 & x3 & H3 & -> & ->).
    apply send1_success_byte in H1. apply send1_success_byte in H3.
    split; [reflexivity|].
    repeat first
      [ rewrite bus_events_app | rewrite bus_events_map
      | rewrite tx_bytes_app | progress cbn [bus_events tx_bytes flat_map] ].
    rewrite H1, H3, Hb. reflexivity.
Qed.

Lemma init_write_loop_success fuel codes status s r s' evs :
  backlight_mode_ok (g_lcd_backlight_mode s) ->
  Forall (fun code => 0 <= code < 2 ^ 8) codes ->
  init_write_loop fuel codes status s = Some (r, s', evs) -> r = 0 ->
  status = 0 /\
  tx_bytes (bus_events evs)
    = flat_map
        (fun code =>
           lcd_write_bytes (g_lcd_backlight_mode s) code LCD_INSTR_REG)
        codes.
Proof.
  intros Hg Hcodes. revert status s evs Hg.
  induction Hcodes as [|code codes Hcode Hcodes IH];
    intros status s evs Hg H Hr.
  - simpl in H. apply lcd_run_ret in H as (-> & _ & ->). auto.
  - simpl in H.
    apply lcd_run_bind in H as (r1 & s1 & e1 & e1' & H1 & H & ->).
    apply lcd_run_bind in H as (u1 & s2 & e2 & e2' & H2 & H & ->).
    apply lcd_run_msec_delay in H2 as (-> & ->).
    assert (Hg1 : g_lcd_backlight_mode s1 = g_lcd_backlight_mode s).
    { apply (keeps_mode_lcd1602_write
               (fun g => g = g_lcd_backlight_mode s)) in H1;
        [exact H1|reflexivity]. }
    assert (Hg2 : backlight_mode_ok
                    (g_lcd_backlight_mode
                       {| g_lcd_backlight_mode := g_lcd_backlight_mode s1;
                          lcd_bus := dev_delay (1000 * IIC_TIME_DELAY_2MS)
                                       (lcd_bus s1) |}))
      by (simpl; rewrite Hg1; exact Hg).
    destruct (IH _ _ _ Hg2 H Hr) as (Hst & Hb).
    apply Z.lor_eq_0_iff in Hst as (-> & ->).
    destruct (lcd1602_write_success _ _ _ _ _ _ _ _ Hg
                (or_introl eq_refl) Hcode H1 eq_refl) as (Hb1 & _).
    split; [reflexivity|].
    repeat first
      [ rewrite bus_events_app | rewrite tx_bytes_app
      | progress cbn [bus_events tx_bytes flat_map] ].
    rewrite Hb1, Hb. simpl. rewrite Hg1. reflexivity.
Qed.

End LcdInitFacts.

(** An instance of X10: the letter A written to the data register with
    the backlight on, through the simulated controller at rest. *)
Lemma X10_lcd1602_write_protocol_witness :
  exists s' evs,
    lcd1602_write (L:=mspm0g350x) (D:=sim_device) 5 0x27 0x41 LCD_DATA_REG
      (sim_lcd 8 0x20)
      = Some (0, s', evs) /\
    let bytes := tx_bytes (bus_events evs) in
    bytes = lcd_write_bytes 8 0x41 LCD_DATA_REG /\
    lcd_latched bytes = 0x41 /\
    Forall (fun b => Z.land b LCD_BACKLIGHT_BIT_MASK = 8) bytes /\
    Forall (fun b => Z.land b (Z.lor READ_ENABLE LCD_DATA_REG) = LCD_DATA_REG)
      (take 6 bytes) /\
    g_lcd_backlight_mode s' = 8.
Proof.
  let v := eval vm_compute in
        (lcd1602_write (L:=mspm0g350x) (D:=sim_device) 5 0x27 0x41
           LCD_DATA_REG (sim_lcd 8 0x20)) in
  match v with
  | Some (_, ?s, ?e) => exists s, e
  end.
  split; [vm_compute; reflexivity|].
  apply (X10_lcd1602_write_protocol mspm0g350x sim_device 5 0x27 0x41
           LCD_DATA_REG (sim_lcd 8 0x20)).
  - right. reflexivity.
  - right. reflexivity.
  - lia.
  - vm_compute. reflexivity.
Defined.

(** X11.  On a bus that never falls idle [lcd1602_write] does not stop at
    the first failed send: it makes its seven sends, each running the full
    countdown of 200000 polls, stores no byte, and returns
    [I2C_ERR_TIMEOUT]. *)
Theorem X11_lcd1602_write_dead_bus (L : hw_i2c) (D : device)
    (I : dev -> Prop) (fuel : nat) (iic_addr data reg_select : Z)
    (s : lcd_state) :
  closed I ->
  msr_stuck I I2C_MSR_IDLE_MASK I2C_MSR_IDLE_CLEARED ->
  I2C_TIMEOUT_COUNT <= Z.of_nat fuel ->
  I (lcd_bus s) ->
  exists s' evs,
    lcd1602_write fuel iic_addr data reg_select s
      = Some (I2C_ERR_TIMEOUT, s', evs) /\
    Z.of_nat (msr_polls (bus_events evs)) = 7 * 200000 /\
    tx_bytes (bus_events evs) = [].
Proof.
  intros Hc Hm Hfuel HI.
  destruct (times_out_lcd1602_write I Hc Hm fuel Hfuel iic_addr data
              reg_select s HI)
    as (a & s' & evs & Hrun & <- & _ & Hp & Ht).
  exists s', evs. split; [exact Hrun|]. split; [|exact Ht].
  rewrite Hp. reflexivity.
Qed.

(** An instance of X11: the simulated controller with the status word
    stuck at 0. *)
Lemma X11_lcd1602_write_dead_bus_witness :
  exists s' evs,
    lcd1602_write (L:=mspm0g350x) (D:=sim_device) (Z.to_nat 200000) 0x27
      0x41 LCD_DATA_REG
      (sim_lcd 0 0)
      = Some (I2C_ERR_TIMEOUT, s', evs) /\
    Z.of_nat (msr_polls (bus_events evs)) = 7 * 200000 /\
    tx_bytes (bus_events evs) = [].
Proof.
  apply (X11_lcd1602_write_dead_bus mspm0g350x sim_device
           (fun s => sim_msr s = 0) (Z.to_nat 200000) 0x27 0x41 LCD_DATA_REG
           (sim_lcd 0 0)).
  - apply sim_msr_closed.
  - exact (sim_msr_stuck 0 0x20).
  - unfold I2C_TIMEOUT_COUNT. lia.
  - reflexivity.
Defined.

(** X12.  On a bus that never falls idle [lcd1602_init] still makes all
    its 37 sends (two for each of the first four commands, seven for each of
    the other four, one for the backlight), each running the full countdown,
    and returns [I2C_ERR_TIMEOUT]; no byte is stored, yet the backlight mode
    is left on. *)
Theorem X12_lcd1602_init_dead_bus (L : hw_i2c) (D : device)
    (I : dev -> Prop) (fuel : nat) (s : lcd_state) :
  closed I ->
  msr_stuck I I2C_MSR_IDLE_MASK I2C_MSR_IDLE_CLEARED ->
  I2C_TIMEOUT_COUNT <= Z.of_nat fuel ->
  I (lcd_bus s) ->
  backlight_mode_ok (g_lcd_backlight_mode s) ->
  exists s' evs,
    lcd1602_init fuel s = Some (I2C_ERR_TIMEOUT, s', evs) /\
    Z.of_nat (msr_polls (bus_events evs)) = 37 * 200000 /\
    tx_bytes (bus_events evs) = [] /\
    g_lcd_backlight_mode s' = LCD_BACKLIGHT_BIT_MASK.
Proof.
  intros Hc Hm Hfuel HI Hg.
  destruct (times_out_lcd1602_init I Hc Hm fuel Hfuel s HI)
    as (a & s' & evs & Hrun & <- & _ & Hp & Ht).
  exists s', evs. split; [exact Hrun|]. split; [|split; [exact Ht|]].
  - rewrite Hp. reflexivity.
  - rewrite (lcd1602_init_mode _ _ _ _ _ Hrun).
    destruct Hg as [->| ->]; reflexivity.
Qed.

(** An instance of X12: the simulated controller with the status word
    stuck at 0, from the initial backlight mode. *)
Lemma X12_lcd1602_init_dead_bus_witness :
  exists s' evs,
    lcd1602_init (L:=mspm0g350x) (D:=sim_device) (Z.to_nat 200000)
      (sim_lcd 0 0)
      = Some (I2C_ERR_TIMEOUT, s', evs) /\
    Z.of_nat (msr_polls (bus_events evs)) = 37 * 200000 /\
    tx_bytes (bus_events evs) = [] /\
    g_lcd_backlight_mode s' = LCD_BACKLIGHT_BIT_MASK.
Proof.
  apply (X12_lcd1602_init_dead_bus mspm0g350x sim_device
           (fun s => sim_msr s = 0) (Z.to_nat 200000)
           (sim_lcd 0 0)).
  - apply sim_msr_closed.
  - exact (sim_msr_stuck 0 0x20).
  - unfold I2C_TIMEOUT_COUNT. lia.
  - reflexivity.
  - left. reflexivity.
Defined.

(** X13.  A call of [lcd1602_init] that returns 0 has stored, in order:
    for each of the first four commands the command with the latch bit and
    the command without it, with no backlight bit; for each of the other four
    the seven bytes of [lcd1602_write] with the backlight mode as it was on
    entry; and last at most one byte, the new backlight mode - the code of
    that last send is dropped, so 0 is returned also when it failed.  The
    backlight mode is left on. *)
Theorem X13_lcd1602_init_bytes (L : hw_i2c) (D : device) (fuel : nat)
    (s s' : lcd_state) (evs : list lcd_event) :
  backlight_mode_ok (g_lcd_backlight_mode s) ->
  lcd1602_init fuel s = Some (0, s', evs) ->
  exists last,
    tx_bytes (bus_events evs)
      = flat_map (fun code => [Z.lor code LATCH_ENABLE; code])
          (take 4 lcd_init_code)
        ++ flat_map
             (fun code =>
                lcd_write_bytes (g_lcd_backlight_mode s) code LCD_INSTR_REG)
             (drop 4 lcd_init_code)
        ++ last /\
    (last = [] \/ last = [LCD_BACKLIGHT_BIT_MASK]) /\
    g_lcd_backlight_mode s' = LCD_BACKLIGHT_BIT_MASK.
Proof.
  intros Hg H.
  assert (Hmode : g_lcd_backlight_mode s' = LCD_BACKLIGHT_BIT_MASK).
  { rewrite (lcd1602_init_mode _ _ _ _ _ H).
    destruct Hg as [->| ->]; reflexivity. }
  unfold lcd1602_init in H.
  apply lcd_run_bind in H as (r1 & s1 & e1 & e1' & H1 & H & ->).
  apply lcd_run_bind in H as (r2 & s2 & e2 & e2' & H2 & H & ->).
  apply lcd_run_bind in H as (r3 & s3 & e3 & e3' & H3 & H & ->).
  apply lcd_run_ret in H as (Hr & -> & ->). subst r2.
  assert (Hg1 : g_lcd_backlight_mode s1 = g_lcd_backlight_mode s).
  { apply (keeps_mode_init_nibble_loop
             (fun g => g = g_lcd_backlight_mode s)) in H1;
      [exact H1|reflexivity]. }
  assert (Hg1' : backlight_mode_ok (g_lcd_backlight_mode s1))
    by (rewrite Hg1; exact Hg).
  assert (Hcodes : Forall (fun code => 0 <= code < 2 ^ 8)
                     (drop 4 lcd_init_code))
    by (repeat constructor; vm_compute; intuition discriminate).
  destruct (init_write_loop_success _ _ _ _ _ _ _ Hg1' Hcodes H2 eq_refl)
    as (-> & Hb2).
  destruct (init_nibble_loop_success _ _ _ _ _ _ _ H1 eq_refl) as (_ & Hb1).
  destruct (lcd_set_backlight_on_run _ _ _ _ _ H3) as (Hg3 & Hb3 & _).
  exists (tx_bytes (bus_events e3)).
  split; [|split; [|exact Hmode]].
  - rewrite !bus_events_app, !tx_bytes_app, app_nil_r, Hb1, Hb2, Hg1.
    reflexivity.
  - rewrite Hmode in Hb3. exact Hb3.
Qed.

(** An instance of X13: the simulated controller at rest, from the initial
    backlight mode. *)
Lemma X13_lcd1602_init_bytes_witness :
  exists s' evs last,
    lcd1602_init (L:=mspm0g350x) (D:=sim_device) 5
      (sim_lcd 0 0x20)
      = Some (0, s', evs) /\
    tx_bytes (bus_events evs)
      = [0x34; 0x30; 0x34; 0x30; 0x34; 0x30; 0x24; 0x20]
        ++ flat_map (fun code => lcd_write_bytes 0 code LCD_INSTR_REG)
             [0x28; 0x0C; 0x06; 0x01]
        ++ last /\
    (last = [] \/ last = [LCD_BACKLIGHT_BIT_MASK]) /\
    g_lcd_backlight_mode s' = LCD_BACKLIGHT_BIT_MASK.
Proof.
  let v := eval vm_compute in
        (lcd1602_init (L:=mspm0g350x) (D:=sim_device) 5 (sim_lcd 0 0x20)) in
  match v with
  | Some (_, ?s, ?e) =>
      assert (Hrun : lcd1602_init (L:=mspm0g350x) (D:=sim_device) 5
                       (sim_lcd 0 0x20) = Some (0, s, e))
        by (vm_compute; reflexivity);
      exists s, e
  end.
  destruct (X13_lcd1602_init_bytes mspm0g350x sim_device 5
              (sim_lcd 0 0x20) _ _ (or_introl eq_refl) Hrun)
    as (last & Hb & Hl & Hg).
  exists last. split; [exact Hrun|]. split; [exact Hb|]. split; assumption.
Defined.

(** X14.  After [lcd_set_backlight_on], whatever its send returned, the
    backlight mode is on; the call stored at most one byte, the new mode,
    and waited one millisecond.  Every byte that a successful
    [lcd1602_write] then stores has the backlight bit set. *)
Theorem X14_backlight_on_then_write (L : hw_i2c) (D : device) (fuel : nat)
    (s s1 : lcd_state) (u : unit) (e1 : list lcd_event) :
  backlight_mode_ok (g_lcd_backlight_mode s) ->
  lcd_set_backlight_on fuel s = Some (u, s1, e1) ->
  g_lcd_backlight_mode s1 = LCD_BACKLIGHT_BIT_MASK /\
  (tx_bytes (bus_events e1) = [] \/
   tx_bytes (bus_events e1) = [LCD_BACKLIGHT_BIT_MASK]) /\
  msec_delays e1 = [1] /\
  (forall fuel' iic_addr data reg_select s2 e2,
     reg_select = LCD_INSTR_REG \/ reg_select = LCD_DATA_REG ->
     0 <= data < 2 ^ 8 ->
     lcd1602_write fuel' iic_addr data reg_select s1 = Some (0, s2, e2) ->
     Forall (fun b => Z.land b LCD_BACKLIGHT_BIT_MASK = LCD_BACKLIGHT_BIT_MASK)
       (tx_bytes (bus_events e2))).
Proof.
  intros Hg Hon.
  destruct (lcd_set_backlight_on_run _ _ _ _ _ Hon) as (Hg1 & Hb & Hd).
  assert (Hm : g_lcd_backlight_mode s1 = LCD_BACKLIGHT_BIT_MASK)
    by (rewrite Hg1; destruct Hg as [->| ->]; reflexivity).
  rewrite Hm in Hb.
  split; [exact Hm|]. split; [exact Hb|]. split; [exact Hd|].
  intros fuel' iic_addr data reg_select s2 e2 Hrs Hdata Hw.
  assert (Hok : backlight_mode_ok (g_lcd_backlight_mode s1))
    by (right; exact Hm).
  destruct (lcd1602_write_success _ _ _ _ _ _ _ _ Hok Hrs Hdata Hw eq_refl)
    as (Hbytes & _).
  destruct (lcd_bytes_facts _ _ _ Hok Hrs Hdata) as (_ & _ & Hbl & _).
  rewrite Hbytes. rewrite Hm in Hbl |- *. exact Hbl.
Qed.

(** An instance of X14: backlight on, then the letter A, through the
    simulated controller at rest. *)
Lemma X14_backlight_on_then_write_witness :
  exists s1 e1 s2 e2,
    lcd_set_backlight_on (L:=mspm0g350x) (D:=sim_device) 5 (sim_lcd 0 0x20)
      = Some (tt, s1, e1) /\
    lcd1602_write (L:=mspm0g350x) 5 0x27 0x41 LCD_DATA_REG s1
      = Some (0, s2, e2) /\
    g_lcd_backlight_mode s1 = LCD_BACKLIGHT_BIT_MASK /\
    (tx_bytes (bus_events e1) = [] \/
     tx_bytes (bus_events e1) = [LCD_BACKLIGHT_BIT_MASK]) /\
    msec_delays e1 = [1] /\
    Forall (fun b => Z.land b LCD_BACKLIGHT_BIT_MASK = LCD_BACKLIGHT_BIT_MASK)
      (tx_bytes (bus_events e2)).
Proof.
  let v := eval vm_compute in
        (lcd_set_backlight_on (L:=mspm0g350x) (D:=sim_device) 5
           (sim_lcd 0 0x20)) in
  match v with
  | Some (_, ?s1, ?e1) =>
      let w := eval vm_compute in
            (lcd1602_write (L:=mspm0g350x) (D:=sim_device) 5 0x27 0x41
               LCD_DATA_REG s1) in
      match w with
      | Some (_, ?s2, ?e2) =>
          exists s1, e1, s2, e2;
          assert (Hrun : lcd_set_backlight_on (L:=mspm0g350x) (D:=sim_device) 5
                           (sim_lcd 0 0x20) = Some (tt, s1, e1))
            by (vm_compute; reflexivity);
          assert (Hwrite : lcd1602_write (L:=mspm0g350x) (D:=sim_device) 5
                             0x27 0x41 LCD_DATA_REG s1 = Some (0, s2, e2))
            by (vm_compute; reflexivity);
          destruct (X14_backlight_on_then_write mspm0g350x sim_device 5
                      (sim_lcd 0 0x20) s1 tt e1
                      ltac:(left; reflexivity) Hrun)
            as (Hm & Hb & Hd & Hbytes);
          split; [exact Hrun|]; split; [exact Hwrite|];
          split; [exact Hm|]; split; [exact Hb|]; split; [exact Hd|];
          apply (Hbytes 5%nat 0x27 0x41 LCD_DATA_REG s2 e2);
          [right; reflexivity | lia
          | exact Hwrite]
      end
  end.
Defined.

(** X15.  After [lcd_set_backlight_off], whatever its send returned, the
    backlight mode is off; the call stored at most one byte, the new mode,
    and waited one millisecond.  Every byte that a successful
    [lcd1602_write] then stores has the backlight bit clear. *)
Theorem X15_backlight_off_then_write (L : hw_i2c) (D : device) (fuel : nat)
    (s s1 : lcd_state) (u : unit) (e1 : list lcd_event) :
  backlight_mode_ok (g_lcd_backlight_mode s) ->
  lcd_set_backlight_off fuel s = Some (u, s1, e1) ->
  g_lcd_backlight_mode s1 = 0 /\
  (tx_bytes (bus_events e1) = [] \/
   tx_bytes (bus_events e1) = [0]) /\
  msec_delays e1 = [1] /\
  (forall fuel' iic_addr data reg_select s2 e2,
     reg_select = LCD_INSTR_REG \/ reg_select = LCD_DATA_REG ->
     0 <= data < 2 ^ 8 ->
     lcd1602_write fuel' iic_addr data reg_select s1 = Some (0, s2, e2) ->
     Forall (fun b => Z.land b LCD_BACKLIGHT_BIT_MASK = 0)
       (tx_bytes (bus_events e2))).
Proof.
  intros Hg Hoff.
  destruct (lcd_set_backlight_off_run _ _ _ _ _ Hoff) as (Hg1 & Hb & Hd).
  assert (Hm : g_lcd_backlight_mode s1 = 0)
    by (rewrite Hg1; destruct Hg as [->| ->]; reflexivity).
  rewrite Hm in Hb.
  split; [exact Hm|]. split; [exact Hb|]. split; [exact Hd|].
  intros fuel' iic_addr data reg_select s2 e2 Hrs Hdata Hw.
  assert (Hok : backlight_mode_ok (g_lcd_backlight_mode s1))
    by (left; exact Hm).
  destruct (lcd1602_write_success _ _ _ _ _ _ _ _ Hok Hrs Hdata Hw eq_refl)
    as (Hbytes & _).
  destruct (lcd_bytes_facts _ _ _ Hok Hrs Hdata) as (_ & _ & Hbl & _).
  rewrite Hbytes. rewrite Hm in Hbl |- *. exact Hbl.
Qed.

(** An instance of X15: backlight off from on, then a clear-display
    command, through the
    simulated controller at rest. *)
Lemma X15_backlight_off_then_write_witness :
  exists s1 e1 s2 e2,
    lcd_set_backlight_off (L:=mspm0g350x) (D:=sim_device) 5 (sim_lcd 8 0x20)
      = Some (tt, s1, e1) /\
    lcd1602_write (L:=mspm0g350x) 5 0x27 0x01 LCD_INSTR_REG s1
      = Some (0, s2, e2) /\
    g_lcd_backlight_mode s1 = 0 /\
    (tx_bytes (bus_events e1) = [] \/
     tx_bytes (bus_events e1) = [0]) /\
    msec_delays e1 = [1] /\
    Forall (fun b => Z.land b LCD_BACKLIGHT_BIT_MASK = 0)
      (tx_bytes (bus_events e2)).
Proof.
  let v := eval vm_compute in
        (lcd_set_backlight_off (L:=mspm0g350x) (D:=sim_device) 5
           (sim_lcd 8 0x20)) in
  match v with
  | Some (_, ?s1, ?e1) =>
      let w := eval vm_compute in
            (lcd1602_write (L:=mspm0g350x) (D:=sim_device) 5 0x27 0x01
               LCD_INSTR_REG s1) in
      match w with
      | Some (_, ?s2, ?e2) =>
          exists s1, e1, s2, e2;
          assert (Hrun : lcd_set_backlight_off (L:=mspm0g350x) (D:=sim_device) 5
                           (sim_lcd 8 0x20) = Some (tt, s1, e1))
            by (vm_compute; reflexivity);
          assert (Hwrite : lcd1602_write (L:=mspm0g350x) (D:=sim_device) 5
                             0x27 0x01 LCD_INSTR_REG s1 = Some (0, s2, e2))
            by (vm_compute; reflexivity);
          destruct (X15_backlight_off_then_write mspm0g350x sim_device 5
                      (sim_lcd 8 0x20) s1 tt e1
                      ltac:(right; reflexivity) Hrun)
            as (Hm & Hb & Hd & Hbytes);
          split; [exact Hrun|]; split; [exact Hwrite|];
          split; [exact Hm|]; split; [exact Hb|]; split; [exact Hd|];
          apply (Hbytes 5%nat 0x27 0x01 LCD_INSTR_REG s2 e2);
          [left; reflexivity | lia
          | exact Hwrite]
      end
  end.
Defined.

(** X16.  Only the two backlight functions and [lcd1602_init] change the
    backlight mode: every other function of the module leaves it as it was,
    whatever its sends returned.  The three that change it keep it one of
    0 and [LCD_BACKLIGHT_BIT_MASK]. *)
Theorem X16_backlight_mode_invariant (L : hw_i2c) (D : device) :
  (forall P fuel iic_addr data reg_select,
     keeps_mode P (lcd1602_write fuel iic_addr data reg_select)) /\
  (forall P fuel address, keeps_mode P (lcd_set_ddram_addr fuel address)) /\
  (forall P fuel character, keeps_mode P (lcd_write_char fuel character)) /\
  (forall P fuel string, keeps_mode P (lcd_write_string fuel string)) /\
  (forall P fuel, keeps_mode P (lcd_clear fuel)) /\
  (forall P fuel hex_value, keeps_mode P (hex_to_lcd fuel hex_value)) /\
  (forall P fuel byte, keeps_mode P (lcd_write_byte fuel byte)) /\
  (forall P fuel doublebyte,
     keeps_mode P (lcd_write_doublebyte fuel doublebyte)) /\
  (forall P fuel quadbyte, keeps_mode P (lcd_write_quadbyte fuel quadbyte)) /\
  (forall fuel, keeps_mode backlight_mode_ok (lcd_set_backlight_on fuel)) /\
  (forall fuel, keeps_mode backlight_mode_ok (lcd_set_backlight_off fuel)) /\
  (forall fuel, keeps_mode backlight_mode_ok (lcd1602_init fuel)).
Proof.
  repeat split; intros.
  - apply keeps_mode_lcd1602_write.
  - unfold lcd_set_ddram_addr.
    apply keeps_mode_bind;
      [apply keeps_mode_lcd1602_write|intros ?; apply keeps_mode_ret].
  - apply keeps_mode_lcd_write_char.
  - apply keeps_mode_lcd_write_string.
  - unfold lcd_clear.
    apply keeps_mode_bind;
      [apply keeps_mode_lcd1602_write|intros ?; apply keeps_mode_ret].
  - apply keeps_mode_lcd_write_char.
  - apply keeps_mode_lcd_write_string.
  - apply keeps_mode_lcd_write_string.
  - apply keeps_mode_lcd_write_string.
  - apply keeps_mode_lcd_set_backlight_on.
  - apply keeps_mode_lcd_set_backlight_off.
  - apply keeps_mode_lcd1602_init.
Qed.

(** X17.  [lcd_write_string] stops at the first NUL: what follows it in
    the array is not written.  A string without NUL followed by another is
    written as the first, then the second. *)
Theorem X17_lcd_write_string_until_nul (L : hw_i2c) (D : device)
    (fuel : nat) (s1 s2 : list Z) (st : lcd_state) :
  Forall (fun c => c <> 0) s1 ->
  lcd_write_string fuel (s1 ++ 0 :: s2) st = lcd_write_string fuel s1 st /\
  lcd_write_string fuel (s1 ++ s2) st
    = (lcd_write_string fuel s1 ;; lcd_write_string fuel s2) st.
Proof.
  intros Hs. split.
  - apply lcd_write_string_nul. exact Hs.
  - apply lcd_write_string_app. exact Hs.
Qed.

(** An instance of X17: the characters H and i, then an exclamation
    mark. *)
Lemma X17_lcd_write_string_until_nul_witness :
  lcd_write_string (L:=mspm0g350x) (D:=sim_device) 5 ([72; 105] ++ 0 :: [33])
    (sim_lcd 0 0x20)
    = lcd_write_string (L:=mspm0g350x) 5 [72; 105] (sim_lcd 0 0x20) /\
  lcd_write_string (L:=mspm0g350x) (D:=sim_device) 5 ([72; 105] ++ [33])
    (sim_lcd 0 0x20)
    = (lcd_write_string (L:=mspm0g350x) 5 [72; 105] ;;
       lcd_write_string (L:=mspm0g350x) 5 [33])
        (sim_lcd 0 0x20).
Proof.
  apply (X17_lcd_write_string_until_nul mspm0g350x sim_device 5 [72; 105]
           [33] (sim_lcd 0 0x20)).
  repeat constructor; discriminate.
Defined.

(** X18.  What the formatted writes send.  [lcd_write_byte],
    [lcd_write_doublebyte] and [lcd_write_quadbyte] write the decimal field
    of 3, 5 and 10 characters, all of it: no character of a field is NUL.
    [hex_to_lcd] writes the hexadecimal digit of the low nibble. *)
Theorem X18_lcd_write_formatted (L : hw_i2c) (D : device) (fuel : nat)
    (byte doublebyte quadbyte hex_value : Z) (st : lcd_state) :
  0 <= byte < 2 ^ 8 -> 0 <= doublebyte < 2 ^ 16 ->
  0 <= quadbyte < 2 ^ 32 ->
  lcd_write_byte fuel byte st
    = lcd_write_string fuel (decimal_field 3 byte) st /\
  lcd_write_doublebyte fuel doublebyte st
    = lcd_write_string fuel (decimal_field 5 doublebyte) st /\
  lcd_write_quadbyte fuel quadbyte st
    = lcd_write_string fuel (decimal_field 10 quadbyte) st /\
  (forall w v, Forall (fun c => c <> 0) (decimal_field w v)) /\
  (exists c,
     hex_digit_chars !! Z.to_nat (Z.land hex_value 0x0F) = Some c /\
     hex_to_lcd fuel hex_value st = lcd_write_char fuel c st).
Proof.
  intros Hb Hd Hq.
  split; [|split; [|split; [|split]]].
  - unfold lcd_write_byte, byte_to_ascii.
    rewrite (to_ascii_loop_decimal 3) by (simpl; lia).
    simpl drop. rewrite app_nil_r. reflexivity.
  - unfold lcd_write_doublebyte, doublebyte_to_ascii.
    rewrite (to_ascii_loop_decimal 5) by (simpl; lia).
    simpl drop. rewrite app_nil_r. reflexivity.
  - unfold lcd_write_quadbyte, quadbyte_to_ascii.
    rewrite (to_ascii_loop_decimal 10) by (simpl; lia).
    simpl drop. rewrite app_nil_r. reflexivity.
  - intros w v. apply decimal_field_no_nul.
  - exists (hex_to_ascii hex_value).
    destruct (hex_to_ascii_nibble hex_value) as (Hd' & Hu).
    split; [exact Hd'|]. unfold hex_to_lcd. rewrite Hu. reflexivity.
Qed.

(** An instance of X18: 7, 1234 and 4294967295, and the nibble 0xB. *)
Lemma X18_lcd_write_formatted_witness :
  lcd_write_byte (L:=mspm0g350x) (D:=sim_device) 5 7 (sim_lcd 0 0x20)
    = lcd_write_string (L:=mspm0g350x) 5 (decimal_field 3 7) (sim_lcd 0 0x20) /\
  lcd_write_doublebyte (L:=mspm0g350x) (D:=sim_device) 5 1234
    (sim_lcd 0 0x20)
    = lcd_write_string (L:=mspm0g350x) 5 (decimal_field 5 1234) (sim_lcd 0 0x20) /\
  lcd_write_quadbyte (L:=mspm0g350x) (D:=sim_device) 5 4294967295
    (sim_lcd 0 0x20)
    = lcd_write_string (L:=mspm0g350x) 5 (decimal_field 10 4294967295) (sim_lcd 0 0x20) /\
  (forall w v, Forall (fun c => c <> 0) (decimal_field w v)) /\
  (exists c,
     hex_digit_chars !! Z.to_nat (Z.land 0xAB 0x0F) = Some c /\
     hex_to_lcd (L:=mspm0g350x) (D:=sim_device) 5 0xAB (sim_lcd 0 0x20)
       = lcd_write_char (L:=mspm0g350x) 5 c (sim_lcd 0 0x20)).
Proof.
  apply (X18_lcd_write_formatted mspm0g350x sim_device 5 7 1234 4294967295
           0xAB (sim_lcd 0 0x20)); lia.
Defined.

(** * The board's pins *)

Lemma u32_testbit x n : 0 <= n < 32 -> Z.testbit (u32 x) n = Z.testbit x n.
Proof. intros Hn. unfold u32. apply Z.mod_pow2_bits_low. lia. Qed.

Lemma shiftl1_testbit p n :
  0 <= p -> 0 <= n -> Z.testbit (Z.shiftl 1 p) n = (n =? p).
Proof.
  intros Hp Hn. rewrite Z.shiftl_1_l, Z.pow2_bits_eqb by lia.
  apply Z.eqb_sym.
Qed.

Lemma land_shiftl1 x p :
  0 <= p ->
  Z.land x (Z.shiftl 1 p) = if Z.testbit x p then Z.shiftl 1 p else 0.
Proof.
  intros Hp. apply Z.bits_inj'. intros n Hn.
  rewrite Z.land_spec, shiftl1_testbit by lia.
  destruct (Z.eqb_spec n p) as [->|Hne].
  - destruct (Z.testbit x p); simpl.
    + rewrite shiftl1_testbit by lia. symmetry. apply Z.eqb_refl.
    + rewrite Z.bits_0. reflexivity.
  - rewrite andb_false_r.
    destruct (Z.testbit x p);
      [rewrite shiftl1_testbit by lia; symmetry; apply Z.eqb_neq; exact Hne
      |rewrite Z.bits_0; reflexivity].
Qed.

(** The test [(x & mask) == mask] of the code, for a one-bit mask. *)
Lemma mask_test_testbit x p :
  0 <= p -> (Z.land x (Z.shiftl 1 p) =? Z.shiftl 1 p) = Z.testbit x p.
Proof.
  intros Hp. rewrite land_shiftl1 by exact Hp.
  assert (0 < Z.shiftl 1 p)
    by (rewrite Z.shiftl_1_l; apply Z.pow_pos_nonneg; lia).
  destruct (Z.testbit x p); [apply Z.eqb_refl|apply Z.eqb_neq; lia].
Qed.

Lemma DOUT31_0_set p q v s :
  DOUT31_0 p (set_DOUT31_0 q v s)
    = if port_eqb p q then v else DOUT31_0 p s.
Proof. destruct p, q; reflexivity. Qed.

(** A pin driven high, a pin driven low: bit [n] of port [q] afterwards. *)
Lemma testbit_DOUT31_0_or q q' p s n :
  0 <= n < 32 -> 0 <= p ->
  Z.testbit (DOUT31_0 q (DOUT31_0_or q' (Z.shiftl 1 p) s)) n
    = if port_eqb q q' && (n =? p) then true
      else Z.testbit (DOUT31_0 q s) n.
Proof.
  intros Hn Hp. unfold DOUT31_0_or. rewrite DOUT31_0_set.
  destruct (port_eqb q q') eqn:Hq; simpl; [|reflexivity].
  assert (q = q') as <- by (destruct q, q'; (reflexivity || discriminate)).
  rewrite u32_testbit, Z.lor_spec, shiftl1_testbit by lia.
  destruct (n =? p); [apply orb_true_r|apply orb_false_r].
Qed.

Lemma testbit_DOUT31_0_and_not q q' p s n :
  0 <= n < 32 -> 0 <= p ->
  Z.testbit (DOUT31_0 q (DOUT31_0_and_not q' (Z.shiftl 1 p) s)) n
    = if port_eqb q q' && (n =? p) then false
      else Z.testbit (DOUT31_0 q s) n.
Proof.
  intros Hn Hp. unfold DOUT31_0_and_not. rewrite DOUT31_0_set.
  destruct (port_eqb q q') eqn:Hq; simpl; [|reflexivity].
  assert (q = q') as <- by (destruct q, q'; (reflexivity || discriminate)).
  rewrite u32_testbit, Z.land_spec, u32_testbit, Z.lnot_spec,
    shiftl1_testbit by lia.
  destruct (n =? p); [apply andb_false_r|apply andb_true_r].
Qed.

(** The two shapes in which the code drives a pin to a computed level. *)
Lemma testbit_low_or_high (b : bool) q q' p s n :
  0 <= n < 32 -> 0 <= p ->
  Z.testbit
    (DOUT31_0 q
       (if b then DOUT31_0_and_not q' (Z.shiftl 1 p) s
        else DOUT31_0_or q' (Z.shiftl 1 p) s)) n
    = if port_eqb q q' && (n =? p) then negb b
      else Z.testbit (DOUT31_0 q s) n.
Proof.
  intros Hn Hp.
  destruct b; [rewrite testbit_DOUT31_0_and_not by assumption
              |rewrite testbit_DOUT31_0_or by assumption]; reflexivity.
Qed.

Lemma testbit_clear_then_set (b : bool) q q' p s n :
  0 <= n < 32 -> 0 <= p ->
  Z.testbit
    (DOUT31_0 q
       (if b
        then DOUT31_0_or q' (Z.shiftl 1 p)
               (DOUT31_0_and_not q' (Z.shiftl 1 p) s)
        else DOUT31_0_and_not q' (Z.shiftl 1 p) s)) n
    = if port_eqb q q' && (n =? p) then b
      else Z.testbit (DOUT31_0 q s) n.
Proof.
  intros Hn Hp.
  destruct b; rewrite ?testbit_DOUT31_0_or, ?testbit_DOUT31_0_and_not
    by assumption; destruct (port_eqb q q' && (n =? p)); reflexivity.
Qed.

(** One round of the loop of [leds_on]: the pin of LED [led_idx] goes
    low when bit [led_idx] of [value] is set, high when it is clear; no other
    bit of the output registers changes. *)
Lemma leds_on_body_testbit value led_idx c s q n :
  led_config_data !! led_idx = Some c -> 0 <= n < 32 ->
  Z.testbit (DOUT31_0 q (leds_on_body value led_idx s)) n
    = if port_eqb q (port_of c) && (n =? Z.log2 (bit_mask c))
      then negb (Z.testbit value (Z.of_nat led_idx))
      else Z.testbit (DOUT31_0 q s) n.
Proof.
  intros Hc Hn. unfold leds_on_body. rewrite Hc.
  rewrite mask_test_testbit by lia.
  do 8 (destruct led_idx as [|led_idx];
        [injection Hc as <-;
         apply testbit_low_or_high;
         [exact Hn|vm_compute; discriminate]|]).
  discriminate Hc.
Qed.

(** ** Loops over a table of pins *)
Section ForIndex.
Variable table : list gpio_struct.
Variable level : nat -> bool.
Variable body : nat -> gpio_regs -> gpio_regs.
Hypothesis body_drives : drives table level body.

Lemma pin_hit c q n :
  port_eqb q (port_of c) && (n =? Z.log2 (bit_mask c)) = true
  <-> pin_of c = (q, n).
Proof.
  unfold pin_of. rewrite andb_true_iff, Z.eqb_eq. split.
  - intros (Hq & ->). f_equal. destruct q, (port_of c);
      (reflexivity || discriminate).
  - intros H. injection H as <- <-. split; [|reflexivity].
    destruct (port_of c); reflexivity.
Qed.

(** Rounds that do not touch a pin leave it as it was. *)
Lemma for_index_miss k i s q n :
  0 <= n < 32 -> (i + k <= List.length table)%nat ->
  (forall j c, (i <= j < i + k)%nat -> table !! j = Some c ->
               pin_of c <> (q, n)) ->
  Z.testbit (DOUT31_0 q (for_index body k i s)) n
    = Z.testbit (DOUT31_0 q s) n.
Proof.
  intros Hn. revert i s. induction k as [|k IH]; intros i s Hlen Hmiss.
  - reflexivity.
  - simpl. rewrite IH; [|lia|intros j c Hj; apply Hmiss; lia].
    destruct (lookup_lt_is_Some_2 table i ltac:(lia)) as (c & Hc).
    rewrite (body_drives i c s q n Hc Hn).
    destruct (port_eqb q (port_of c) && (n =? Z.log2 (bit_mask c))) eqn:Hh;
      [|reflexivity].
    apply pin_hit in Hh. exfalso. apply (Hmiss i c); [lia|exact Hc|exact Hh].
Qed.

(** The pin of an entry within the rounds ends at the level of its
    round. *)
Lemma for_index_hit k i s j c :
  pins_ok table -> (i + k <= List.length table)%nat ->
  (i <= j < i + k)%nat -> table !! j = Some c ->
  Z.testbit (DOUT31_0 (port_of c) (for_index body k i s))
    (Z.log2 (bit_mask c)) = level j.
Proof.
  intros (Hpins & Hdup) Hlen Hj Hc.
  assert (Hn : 0 <= Z.log2 (bit_mask c) < 32).
  { rewrite Forall_lookup in Hpins. exact (Hpins j c Hc). }
  revert i s Hlen Hj. induction k as [|k IH]; intros i s Hlen Hj; [lia|].
  simpl. destruct (Nat.eq_dec i j) as [->|Hne].
  - rewrite for_index_miss; [|exact Hn|lia|].
    + rewrite (body_drives j c s _ _ Hc Hn).
      destruct (port_eqb _ _ && _) eqn:Hh; [reflexivity|].
      exfalso. apply not_true_iff_false in Hh. apply Hh.
      apply pin_hit. reflexivity.
    + intros j' c' Hj' Hc' Heq.
      assert (Hjj : j' = j); [|lia].
      change (map pin_of table) with (pin_of <$> table) in Hdup.
      rewrite NoDup_alt in Hdup.
      apply (Hdup j' j (pin_of c)).
      * rewrite list_lookup_fmap, Hc'. simpl. f_equal. exact Heq.
      * rewrite list_lookup_fmap, Hc. reflexivity.
  - apply IH; lia.
Qed.

End ForIndex.

(** ** The LEDs and the seven-segment displays *)

Lemma leds_on_loop_for_index n i value s :
  leds_on_loop n i value s = for_index (leds_on_body value) n i s.
Proof. revert i s. induction n as [|n IH]; intros i s; simpl; auto. Qed.

Lemma leds_off_loop_for_index n i s :
  leds_off_loop n i s = for_index led_off n i s.
Proof. revert i s. induction n as [|n IH]; intros i s; simpl; auto. Qed.

Lemma leds_on_body_drives value :
  drives led_config_data (fun i => negb (Z.testbit value (Z.of_nat i)))
    (leds_on_body value).
Proof. intros i c s q n Hc Hn. apply leds_on_body_testbit; assumption. Qed.

Lemma led_off_drives : drives led_config_data (fun _ => true) led_off.
Proof.
  intros i c s q n Hc Hn. unfold led_off. rewrite Hc.
  do 8 (destruct i as [|i];
        [injection Hc as <-;
         apply testbit_DOUT31_0_or; [exact Hn|vm_compute; discriminate]|]).
  discriminate Hc.
Qed.

Lemma led_on_drives : drives led_config_data (fun _ => false) led_on.
Proof.
  intros i c s q n Hc Hn. unfold led_on. rewrite Hc.
  do 8 (destruct i as [|i];
        [injection Hc as <-;
         apply testbit_DOUT31_0_and_not;
         [exact Hn|vm_compute; discriminate]|]).
  discriminate Hc.
Qed.

Lemma seg7_off_drives :
  drives enable_controls (fun _ => false)
    (fun seg7_idx s =>
       match enable_controls !! seg7_idx with
       | Some c =>
           if port_id c =? GPIO_PORTA
           then DOUT31_0_and_not GPIOA (bit_mask c) s
           else DOUT31_0_and_not GPIOB (bit_mask c) s
       | None => s
       end).
Proof.
  intros i c s q n Hc Hn. cbv beta. rewrite Hc.
  do 5 (destruct i as [|i];
        [injection Hc as <-;
         apply testbit_DOUT31_0_and_not;
         [exact Hn|vm_compute; discriminate]|]).
  discriminate Hc.
Qed.

Lemma seg7_off_loop_for_index n i s :
  seg7_off_loop n i s
    = for_index
        (fun seg7_idx s =>
           match enable_controls !! seg7_idx with
           | Some c =>
               if port_id c =? GPIO_PORTA
               then DOUT31_0_and_not GPIOA (bit_mask c) s
               else DOUT31_0_and_not GPIOB (bit_mask c) s
           | None => s
           end) n i s.
Proof. revert i s. induction n as [|n IH]; intros i s; simpl; auto. Qed.

Lemma seg7_dig_enable_testbit seg7_idx c s q n :
  enable_controls !! seg7_idx = Some c -> 0 <= n < 32 ->
  Z.testbit (DOUT31_0 q (seg7_dig_enable seg7_idx s)) n
    = if port_eqb q (port_of c) && (n =? Z.log2 (bit_mask c)) then true
      else Z.testbit (DOUT31_0 q s) n.
Proof.
  intros Hc Hn. unfold seg7_dig_enable. rewrite Hc.
  do 5 (destruct seg7_idx as [|seg7_idx];
        [injection Hc as <-;
         apply testbit_DOUT31_0_or; [exact Hn|vm_compute; discriminate]|]).
  discriminate Hc.
Qed.

Lemma pins_ok_led_config_data : pins_ok led_config_data.
Proof.
  split.
  - repeat constructor; vm_compute; discriminate.
  - refine (bool_decide_unpack (NoDup (map pin_of led_config_data)) _).
    vm_compute. exact Logic.I.
Qed.

Lemma pins_ok_enable_controls : pins_ok enable_controls.
Proof.
  split.
  - repeat constructor; vm_compute; discriminate.
  - refine (bool_decide_unpack (NoDup (map pin_of enable_controls)) _).
    vm_compute. exact Logic.I.
Qed.

(** No enable line shares its pin with an LED. *)
Lemma led_enable_apart i j c c' :
  led_config_data !! i = Some c -> enable_controls !! j = Some c' ->
  pin_of c <> pin_of c'.
Proof.
  intros Hc Hc'.
  do 8 (destruct i as [|i];
        [injection Hc as <-;
         do 5 (destruct j as [|j];
               [injection Hc' as <-; vm_compute; congruence|]);
         discriminate Hc'|]).
  discriminate Hc.
Qed.

Lemma not_in_pins table q n :
  ~ In (q, n) (map pin_of table) ->
  forall j c, table !! j = Some c -> pin_of c <> (q, n).
Proof.
  intros Hout j c Hc Heq. apply Hout. rewrite <- Heq.
  apply in_map. apply list_elem_of_In. eapply list_elem_of_lookup_2.
  exact Hc.
Qed.

Lemma leds_off_loop_as_leds_on n i s :
  leds_off_loop n i s = leds_on_loop n i 0 s.
Proof.
  revert i s. induction n as [|n IH]; intros i s; [reflexivity|].
  simpl. rewrite IH. f_equal.
  unfold leds_on_body, led_off.
  destruct (led_config_data !! i) as [c|]; [|reflexivity].
  rewrite Z.land_0_l.
  assert (Hpos : 0 < Z.shiftl 1 (Z.of_nat i))
    by (rewrite Z.shiftl_1_l; apply Z.pow_pos_nonneg; lia).
  destruct (Z.eqb_spec 0 (Z.shiftl 1 (Z.of_nat i))) as [He|_]; [lia|].
  reflexivity.
Qed.

(** What [leds_on] leaves on the pins. *)
Lemma leds_on_pins (value : Z) (s : gpio_regs) :
  (forall i c,
     led_config_data !! i = Some c ->
     pin_driven_high c (leds_on value s)
       = negb (Z.testbit value (Z.of_nat i))) /\
  (forall q n,
     0 <= n < 32 -> ~ In (q, n) (map pin_of led_config_data) ->
     Z.testbit (DOUT31_0 q (leds_on value s)) n
       = Z.testbit (DOUT31_0 q s) n) /\
  leds_off s = leds_on 0 s.
Proof.
  split; [|split].
  - intros i c Hc. unfold pin_driven_high, leds_on.
    rewrite leds_on_loop_for_index.
    apply (for_index_hit led_config_data _ _ (leds_on_body_drives value)
             MAX_NUM_LEDS 0 s i c pins_ok_led_config_data);
      [reflexivity| |exact Hc].
    apply lookup_lt_Some in Hc. simpl in Hc. unfold MAX_NUM_LEDS. lia.
  - intros q n Hn Hout. unfold leds_on. rewrite leds_on_loop_for_index.
    apply (for_index_miss led_config_data _ _ (leds_on_body_drives value));
      [exact Hn|reflexivity|].
    intros j c _. apply not_in_pins. exact Hout.
  - apply leds_off_loop_as_leds_on.
Qed.

(** X19.  After [leds_on(value)] the pin of each of the eight LEDs of the
    board's table is driven low when its bit of [value] is set and high when
    it is clear (the LEDs are active low: low is lit); no other bit of the
    two output registers changes; bits 8 and up of [value] play no part.
    [leds_off] is [leds_on(0)]. *)
Theorem X19_leds_on_shows_value (value : Z) (s : gpio_regs) :
  (forall i c,
     led_config_data !! i = Some c ->
     pin_driven_high c (leds_on value s)
       = negb (Z.testbit value (Z.of_nat i))) /\
  (forall q n,
     0 <= n < 32 -> ~ In (q, n) (map pin_of led_config_data) ->
     Z.testbit (DOUT31_0 q (leds_on value s)) n
       = Z.testbit (DOUT31_0 q s) n) /\
  leds_off s = leds_on 0 s.
Proof. apply leds_on_pins. Qed.

(** X20.  [led_on] drives the pin of its LED low and [led_off] drives it
    high; neither changes another bit of the two output registers. *)
Theorem X20_led_on_off_one_pin (led_idx : nat) (c : gpio_struct)
    (s : gpio_regs) :
  led_config_data !! led_idx = Some c ->
  pin_driven_high c (led_on led_idx s) = false /\
  pin_driven_high c (led_off led_idx s) = true /\
  (forall q n,
     0 <= n < 32 -> (q, n) <> pin_of c ->
     Z.testbit (DOUT31_0 q (led_on led_idx s)) n
       = Z.testbit (DOUT31_0 q s) n /\
     Z.testbit (DOUT31_0 q (led_off led_idx s)) n
       = Z.testbit (DOUT31_0 q s) n).
Proof.
  intros Hc.
  assert (Hn : 0 <= Z.log2 (bit_mask c) < 32).
  { destruct pins_ok_led_config_data as (Hp & _).
    rewrite Forall_lookup in Hp. exact (Hp _ _ Hc). }
  assert (Hself : port_eqb (port_of c) (port_of c)
                  && (Z.log2 (bit_mask c) =? Z.log2 (bit_mask c)) = true).
  { apply pin_hit. reflexivity. }
  split; [|split].
  - unfold pin_driven_high.
    rewrite (led_on_drives _ _ s _ _ Hc Hn), Hself. reflexivity.
  - unfold pin_driven_high.
    rewrite (led_off_drives _ _ s _ _ Hc Hn), Hself. reflexivity.
  - intros q n Hqn Hne.
    assert (Hmiss : port_eqb q (port_of c) && (n =? Z.log2 (bit_mask c))
                    = false).
    { apply not_true_iff_false. intros Hh. apply pin_hit in Hh.
      apply Hne. symmetry. exact Hh. }
    rewrite (led_on_drives _ _ s _ _ Hc Hqn),
      (led_off_drives _ _ s _ _ Hc Hqn), Hmiss. auto.
Qed.

(** An instance of X20: LED 2, on pin 20 of port B. *)
Lemma X20_led_on_off_one_pin_witness :
  pin_driven_high
    {| port_id := GPIO_PORTB; bit_mask := Z.shiftl 1 20;
       polarity := ACTIVE_LOW |}
    (led_on 2 (sim_regs 0 0xFFFFFFFF)) = false /\
  pin_driven_high
    {| port_id := GPIO_PORTB; bit_mask := Z.shiftl 1 20;
       polarity := ACTIVE_LOW |}
    (led_off 2 (sim_regs 0 0xFFFFFFFF)) = true /\
  (forall q n,
     0 <= n < 32 ->
     (q, n) <> pin_of {| port_id := GPIO_PORTB; bit_mask := Z.shiftl 1 20;
                         polarity := ACTIVE_LOW |} ->
     Z.testbit (DOUT31_0 q (led_on 2 (sim_regs 0 0xFFFFFFFF))) n
       = Z.testbit (DOUT31_0 q (sim_regs 0 0xFFFFFFFF)) n /\
     Z.testbit (DOUT31_0 q (led_off 2 (sim_regs 0 0xFFFFFFFF))) n
       = Z.testbit (DOUT31_0 q (sim_regs 0 0xFFFFFFFF)) n).
Proof.
  apply (X20_led_on_off_one_pin 2). reflexivity.
Defined.

(** The segments after [seg7_on], whatever the digit index. *)
Lemma seg7_on_segments value seg7_idx s i c :
  led_config_data !! i = Some c ->
  pin_driven_high c (seg7_on value seg7_idx s)
    = negb (Z.testbit value (Z.of_nat i)).
Proof.
  intros Hc.
  assert (Hn : 0 <= Z.log2 (bit_mask c) < 32).
  { destruct pins_ok_led_config_data as (Hp & _).
    rewrite Forall_lookup in Hp. exact (Hp _ _ Hc). }
  assert (Hoff : pin_driven_high c (seg7_off (leds_on value s))
                 = negb (Z.testbit value (Z.of_nat i))).
  { unfold pin_driven_high, seg7_off. rewrite seg7_off_loop_for_index.
    rewrite (for_index_miss enable_controls _ _ seg7_off_drives);
      [|exact Hn|simpl; lia|].
    - destruct (leds_on_pins value s) as (H1 & _). exact (H1 i c Hc).
    - intros j c' _ Hc' Heq.
      apply (led_enable_apart _ _ _ _ Hc Hc'). symmetry. exact Heq. }
  unfold seg7_on. cbv zeta.
  destruct (enable_controls !! seg7_idx) as [ce|] eqn:Hce.
  - unfold pin_driven_high in *.
    rewrite (seg7_dig_enable_testbit _ _ _ _ _ Hce Hn).
    destruct (port_eqb _ _ && _) eqn:Hh; [|exact Hoff].
    apply pin_hit in Hh. exfalso.
    apply (led_enable_apart _ _ _ _ Hc Hce). symmetry. exact Hh.
  - unfold seg7_dig_enable. rewrite Hce. exact Hoff.
Qed.

(** X21.  After [seg7_on(value, seg7_idx)] with [seg7_idx] one of the
    four digits: the segment pins show [value] as after [leds_on]; of the
    four digit enable lines exactly that of [seg7_idx] is high; the enable
    line of the LED bar is as it was. *)
Theorem X21_seg7_on_one_digit (value : Z) (seg7_idx : nat) (s : gpio_regs) :
  (seg7_idx < 4)%nat ->
  (forall i c,
     led_config_data !! i = Some c ->
     pin_driven_high c (seg7_on value seg7_idx s)
       = negb (Z.testbit value (Z.of_nat i))) /\
  (forall j c,
     (j < 4)%nat -> enable_controls !! j = Some c ->
     pin_driven_high c (seg7_on value seg7_idx s) = Nat.eqb j seg7_idx) /\
  (forall c,
     enable_controls !! LED_BAR_ENABLE_IDX = Some c ->
     pin_driven_high c (seg7_on value seg7_idx s) = pin_driven_high c s).
Proof.
  intros Hidx.
  destruct (lookup_lt_is_Some_2 enable_controls seg7_idx
              ltac:(simpl; lia)) as (ce & Hce).
  assert (Hpin : forall k c, enable_controls !! k = Some c ->
                             0 <= Z.log2 (bit_mask c) < 32).
  { destruct pins_ok_enable_controls as (Hp & _).
    rewrite Forall_lookup in Hp. exact Hp. }
  assert (Hdup : forall k k' c c',
            enable_controls !! k = Some c -> enable_controls !! k' = Some c' ->
            pin_of c = pin_of c' -> k = k').
  { destruct pins_ok_enable_controls as (_ & Hd).
    change (map pin_of enable_controls) with (pin_of <$> enable_controls)
      in Hd.
    rewrite NoDup_alt in Hd. intros k k' c c' Hk Hk' Heq.
    apply (Hd k k' (pin_of c)).
    - rewrite list_lookup_fmap, Hk. reflexivity.
    - rewrite list_lookup_fmap, Hk'. simpl. f_equal. symmetry. exact Heq. }
  split; [|split]; [|unfold seg7_on, seg7_off; cbv zeta..].
  - intros i c Hc. apply (seg7_on_segments value seg7_idx s i c Hc).
  - intros j c Hj Hc. pose proof (Hpin _ _ Hc) as Hn.
    unfold pin_driven_high.
    rewrite (seg7_dig_enable_testbit _ _ _ _ _ Hce Hn).
    destruct (port_eqb _ _ && _) eqn:Hh.
    + apply pin_hit in Hh.
      rewrite (Hdup _ _ _ _ Hce Hc Hh). symmetry. apply Nat.eqb_refl.
    + rewrite seg7_off_loop_for_index.
      rewrite (for_index_hit enable_controls _ _ seg7_off_drives 4 0 _ j c
                 pins_ok_enable_controls); [|simpl; lia|lia|exact Hc].
      symmetry. apply Nat.eqb_neq. intros ->.
      rewrite Hce in Hc. injection Hc as ->.
      apply not_true_iff_false in Hh. apply Hh. apply pin_hit. reflexivity.
  - intros c Hc. pose proof (Hpin _ _ Hc) as Hn.
    unfold pin_driven_high.
    rewrite (seg7_dig_enable_testbit _ _ _ _ _ Hce Hn).
    destruct (port_eqb _ _ && _) eqn:Hh.
    { apply pin_hit in Hh. pose proof (Hdup _ _ _ _ Hce Hc Hh) as Hk.
      unfold LED_BAR_ENABLE_IDX in Hk. lia. }
    rewrite seg7_off_loop_for_index.
    rewrite (for_index_miss enable_controls _ _ seg7_off_drives);
      [|exact Hn|simpl; lia|].
    + destruct (leds_on_pins value s) as (_ & H2 & _).
      apply H2; [exact Hn|].
      intros Hin. apply in_map_iff in Hin as (c' & Heq & Hin).
      apply list_elem_of_In, list_elem_of_lookup_1 in Hin as (i & Hi).
      apply (led_enable_apart _ _ _ _ Hi Hc). exact Heq.
    + intros j c' Hj Hc' Heq.
      pose proof (Hdup _ _ _ _ Hc' Hc Heq) as Hk.
      unfold LED_BAR_ENABLE_IDX in Hk. lia.
Qed.

(** An instance of X21: the pattern of the digit 2 on display 1. *)
Lemma X21_seg7_on_one_digit_witness :
  (forall i c,
     led_config_data !! i = Some c ->
     pin_driven_high c (seg7_on 0x5B 1 (sim_regs 0 0))
       = negb (Z.testbit 0x5B (Z.of_nat i))) /\
  (forall j c,
     (j < 4)%nat -> enable_controls !! j = Some c ->
     pin_driven_high c (seg7_on 0x5B 1 (sim_regs 0 0)) = Nat.eqb j 1) /\
  (forall c,
     enable_controls !! LED_BAR_ENABLE_IDX = Some c ->
     pin_driven_high c (seg7_on 0x5B 1 (sim_regs 0 0))
       = pin_driven_high c (sim_regs 0 0)).
Proof.
  apply (X21_seg7_on_one_digit 0x5B 1). lia.
Defined.

(** The patterns of [seg7_hex]. *)
Lemma seg7_hex_segments hex_idx seg7_dig s i c :
  (hex_idx < 16)%nat -> led_config_data !! i = Some c ->
  pin_driven_high c (seg7_hex hex_idx seg7_dig s)
    = negb
        (Z.testbit
           (nth hex_idx
              [ 0x3F; 0x06; 0x5B; 0x4F; 0x66; 0x6D; 0x7D; 0x07;
                0x7F; 0x6F; 0x77; 0x7C; 0x39; 0x5E; 0x79; 0x71 ] 0)
           (Z.of_nat i)).
Proof.
  intros Hh Hc. unfold seg7_hex. cbv zeta.
  do 16 (destruct hex_idx as [|hex_idx];
         [apply (seg7_on_segments _ seg7_dig s i c Hc)|]).
  lia.
Qed.

(** X22.  [seg7_hex] shows sixteen different patterns: two digits that
    leave the eight segment pins at the same levels are the same digit.  No
    pattern lights the eighth segment, the decimal point: its pin is always
    left high. *)
Theorem X22_seg7_hex_patterns_differ (h1 h2 seg7_dig : nat)
    (s : gpio_regs) :
  (h1 < 16)%nat -> (h2 < 16)%nat ->
  ((forall i c,
      led_config_data !! i = Some c ->
      pin_driven_high c (seg7_hex h1 seg7_dig s)
        = pin_driven_high c (seg7_hex h2 seg7_dig s)) ->
   h1 = h2) /\
  (forall c,
     led_config_data !! 7%nat = Some c ->
     pin_driven_high c (seg7_hex h1 seg7_dig s) = true).
Proof.
  intros H1 H2. split.
  - intros Hsame.
    assert (Hbits : forall i, (i < 8)%nat ->
              Z.testbit
                (nth h1 [ 0x3F; 0x06; 0x5B; 0x4F; 0x66; 0x6D; 0x7D; 0x07;
                          0x7F; 0x6F; 0x77; 0x7C; 0x39; 0x5E; 0x79; 0x71 ] 0)
                (Z.of_nat i)
              = Z.testbit
                  (nth h2 [ 0x3F; 0x06; 0x5B; 0x4F; 0x66; 0x6D; 0x7D; 0x07;
                            0x7F; 0x6F; 0x77; 0x7C; 0x39; 0x5E; 0x79; 0x71 ]
                     0)
                  (Z.of_nat i)).
    { intros i Hi.
      destruct (lookup_lt_is_Some_2 led_config_data i ltac:(simpl; lia))
        as (c & Hc).
      pose proof (Hsame i c Hc) as He.
      rewrite (seg7_hex_segments h1 _ _ _ _ H1 Hc),
        (seg7_hex_segments h2 _ _ _ _ H2 Hc) in He.
      destruct (Z.testbit _ _), (Z.testbit _ _); simpl in He;
        congruence. }
    pose proof (Hbits 0%nat ltac:(lia)) as B0.
    pose proof (Hbits 1%nat ltac:(lia)) as B1.
    pose proof (Hbits 2%nat ltac:(lia)) as B2.
    pose proof (Hbits 3%nat ltac:(lia)) as B3.
    pose proof (Hbits 4%nat ltac:(lia)) as B4.
    pose proof (Hbits 5%nat ltac:(lia)) as B5.
    pose proof (Hbits 6%nat ltac:(lia)) as B6.
    clear Hbits Hsame.
    do 16 (destruct h1 as [|h1];
           [do 16 (destruct h2 as [|h2];
                   [first [reflexivity
                          |vm_compute in B0, B1, B2, B3, B4, B5, B6;
                           congruence]|]);
            lia|]).
    lia.
  - intros c Hc. rewrite (seg7_hex_segments h1 _ _ _ _ H1 Hc).
    do 16 (destruct h1 as [|h1]; [reflexivity|]). lia.
Qed.

(** An instance of X22: the digits 1 and 7 on display 0. *)
Lemma X22_seg7_hex_patterns_differ_witness :
  ((forall i c,
      led_config_data !! i = Some c ->
      pin_driven_high c (seg7_hex 1 0 (sim_regs 0 0))
        = pin_driven_high c (seg7_hex 7 0 (sim_regs 0 0))) ->
   1%nat = 7%nat) /\
  (forall c,
     led_config_data !! 7%nat = Some c ->
     pin_driven_high c (seg7_hex 1 0 (sim_regs 0 0)) = true).
Proof.
  apply (X22_seg7_hex_patterns_differ 1 7 0 (sim_regs 0 0)); lia.
Defined.

Lemma leds_enable_testbit c s q n :
  enable_controls !! LED_BAR_ENABLE_IDX = Some c -> 0 <= n < 32 ->
  Z.testbit (DOUT31_0 q (leds_enable s)) n
    = (if port_eqb q (port_of c) && (n =? Z.log2 (bit_mask c)) then true
       else Z.testbit (DOUT31_0 q s) n) /\
  Z.testbit (DOUT31_0 q (leds_disable s)) n
    = (if port_eqb q (port_of c) && (n =? Z.log2 (bit_mask c)) then false
       else Z.testbit (DOUT31_0 q s) n).
Proof.
  intros Hc Hn. unfold leds_enable, leds_disable. rewrite Hc.
  injection Hc as <-. split.
  - apply testbit_DOUT31_0_or; [exact Hn|vm_compute; discriminate].
  - apply testbit_DOUT31_0_and_not; [exact Hn|vm_compute; discriminate].
Qed.

(** X23.  [leds_enable] drives the enable line of the LED bar high and
    [leds_disable] drives it low; neither changes another bit of the two
    output registers, so the LEDs keep the pattern they were given. *)
Theorem X23_leds_enable_one_pin (c : gpio_struct) (s : gpio_regs) :
  enable_controls !! LED_BAR_ENABLE_IDX = Some c ->
  pin_driven_high c (leds_enable s) = true /\
  pin_driven_high c (leds_disable s) = false /\
  (forall q n,
     0 <= n < 32 -> (q, n) <> pin_of c ->
     Z.testbit (DOUT31_0 q (leds_enable s)) n = Z.testbit (DOUT31_0 q s) n /\
     Z.testbit (DOUT31_0 q (leds_disable s)) n
       = Z.testbit (DOUT31_0 q s) n) /\
  (forall i c',
     led_config_data !! i = Some c' ->
     pin_driven_high c' (leds_enable s) = pin_driven_high c' s /\
     pin_driven_high c' (leds_disable s) = pin_driven_high c' s).
Proof.
  intros Hc.
  assert (Hn : 0 <= Z.log2 (bit_mask c) < 32).
  { destruct pins_ok_enable_controls as (Hp & _).
    rewrite Forall_lookup in Hp. exact (Hp _ _ Hc). }
  assert (Hself : port_eqb (port_of c) (port_of c)
                  && (Z.log2 (bit_mask c) =? Z.log2 (bit_mask c)) = true).
  { apply pin_hit. reflexivity. }
  assert (Hframe : forall q n,
            0 <= n < 32 -> (q, n) <> pin_of c ->
            Z.testbit (DOUT31_0 q (leds_enable s)) n
              = Z.testbit (DOUT31_0 q s) n /\
            Z.testbit (DOUT31_0 q (leds_disable s)) n
              = Z.testbit (DOUT31_0 q s) n).
  { intros q n Hqn Hne.
    assert (Hmiss : port_eqb q (port_of c) && (n =? Z.log2 (bit_mask c))
                    = false).
    { apply not_true_iff_false. intros Hh. apply pin_hit in Hh.
      apply Hne. symmetry. exact Hh. }
    destruct (leds_enable_testbit c s q n Hc Hqn) as (-> & ->).
    rewrite Hmiss. auto. }
  split; [|split; [|split]].
  - unfold pin_driven_high.
    rewrite (proj1 (leds_enable_testbit c s _ _ Hc Hn)), Hself. reflexivity.
  - unfold pin_driven_high.
    rewrite (proj2 (leds_enable_testbit c s _ _ Hc Hn)), Hself. reflexivity.
  - exact Hframe.
  - intros i c' Hc'. unfold pin_driven_high. apply Hframe.
    + destruct pins_ok_led_config_data as (Hp & _).
      rewrite Forall_lookup in Hp. exact (Hp _ _ Hc').
    + intros Heq. apply (led_enable_apart _ _ _ _ Hc' Hc). exact Heq.
Qed.

(** An instance of X23: the enable line, pin 18 of port A. *)
Lemma X23_leds_enable_one_pin_witness :
  pin_driven_high
    {| port_id := GPIO_PORTA; bit_mask := Z.shiftl 1 18;
       polarity := ACTIVE_HIGH |}
    (leds_enable (sim_regs 0 0)) = true /\
  pin_driven_high
    {| port_id := GPIO_PORTA; bit_mask := Z.shiftl 1 18;
       polarity := ACTIVE_HIGH |}
    (leds_disable (sim_regs 0 0)) = false /\
  (forall q n,
     0 <= n < 32 ->
     (q, n) <> pin_of {| port_id := GPIO_PORTA; bit_mask := Z.shiftl 1 18;
                         polarity := ACTIVE_HIGH |} ->
     Z.testbit (DOUT31_0 q (leds_enable (sim_regs 0 0))) n
       = Z.testbit (DOUT31_0 q (sim_regs 0 0)) n /\
     Z.testbit (DOUT31_0 q (leds_disable (sim_regs 0 0))) n
       = Z.testbit (DOUT31_0 q (sim_regs 0 0)) n) /\
  (forall i c',
     led_config_data !! i = Some c' ->
     pin_driven_high c' (leds_enable (sim_regs 0 0))
       = pin_driven_high c' (sim_regs 0 0) /\
     pin_driven_high c' (leds_disable (sim_regs 0 0))
       = pin_driven_high c' (sim_regs 0 0)).
Proof.
  apply (X23_leds_enable_one_pin _ (sim_regs 0 0)). reflexivity.
Defined.

(** ** The switches *)
Section SwitchFacts.
Context {G : gpio_inputs}.

(** The mask test of an entry whose mask is one bit. *)
Lemma din_bit_reads c s :
  bit_mask c = Z.shiftl 1 (Z.log2 (bit_mask c)) ->
  0 <= Z.log2 (bit_mask c) ->
  din_bit c s = Z.b2z (pin_reads_high c s).
Proof.
  intros Hm Hp. unfold din_bit, pin_reads_high, port_of.
  set (p := Z.log2 (bit_mask c)) in *. rewrite Hm.
  destruct (port_id c =? GPIO_PORTA);
    rewrite mask_test_testbit by exact Hp; reflexivity.
Qed.

Lemma dip_switch_din_bit i c s :
  dip_switch_config_data !! i = Some c ->
  din_bit c s = Z.b2z (pin_reads_high c s) /\ polarity c = ACTIVE_LOW.
Proof.
  intros Hc.
  do 4 (destruct i as [|i];
        [injection Hc as <-;
         split; [apply din_bit_reads; vm_compute; congruence|reflexivity]|]).
  discriminate Hc.
Qed.

Lemma lp_switch_din_bit i c s :
  lp_switch_config_data !! i = Some c ->
  din_bit c s = Z.b2z (pin_reads_high c s).
Proof.
  intros Hc.
  do 2 (destruct i as [|i];
        [injection Hc as <-; apply din_bit_reads; vm_compute; congruence|]).
  discriminate Hc.
Qed.

Lemma kp_row_din_bit i c s :
  kp_row_config_data !! i = Some c ->
  din_bit c s = Z.b2z (pin_reads_high c s).
Proof.
  intros Hc.
  do 4 (destruct i as [|i];
        [injection Hc as <-; apply din_bit_reads; vm_compute; congruence|]).
  discriminate Hc.
Qed.

(** [dipsw_read] puts switch 0 in bit 3, switch 1 in bit 2, switch 2 in
    bit 1 and switch 3 in bit 0. *)
Lemma dipsw_read_word s :
  exists b0 b1 b2 b3 c0 c1 c2 c3,
    dip_switch_config_data = [c0; c1; c2; c3] /\
    b0 = pin_reads_high c0 s /\ b1 = pin_reads_high c1 s /\
    b2 = pin_reads_high c2 s /\ b3 = pin_reads_high c3 s /\
    dipsw_read s
      = 8 * Z.b2z b0 + 4 * Z.b2z b1 + 2 * Z.b2z b2 + Z.b2z b3.
Proof.
  do 4 eexists. do 4 eexists.
  split; [reflexivity|]. do 4 (split; [reflexivity|]).
  unfold dipsw_read. change (Z.to_nat MAX_NUM_DIPSW) with 4%nat.
  cbn [dipsw_read_loop dip_switch_config_data lookup list_lookup].
  rewrite (proj1 (dip_switch_din_bit 0 _ s eq_refl)),
    (proj1 (dip_switch_din_bit 1 _ s eq_refl)),
    (proj1 (dip_switch_din_bit 2 _ s eq_refl)),
    (proj1 (dip_switch_din_bit 3 _ s eq_refl)).
  destruct (pin_reads_high _ s), (pin_reads_high _ s),
    (pin_reads_high _ s), (pin_reads_high _ s); reflexivity.
Qed.

End SwitchFacts.

(** X24.  What the switch functions report.  [dipsw_read] returns a value
    below 16 whose bit [3 - i] is the level read on the pin of switch [i];
    [is_pb_down] reports that same level and [is_pb_up] its opposite, so
    never both; [is_lpsw_down] reports the level read on the pin of its
    switch whatever the polarity in the table, and [is_lpsw_up] its
    opposite. *)
Theorem X24_switch_reads (G : gpio_inputs) (s : gpio_regs) :
  0 <= dipsw_read s < 16 /\
  (forall i c,
     dip_switch_config_data !! i = Some c ->
     Z.testbit (dipsw_read s) (3 - Z.of_nat i) = pin_reads_high c s /\
     is_pb_down i s = pin_reads_high c s /\
     is_pb_up i s = negb (pin_reads_high c s)) /\
  (forall i c,
     lp_switch_config_data !! i = Some c ->
     is_lpsw_down i s = pin_reads_high c s /\
     is_lpsw_up i s = negb (pin_reads_high c s)).
Proof.
  destruct (dipsw_read_word s)
    as (b0 & b1 & b2 & b3 & c0 & c1 & c2 & c3 & Ht & -> & -> & -> & -> & Hw).
  split; [|split].
  - rewrite Hw.
    destruct (pin_reads_high c0 s), (pin_reads_high c1 s),
      (pin_reads_high c2 s), (pin_reads_high c3 s); simpl; lia.
  - intros i c Hc.
    destruct (dip_switch_din_bit i c s Hc) as (Hb & Hpol).
    split; [|split].
    + rewrite Hw. rewrite Ht in Hc.
      do 4 (destruct i as [|i];
            [injection Hc as <-;
             destruct (pin_reads_high c0 s), (pin_reads_high c1 s),
               (pin_reads_high c2 s), (pin_reads_high c3 s); reflexivity|]).
      discriminate Hc.
    + unfold is_pb_down. rewrite Hc. cbv zeta. rewrite Hb, Hpol.
      destruct (pin_reads_high c s); reflexivity.
    + unfold is_pb_up. rewrite Hc. cbv zeta. rewrite Hb, Hpol.
      destruct (pin_reads_high c s); reflexivity.
  - intros i c Hc. pose proof (lp_switch_din_bit i c s Hc) as Hb.
    unfold is_lpsw_down, is_lpsw_up. rewrite Hc. cbv zeta. rewrite Hb.
    destruct (pin_reads_high c s); split; reflexivity.
Qed.

(** ** The keypad *)

(** The level the code extracts for a column: [(data & mask) >> col_num]
    with the mask of that round. *)
Lemma keycol_bit data col :
  0 <= col < 8 ->
  negb (u8 (Z.shiftr (Z.land data (Z.shiftl 1 col)) col) =? 0)
    = Z.testbit data col.
Proof.
  intros Hc. rewrite land_shiftl1 by lia.
  destruct (Z.testbit data col).
  - rewrite Z.shiftr_shiftl_l, Z.sub_diag by lia. reflexivity.
  - rewrite Z.shiftr_0_l. reflexivity.
Qed.

Lemma write_keycol_round_drives data :
  drives kp_col_config_data (fun i => Z.testbit data (Z.of_nat i))
    (write_keycol_round data).
Proof.
  intros i c s q n Hc Hn. unfold write_keycol_round, write_keycol_loop.
  rewrite Hc. rewrite keycol_bit by (apply lookup_lt_Some in Hc; simpl in Hc; lia).
  do 4 (destruct i as [|i];
        [injection Hc as <-;
         apply testbit_clear_then_set; [exact Hn|vm_compute; discriminate]|]).
  discriminate Hc.
Qed.

Lemma write_keycol_loop_rounds n i data s :
  (i + n <= 4)%nat ->
  write_keycol_loop n i data (Z.shiftl 1 (Z.of_nat i)) s
    = for_index (write_keycol_round data) n i s.
Proof.
  revert i s. induction n as [|n IH]; intros i s Hi; [reflexivity|].
  destruct (lookup_lt_is_Some_2 kp_col_config_data i ltac:(simpl; lia))
    as (c & Hc).
  assert (Hmask : u8 (Z.shiftl (Z.shiftl 1 (Z.of_nat i)) 1)
                  = Z.shiftl 1 (Z.of_nat (S i))).
  { rewrite Z.shiftl_shiftl by lia.
    replace (Z.of_nat i + 1) with (Z.of_nat (S i)) by lia.
    rewrite Z.shiftl_1_l. unfold u8. apply Z.mod_small.
    split; [apply Z.pow_nonneg; lia|].
    apply Z.pow_lt_mono_r; lia. }
  simpl for_index. rewrite <- IH by lia.
  unfold write_keycol_round.
  cbn [write_keycol_loop]. rewrite Hc, Hmask. reflexivity.
Qed.

Lemma pins_ok_kp_col_config_data : pins_ok kp_col_config_data.
Proof.
  split.
  - repeat constructor; vm_compute; discriminate.
  - refine (bool_decide_unpack (NoDup (map pin_of kp_col_config_data)) _).
    vm_compute. exact Logic.I.
Qed.

(** The columns after [write_keycol_data]. *)
Lemma write_keycol_data_pins data s :
  (forall col c,
     kp_col_config_data !! col = Some c ->
     pin_driven_high c (write_keycol_data data s)
       = Z.testbit data (Z.of_nat col)) /\
  (forall q n,
     0 <= n < 32 -> ~ In (q, n) (map pin_of kp_col_config_data) ->
     Z.testbit (DOUT31_0 q (write_keycol_data data s)) n
       = Z.testbit (DOUT31_0 q s) n).
Proof.
  unfold write_keycol_data, MAX_NUM_KP_COLS.
  change 0x01 with (Z.shiftl 1 (Z.of_nat 0)).
  rewrite write_keycol_loop_rounds by lia.
  split.
  - intros col c Hc. unfold pin_driven_high.
    apply (for_index_hit kp_col_config_data _ _
             (write_keycol_round_drives data) 4 0 s col c
             pins_ok_kp_col_config_data); [reflexivity| |exact Hc].
    apply lookup_lt_Some in Hc. simpl in Hc. lia.
  - intros q n Hn Hout.
    apply (for_index_miss kp_col_config_data _ _
             (write_keycol_round_drives data)); [exact Hn|reflexivity|].
    intros j c _. apply not_in_pins. exact Hout.
Qed.

Section KeypadFacts.
Context {G : gpio_inputs}.

(** The word of [read_keyrow_data]: row [r] in bit [r]. *)
Lemma read_keyrow_data_word s :
  exists c0 c1 c2 c3,
    kp_row_config_data = [c0; c1; c2; c3] /\
    read_keyrow_data s
      = Z.lor (Z.lor (Z.lor (din_bit c0 s) (Z.shiftl (din_bit c1 s) 1))
                 (Z.shiftl (din_bit c2 s) 2))
          (Z.shiftl (din_bit c3 s) 3).
Proof.
  do 4 eexists. split; [reflexivity|].
  unfold read_keyrow_data, MAX_NUM_KP_ROWS.
  cbn [read_keyrow_loop kp_row_config_data lookup list_lookup].
  rewrite (kp_row_din_bit 0 _ s eq_refl), (kp_row_din_bit 1 _ s eq_refl),
    (kp_row_din_bit 2 _ s eq_refl), (kp_row_din_bit 3 _ s eq_refl).
  destruct (pin_reads_high _ s), (pin_reads_high _ s),
    (pin_reads_high _ s), (pin_reads_high _ s); reflexivity.
Qed.

(** With the columns just written, the rows show what the closed keys
    make of the low nibble of the code. *)
Lemma read_after_write pressed code s :
  row_reads_high pressed (write_keycol_data code s) ->
  read_keyrow_data (write_keycol_data code s) = rows_seen pressed code.
Proof.
  intros Hrows.
  destruct (read_keyrow_data_word (write_keycol_data code s))
    as (c0 & c1 & c2 & c3 & Ht & ->).
  assert (Hlow : forall row,
            row_pulled_low pressed (write_keycol_data code s) row
            = existsb
                (fun col =>
                   pressed row col && negb (Z.testbit code (Z.of_nat col)))
                (seq 0 4)).
  { intros row. unfold row_pulled_low.
    destruct (write_keycol_data_pins code s) as (Hcols & _).
    cbn [existsb seq kp_col_config_data lookup list_lookup].
    rewrite (Hcols 0%nat _ eq_refl), (Hcols 1%nat _ eq_refl),
      (Hcols 2%nat _ eq_refl), (Hcols 3%nat _ eq_refl).
    reflexivity. }
  rewrite (Hrows 0%nat c0), (Hrows 1%nat c1), (Hrows 2%nat c2),
    (Hrows 3%nat c3) by (rewrite Ht; reflexivity).
  rewrite !Hlow. reflexivity.
Qed.

Lemma keypad_scan_loop_keys pressed n key s :
  (forall s', row_reads_high pressed s') ->
  (keypad_scan_loop n key s).1 = scan_keys pressed n key.
Proof.
  intros Hrows. revert key s. induction n as [|n IH]; intros key s.
  - reflexivity.
  - simpl. destruct (keycodes !! key) as [code|]; [|reflexivity].
    rewrite (read_after_write pressed) by apply Hrows.
    destruct (rows_seen pressed code =? _); [reflexivity|apply IH].
Qed.

Lemma getkey_pressed_found fuel s :
  (keypad_scan s).1 <> NO_KEY_PRESSED ->
  getkey_pressed (S fuel) s = Some (keypad_scan s).
Proof.
  intros Hk. simpl. destruct (keypad_scan s) as [key s'].
  apply Z.eqb_neq in Hk. simpl in Hk. rewrite Hk. reflexivity.
Qed.

Lemma getkey_pressed_none fuel s :
  (forall s', (keypad_scan s').1 = NO_KEY_PRESSED) ->
  getkey_pressed fuel s = None.
Proof.
  intros Hk. revert s. induction fuel as [|fuel IH]; intros s;
    [reflexivity|].
  simpl. pose proof (Hk s) as Hs. destruct (keypad_scan s) as [key s'].
  simpl in Hs. rewrite Hs, Z.eqb_refl. apply IH.
Qed.

Lemma wait_no_key_pressed_none fuel s :
  (forall s', (keypad_scan s').1 <> NO_KEY_PRESSED) ->
  wait_no_key_pressed fuel s = None.
Proof.
  intros Hk. revert s. induction fuel as [|fuel IH]; intros s;
    [reflexivity|].
  simpl. pose proof (Hk s) as Hs. destruct (keypad_scan s) as [key s'].
  simpl in Hs. apply Z.eqb_neq in Hs. rewrite Hs. apply IH.
Qed.

End KeypadFacts.

(** The example keypad is a keypad. *)
Lemma sim_keypad_rows pressed s :
  row_reads_high (G:=sim_keypad pressed) pressed s.
Proof.
  intros row c Hc. unfold din_bit.
  do 4 (destruct row as [|row];
        [injection Hc as <-;
         cbn [port_id bit_mask DIN31_0 sim_keypad kp_row_config_data lookup
              list_lookup];
         destruct (row_pulled_low pressed s 0),
           (row_pulled_low pressed s 1), (row_pulled_low pressed s 2),
           (row_pulled_low pressed s 3); reflexivity|]).
  discriminate Hc.
Qed.

(** X25.  [write_keycol_data] drives column [col] high when bit [col] of
    [data] is set and low when it is clear, and changes no other bit of the
    output registers; the high nibble of [data] plays no part.
    [read_keyrow_data] returns a value below 16 whose bit [row] is the level
    read on the pin of that row: 1 for a row that reads high. *)
Theorem X25_keypad_columns_and_rows (G : gpio_inputs) (data : Z)
    (s : gpio_regs) :
  (forall col c,
     kp_col_config_data !! col = Some c ->
     pin_driven_high c (write_keycol_data data s)
       = Z.testbit data (Z.of_nat col)) /\
  (forall q n,
     0 <= n < 32 -> ~ In (q, n) (map pin_of kp_col_config_data) ->
     Z.testbit (DOUT31_0 q (write_keycol_data data s)) n
       = Z.testbit (DOUT31_0 q s) n) /\
  0 <= read_keyrow_data s < 16 /\
  (forall row c,
     kp_row_config_data !! row = Some c ->
     Z.testbit (read_keyrow_data s) (Z.of_nat row) = pin_reads_high c s).
Proof.
  destruct (write_keycol_data_pins data s) as (Hw1 & Hw2).
  split; [exact Hw1|]. split; [exact Hw2|].
  destruct (read_keyrow_data_word s) as (c0 & c1 & c2 & c3 & Ht & ->).
  rewrite (kp_row_din_bit 0 c0 s), (kp_row_din_bit 1 c1 s),
    (kp_row_din_bit 2 c2 s), (kp_row_din_bit 3 c3 s)
    by (rewrite Ht; reflexivity).
  split.
  - destruct (pin_reads_high c0 s), (pin_reads_high c1 s),
      (pin_reads_high c2 s), (pin_reads_high c3 s);
      vm_compute; split; (discriminate || reflexivity).
  - intros row c Hc. rewrite Ht in Hc.
    do 4 (destruct row as [|row];
          [injection Hc as <-;
           destruct (pin_reads_high c0 s), (pin_reads_high c1 s),
             (pin_reads_high c2 s), (pin_reads_high c3 s); reflexivity|]).
    discriminate Hc.
Qed.

(** X26.  On a keypad with exactly the key at row [row], column [col]
    closed, [keypad_scan] returns the index of that key, which is its hex
    digit in the layout 1 2 3 A / 4 5 6 B / 7 8 9 C / E 0 F D; the key code
    of that index has column [col] and row [row] low and every other bit
    high.  [getkey_pressed] returns that index after one scan, and
    [wait_no_key_pressed] does not return while the key stays closed. *)
Theorem X26_keypad_scan_finds_key (G : gpio_inputs) (row col : nat)
    (s : gpio_regs) :
  (row < 4)%nat -> (col < 4)%nat ->
  (forall s', row_reads_high (fun r c => Nat.eqb r row && Nat.eqb c col) s') ->
  (keypad_scan s).1 = key_at row col /\
  keycodes !! Z.to_nat (key_at row col)
    = Some (0xFF - Z.shiftl 1 (Z.of_nat col)
            - Z.shiftl 1 (4 + Z.of_nat row)) /\
  (forall fuel, getkey_pressed (S fuel) s = Some (keypad_scan s)) /\
  (forall fuel, wait_no_key_pressed fuel s = None).
Proof.
  intros Hrow Hcol Hrows.
  assert (Hscan : forall s', (keypad_scan s').1 = key_at row col).
  { intros s'. unfold keypad_scan.
    rewrite (keypad_scan_loop_keys _ _ _ _ Hrows).
    destruct row as [|[|[|[|]]]]; try lia;
      destruct col as [|[|[|[|]]]]; try lia; vm_compute; reflexivity. }
  assert (Hkey : key_at row col <> NO_KEY_PRESSED).
  { destruct row as [|[|[|[|]]]]; try lia;
      destruct col as [|[|[|[|]]]]; try lia; vm_compute; discriminate. }
  split; [apply Hscan|]. split; [|split].
  - destruct row as [|[|[|[|]]]]; try lia;
      destruct col as [|[|[|[|]]]]; try lia; reflexivity.
  - intros fuel. apply getkey_pressed_found. rewrite Hscan. exact Hkey.
  - intros fuel. apply wait_no_key_pressed_none.
    intros s'. rewrite Hscan. exact Hkey.
Qed.

(** An instance of X26: the key 8, at row 2 and column 1. *)
Lemma X26_keypad_scan_finds_key_witness :
  (keypad_scan (G:=sim_keypad (fun r c => Nat.eqb r 2 && Nat.eqb c 1))
     (sim_regs 0 0)).1 = 8 /\
  keycodes !! 8%nat = Some 0xBD /\
  (forall fuel,
     getkey_pressed (G:=sim_keypad (fun r c => Nat.eqb r 2 && Nat.eqb c 1))
       (S fuel) (sim_regs 0 0)
     = Some (keypad_scan
               (G:=sim_keypad (fun r c => Nat.eqb r 2 && Nat.eqb c 1))
               (sim_regs 0 0))) /\
  (forall fuel,
     wait_no_key_pressed
       (G:=sim_keypad (fun r c => Nat.eqb r 2 && Nat.eqb c 1)) fuel
       (sim_regs 0 0) = None).
Proof.
  apply (X26_keypad_scan_finds_key
           (sim_keypad (fun r c => Nat.eqb r 2 && Nat.eqb c 1)) 2 1
           (sim_regs 0 0)).
  - lia.
  - lia.
  - intros s'. apply sim_keypad_rows.
Defined.

(** X27.  On a keypad with no key closed [keypad_scan] tries all sixteen
    key codes and returns [NO_KEY_PRESSED]; it leaves the columns carrying
    the low nibble of the last key code.  [wait_no_key_pressed] returns after
    one scan, and [getkey_pressed] does not return however many scans it is
    allowed. *)
Theorem X27_keypad_scan_no_key (G : gpio_inputs) (s : gpio_regs) :
  (forall s', row_reads_high (fun _ _ => false) s') ->
  (keypad_scan s).1 = NO_KEY_PRESSED /\
  (forall col c,
     kp_col_config_data !! col = Some c ->
     pin_driven_high c (keypad_scan s).2 = Z.testbit 0x7B (Z.of_nat col)) /\
  (forall fuel, wait_no_key_pressed (S fuel) s = Some (keypad_scan s).2) /\
  (forall fuel, getkey_pressed fuel s = None).
Proof.
  intros Hrows.
  assert (Hscan : forall s', (keypad_scan s').1 = NO_KEY_PRESSED).
  { intros s'. unfold keypad_scan.
    rewrite (keypad_scan_loop_keys _ _ _ _ Hrows). vm_compute. reflexivity. }
  split; [apply Hscan|]. split; [|split].
  - assert (Hlast : exists s', (keypad_scan s).2 = write_keycol_data 0x7B s').
    { unfold keypad_scan, MAX_NUM_KEYPAD_KEYS.
      assert (Hstep : forall n key code s0,
                keycodes !! key = Some code ->
                keypad_scan_loop (S n) key s0
                = keypad_scan_loop n (S key) (write_keycol_data code s0)).
      { intros n key code s0 Hcode. simpl. rewrite Hcode.
        rewrite (read_after_write (fun _ _ => false)) by apply Hrows.
        replace (rows_seen (fun _ _ => false) code) with 15
          by reflexivity.
        destruct (Z.eqb_spec 15 (Z.shiftr (Z.land code 0xF0) 4)) as [He|_];
          [|reflexivity].
        exfalso.
        do 16 (destruct key as [|key];
               [injection Hcode as <-; vm_compute in He; discriminate He|]).
        discriminate Hcode. }
      do 15 (erewrite Hstep by reflexivity).
      simpl keypad_scan_loop.
      rewrite (read_after_write (fun _ _ => false)) by apply Hrows.
      eexists. reflexivity. }
    destruct Hlast as (s' & ->).
    intros col c Hc.
    destruct (write_keycol_data_pins 0x7B s') as (Hcols & _).
    apply Hcols. exact Hc.
  - intros fuel. simpl. pose proof (Hscan s) as Hs.
    destruct (keypad_scan s) as [key s']. simpl in Hs |- *.
    rewrite Hs. reflexivity.
  - intros fuel. apply getkey_pressed_none. exact Hscan.
Qed.

(** An instance of X27: the example keypad with no key closed. *)
Lemma X27_keypad_scan_no_key_witness :
  (keypad_scan (G:=sim_keypad (fun _ _ => false)) (sim_regs 0 0)).1
    = NO_KEY_PRESSED /\
  (forall col c,
     kp_col_config_data !! col = Some c ->
     pin_driven_high c
       (keypad_scan (G:=sim_keypad (fun _ _ => false)) (sim_regs 0 0)).2
     = Z.testbit 0x7B (Z.of_nat col)) /\
  (forall fuel,
     wait_no_key_pressed (G:=sim_keypad (fun _ _ => false)) (S fuel)
       (sim_regs 0 0)
     = Some (keypad_scan (G:=sim_keypad (fun _ _ => false))
               (sim_regs 0 0)).2) /\
  (forall fuel,
     getkey_pressed (G:=sim_keypad (fun _ _ => false)) fuel (sim_regs 0 0)
     = None).
Proof.
  apply (X27_keypad_scan_no_key (sim_keypad (fun _ _ => false))
           (sim_regs 0 0)).
  intros s'. apply sim_keypad_rows.
Defined.

(** ** The LaunchPad's own LEDs *)

Lemma lp_leds_on_testbit index c s q n :
  lp_led_config_data !! index = Some c -> 0 <= n < 32 ->
  Z.testbit (DOUT31_0 q (lp_leds_on index s)) n
    = if port_eqb q (port_of c) && (n =? Z.log2 (bit_mask c))
      then polarity c =? ACTIVE_HIGH
      else Z.testbit (DOUT31_0 q s) n.
Proof.
  intros Hc Hn. unfold lp_leds_on. rewrite Hc.
  do 4 (destruct index as [|index];
        [injection Hc as <-;
         first [apply testbit_DOUT31_0_or | apply testbit_DOUT31_0_and_not];
         [exact Hn|vm_compute; discriminate]|]).
  discriminate Hc.
Qed.

Lemma lp_leds_off_testbit index c s q n :
  lp_led_config_data !! index = Some c -> 0 <= n < 32 ->
  Z.testbit (DOUT31_0 q (lp_leds_off index s)) n
    = if port_eqb q (port_of c) && (n =? Z.log2 (bit_mask c))
      then negb (polarity c =? ACTIVE_HIGH)
      else Z.testbit (DOUT31_0 q s) n.
Proof.
  intros Hc Hn. unfold lp_leds_off. rewrite Hc.
  do 4 (destruct index as [|index];
        [injection Hc as <-;
         first [apply testbit_DOUT31_0_or | apply testbit_DOUT31_0_and_not];
         [exact Hn|vm_compute; discriminate]|]).
  discriminate Hc.
Qed.

Lemma lp_led_pins index c :
  lp_led_config_data !! index = Some c -> 0 <= Z.log2 (bit_mask c) < 32.
Proof.
  intros Hc.
  do 4 (destruct index as [|index];
        [injection Hc as <-; vm_compute; split;
         (discriminate || reflexivity)|]).
  discriminate Hc.
Qed.

(** X28.  [lp_leds_on] drives the pin of its LED to the level at which
    the LED is lit - high for an active-high entry of the table, low for an
    active-low one - and [lp_leds_off] to the other level; neither changes
    another bit of the two output registers. *)
Theorem X28_lp_leds_active_level (index : nat) (c : gpio_struct)
    (s : gpio_regs) :
  lp_led_config_data !! index = Some c ->
  pin_driven_high c (lp_leds_on index s) = (polarity c =? ACTIVE_HIGH) /\
  pin_driven_high c (lp_leds_off index s)
    = negb (polarity c =? ACTIVE_HIGH) /\
  (forall q n,
     0 <= n < 32 -> (q, n) <> pin_of c ->
     Z.testbit (DOUT31_0 q (lp_leds_on index s)) n
       = Z.testbit (DOUT31_0 q s) n /\
     Z.testbit (DOUT31_0 q (lp_leds_off index s)) n
       = Z.testbit (DOUT31_0 q s) n).
Proof.
  intros Hc.
  pose proof (lp_led_pins index c Hc) as Hn.
  pose proof (lp_leds_on_testbit index c s) as Hon.
  pose proof (lp_leds_off_testbit index c s) as Hoff.
  assert (Hself : port_eqb (port_of c) (port_of c)
                  && (Z.log2 (bit_mask c) =? Z.log2 (bit_mask c)) = true).
  { apply pin_hit. reflexivity. }
  split; [|split].
  - unfold pin_driven_high. rewrite (Hon _ _ Hc Hn), Hself. reflexivity.
  - unfold pin_driven_high. rewrite (Hoff _ _ Hc Hn), Hself. reflexivity.
  - intros q n Hqn Hne.
    assert (Hmiss : port_eqb q (port_of c) && (n =? Z.log2 (bit_mask c))
                    = false).
    { apply not_true_iff_false. intros Hh. apply pin_hit in Hh.
      apply Hne. symmetry. exact Hh. }
    rewrite (Hon _ _ Hc Hqn), (Hoff _ _ Hc Hqn), Hmiss. auto.
Qed.

(** An instance of X28: the green LED, active high on pin 27 of port B. *)
Lemma X28_lp_leds_active_level_witness :
  pin_driven_high
    {| port_id := GPIO_PORTB; bit_mask := Z.shiftl 1 27;
       polarity := ACTIVE_HIGH |}
    (lp_leds_on 2 (sim_regs 0 0)) = (ACTIVE_HIGH =? ACTIVE_HIGH) /\
  pin_driven_high
    {| port_id := GPIO_PORTB; bit_mask := Z.shiftl 1 27;
       polarity := ACTIVE_HIGH |}
    (lp_leds_off 2 (sim_regs 0 0)) = negb (ACTIVE_HIGH =? ACTIVE_HIGH) /\
  (forall q n,
     0 <= n < 32 ->
     (q, n) <> pin_of {| port_id := GPIO_PORTB; bit_mask := Z.shiftl 1 27;
                         polarity := ACTIVE_HIGH |} ->
     Z.testbit (DOUT31_0 q (lp_leds_on 2 (sim_regs 0 0))) n
       = Z.testbit (DOUT31_0 q (sim_regs 0 0)) n /\
     Z.testbit (DOUT31_0 q (lp_leds_off 2 (sim_regs 0 0))) n
       = Z.testbit (DOUT31_0 q (sim_regs 0 0)) n).
Proof.
  apply (X28_lp_leds_active_level 2). reflexivity.
Defined.


(** * The delay loops of clock.c *)

Lemma cycles_repeat count n :
  Clock.cycles (repeat count n) = Z.of_nat n * count.
Proof.
  induction n as [|n IH]; [reflexivity|].
  simpl repeat. unfold Clock.cycles in *. simpl fold_right. rewrite IH. lia.
Qed.

(** The loop leaves after as many calls as the counter held. *)
Lemma delay_loop_calls (fuel : nat) (n count : Z) :
  0 <= n < 2 ^ 32 -> (Z.to_nat n < fuel)%nat ->
  Clock.delay_loop fuel n count = Some (repeat count (Z.to_nat n)).
Proof.
  revert n. induction fuel as [|fuel IH]; intros n Hn Hfuel; [lia|].
  simpl Clock.delay_loop. destruct (Z.eqb_spec n 0) as [->|Hz].
  - reflexivity.
  - assert (Hu : u32 (n - 1) = n - 1) by (apply Z.mod_small; lia).
    rewrite Hu, IH by lia.
    replace (Z.to_nat n) with (S (Z.to_nat (n - 1))) by lia.
    reflexivity.
Qed.

(** X29.  The delays count calls of [clock_delay], not time.  With the
    bus clock at [f] Hz, [msec_delay(ms)] returns after [ms] calls of
    [f / 1000] cycles each; [usec_delay(us)] returns after only [us / 2]
    calls of [f / 1000000] cycles each, so an odd count delays as the even
    count below it and [usec_delay(1)] makes no call at all. *)
Theorem X29_delay_loops (fuel : nat) (f n : Z) :
  0 <= f < 2 ^ 32 -> 0 <= n < 2 ^ 32 -> (Z.to_nat n < fuel)%nat ->
  (exists calls,
     Clock.msec_delay fuel f n = Some calls /\
     calls = repeat (f / 1000) (Z.to_nat n) /\
     Clock.cycles calls = n * (f / 1000)) /\
  (exists calls,
     Clock.usec_delay fuel f n = Some calls /\
     calls = repeat (f / 1000000) (Z.to_nat (n / 2)) /\
     Clock.cycles calls = (n / 2) * (f / 1000000)) /\
  Clock.usec_delay fuel f 1 = Some [] /\
  Clock.usec_delay fuel f (2 * (n / 2) + 1)
    = Clock.usec_delay fuel f (2 * (n / 2)).
Proof.
  intros Hf Hn Hfuel.
  assert (Hq : 0 <= n / 2 < 2 ^ 32).
  { split; [apply Z.div_pos; lia|].
    apply Z.div_lt_upper_bound; lia. }
  assert (Hq' : (Z.to_nat (n / 2) < fuel)%nat).
  { assert (n / 2 <= n) by (apply Z.div_le_upper_bound; lia). lia. }
  assert (Hc1 : u32 (f / Clock.MSEC_PER_SECOND) = f / 1000).
  { unfold u32, Clock.MSEC_PER_SECOND. apply Z.mod_small.
    split; [apply Z.div_pos; lia|apply Z.div_lt_upper_bound; lia]. }
  assert (Hc2 : u32 (f / Clock.USEC_PER_SECOND) = f / 1000000).
  { unfold u32, Clock.USEC_PER_SECOND. apply Z.mod_small.
    split; [apply Z.div_pos; lia|apply Z.div_lt_upper_bound; lia]. }
  assert (Hu : u32 (n / 2) = n / 2) by (apply Z.mod_small; exact Hq).
  unfold Clock.msec_delay, Clock.usec_delay.
  rewrite Hc1, Hc2, Hu.
  split.
  { eexists. split; [apply delay_loop_calls; assumption|].
    split; [reflexivity|].
    rewrite cycles_repeat, Z2Nat.id by lia. reflexivity. }
  split.
  { eexists. split; [apply delay_loop_calls; assumption|].
    split; [reflexivity|].
    rewrite cycles_repeat, Z2Nat.id by lia. reflexivity. }
  split.
  { destruct fuel; [lia|]. reflexivity. }
  replace ((2 * (n / 2) + 1) / 2) with (n / 2)
    by (apply Z.div_unique with (r := 1); lia).
  replace (2 * (n / 2) / 2) with (n / 2)
    by (apply Z.div_unique with (r := 0); lia).
  reflexivity.
Qed.

(** An instance of X29: delays of 10, at the 32 MHz of the reset clock. *)
Lemma X29_delay_loops_witness :
  (exists calls,
     Clock.msec_delay 11 32000000 10 = Some calls /\
     calls = repeat (32000000 / 1000) (Z.to_nat 10) /\
     Clock.cycles calls = 10 * (32000000 / 1000)) /\
  (exists calls,
     Clock.usec_delay 11 32000000 10 = Some calls /\
     calls = repeat (32000000 / 1000000) (Z.to_nat (10 / 2)) /\
     Clock.cycles calls = (10 / 2) * (32000000 / 1000000)) /\
  Clock.usec_delay 11 32000000 1 = Some [] /\
  Clock.usec_delay 11 32000000 (2 * (10 / 2) + 1)
    = Clock.usec_delay 11 32000000 (2 * (10 / 2)).
Proof.
  apply (X29_delay_loops 11 32000000 10); lia.
Defined.
